(** * Tensor-like variables of the tracing compiler

    A shallow embedding of [torch/_dynamo/variables/tensor.py]: the metadata
    model of [TensorVariable], its attribute and method protocol, the
    symbolic-scalar variable [SymNodeVariable] and the subclass constructor
    variable [TensorSubclassVariable].

    Python objects are modelled by inductive types, [None]-able fields by
    [option], the output graph by explicit state passing, and raised
    exceptions by an outcome type that keeps the (possibly already mutated)
    state. *)

From Stdlib Require Import ZArith List String Bool Lia.
From Stdlib Require DecimalString.
Import ListNotations.

Local Open Scope string_scope.
Local Open Scope list_scope.
Local Open Scope Z_scope.

(** ** Runtime values *)

Module Torch.

(** [torch.dtype] objects; [itemsize] and [is_floating_point] are their
    attributes of the same name. *)
Inductive dtype :=
| float16 | bfloat16 | float32 | float64
| uint8 | int8 | int16 | int32 | int64
| bool_ | complex64 | complex128.

Definition itemsize (d : dtype) : Z :=
  match d with
  | uint8 | int8 | bool_ => 1
  | float16 | bfloat16 | int16 => 2
  | float32 | int32 => 4
  | float64 | int64 | complex64 => 8
  | complex128 => 16
  end.

Definition is_floating_point (d : dtype) : bool :=
  match d with
  | float16 | bfloat16 | float32 | float64 => true
  | _ => false
  end.

Definition dtype_eqb (a b : dtype) : bool :=
  match a, b with
  | float16, float16 | bfloat16, bfloat16 | float32, float32
  | float64, float64 | uint8, uint8 | int8, int8 | int16, int16
  | int32, int32 | int64, int64 | bool_, bool_
  | complex64, complex64 | complex128, complex128 => true
  | _, _ => false
  end.

(** [torch.layout] objects and their [repr]. *)
Inductive layout :=
| strided | sparse_coo | sparse_csr | sparse_csc | sparse_bsr | sparse_bsc
| jagged | mkldnn.

Definition layout_eqb (a b : layout) : bool :=
  match a, b with
  | strided, strided | sparse_coo, sparse_coo | sparse_csr, sparse_csr
  | sparse_csc, sparse_csc | sparse_bsr, sparse_bsr
  | sparse_bsc, sparse_bsc | jagged, jagged | mkldnn, mkldnn => true
  | _, _ => false
  end.

Definition layout_repr (l : layout) : string :=
  match l with
  | strided => "torch.strided"
  | sparse_coo => "torch.sparse_coo"
  | sparse_csr => "torch.sparse_csr"
  | sparse_csc => "torch.sparse_csc"
  | sparse_bsr => "torch.sparse_bsr"
  | sparse_bsc => "torch.sparse_bsc"
  | jagged => "torch.jagged"
  | mkldnn => "torch._mkldnn"
  end.

(** [torch.memory_format] objects. *)
Inductive memory_format :=
| contiguous_format | channels_last | channels_last_3d | preserve_format.

Definition memory_format_eqb (a b : memory_format) : bool :=
  match a, b with
  | contiguous_format, contiguous_format | channels_last, channels_last
  | channels_last_3d, channels_last_3d
  | preserve_format, preserve_format => true
  | _, _ => false
  end.

(** [torch.device]: a device type name and an optional index. *)
Record device := mk_device { type_ : string; index : option Z }.

End Torch.

(** ** Symbolic integers

    A [SymInt] wraps a sympy expression over shape symbols.  A backed symbol
    carries the hint observed on the example input, an unbacked one has none. *)

Record Symbol := mk_symbol { sym_name : string; sym_hint : option Z }.

Inductive SymExpr :=
| Num (z : Z)
| Sym (s : Symbol)
| Add (a b : SymExpr)
| Mul (a b : SymExpr).

Fixpoint free_symbols (e : SymExpr) : list Symbol :=
  match e with
  | Num _ => []
  | Sym s => [s]
  | Add a b | Mul a b => free_symbols a ++ free_symbols b
  end.

(** [expr.is_number]: no symbol occurs in the expression. *)
Fixpoint is_number (e : SymExpr) : bool :=
  match e with
  | Num _ => true
  | Sym _ => false
  | Add a b | Mul a b => is_number a && is_number b
  end.

(** Evaluation under the hints of the backed symbols. *)
Fixpoint hint_value (e : SymExpr) : option Z :=
  match e with
  | Num z => Some z
  | Sym s => sym_hint s
  | Add a b =>
      match hint_value a, hint_value b with
      | Some x, Some y => Some (x + y)
      | _, _ => None
      end
  | Mul a b =>
      match hint_value a, hint_value b with
      | Some x, Some y => Some (x * y)
      | _, _ => None
      end
  end.

(** An entry of [Tensor.size()] or [Tensor.stride()]: a Python [int] or a
    [torch.SymInt].  (The singleton ints of jagged nested tensors are not
    modelled.) *)
Inductive IntLike :=
| PyInt (z : Z)
| SymInt (e : SymExpr).

(** Modelled from the spec: [is_symbolic] and [has_free_symbols] of
    [torch.fx.experimental.symbolic_shapes] are not in the source tree.  A
    plain int is not symbolic; a quantity has free symbols when its
    expression mentions a symbol ("free symbolic components"). *)
Definition is_symbolic (s : IntLike) : bool :=
  match s with
  | PyInt _ => false
  | SymInt _ => true
  end.

Definition has_free_symbols (s : IntLike) : bool :=
  match s with
  | PyInt _ => false
  | SymInt e => negb (is_number e)
  end.

Definition has_free_symbols_seq (l : list IntLike) : bool :=
  existsb has_free_symbols l.

(** A Python class object, as far as the tracer looks at it: its qualified
    name and, when [cls.__torch_function__] is a classmethod, the name of the
    function behind it. *)
Record PyClass := mk_class
  { cls_name : string; cls_torch_function : option string }.

(** Python objects that occur as constants, as arguments unwrapped from
    variables and as example values of scalar graph nodes. *)
#[warnings="-register-all"]
Inductive PyValue :=
| VNone
| VBool (b : bool)
| VInt (z : Z)
| VStr (s : string)
| VSympyInteger (z : Z)
| VSymInt (e : SymExpr)
| VDtype (d : Torch.dtype)
| VDevice (d : Torch.device)
| VLayout (l : Torch.layout)
| VMemoryFormat (m : Torch.memory_format)
| VClass (c : PyClass)
| VTensorType (qualname : string)
| VTuple (items : list PyValue)
| VObject (name : string).

Definition intlike_value (s : IntLike) : PyValue :=
  match s with
  | PyInt z => VInt z
  | SymInt e => VSymInt e
  end.

(** The example value the shape-inference oracle records for a tensor node. *)
Record FakeTensor := mk_fake
  { t_dtype : Torch.dtype;
    t_device : Torch.device;
    t_layout : Torch.layout;
    t_size : list IntLike;
    t_stride : list IntLike;
    t_storage_offset : IntLike;
    t_requires_grad : bool;
    t_is_quantized : bool;
    t_is_sparse : bool;
    t_class : PyClass;
    t_is_batchedtensor : bool;
    t_contiguous_in : list Torch.memory_format }.

Definition t_ndim (t : FakeTensor) : Z := Z.of_nat (List.length (t_size t)).

Definition t_is_contiguous (t : FakeTensor) (m : Torch.memory_format) : bool :=
  existsb (Torch.memory_format_eqb m) (t_contiguous_in t).

(** [has_free_symbols] of a tensor looks at its sizes, strides and storage
    offset. *)
Definition has_free_symbols_tensor (t : FakeTensor) : bool :=
  has_free_symbols_seq (t_size t)
  || has_free_symbols_seq (t_stride t)
  || has_free_symbols (t_storage_offset t).

Inductive ExampleValue :=
| EvTensor (t : FakeTensor)
| EvSize (extents : list IntLike)
| EvScalar (v : PyValue).

(** ** The output graph

    [tx.output] owns the graph under construction.  A [torch.fx.Proxy] is a
    reference to a node; nodes are only ever appended, so a proxy is modelled
    by the position of its node.  [node.meta["example_value"]] is the
    oracle's recorded answer for the node. *)

Inductive Target :=
| TMethod (name : string)
| TFunction (name : string).

#[warnings="-register-all"]
Inductive Arg :=
| AProxy (node : nat)
| AConst (v : PyValue)
| ATuple (items : list Arg).

Record Node := mk_node
  { n_op : string;
    n_target : Target;
    n_args : list Arg;
    n_kwargs : list (string * Arg);
    n_example_value : option ExampleValue }.

Inductive Source :=
| LocalSource (local_name : string)
| AttrSource (base : Source) (member : string).

Inductive GuardBuilder := TYPE_MATCH | HASATTR.

Record Guard := mk_guard { g_source : Source; g_create_fn : GuardBuilder }.

(** What a trace mutates: the graph, the guards installed so far, and how
    often the debugger was entered. *)
Record TraceState := mk_state
  { nodes : list Node;
    guards : list Guard;
    debugger_stops : nat }.

(** ** Exceptions and the tracing monad *)

Inductive Exn :=
| Unsupported (msg : string)
| TypeError (msg : string)
| AttributeError (msg : string)
| IndexError (msg : string)
| KeyError (msg : string)
| UserError (msg : string)
| GuardOnDataDependentSymNode
| AssertionError
| NotImplementedError
| StopIteration.

Inductive Outcome (A : Type) :=
| Returned (a : A) (st : TraceState)
| Raised (e : Exn) (st : TraceState).

Arguments Returned {A} a st.
Arguments Raised {A} e st.

Definition M (A : Type) : Type := TraceState -> Outcome A.

Definition ret {A} (a : A) : M A := fun st => Returned a st.

Definition bind {A B} (m : M A) (k : A -> M B) : M B :=
  fun st =>
    match m st with
    | Returned a st' => k a st'
    | Raised e st' => Raised e st'
    end.

Definition raise {A} (e : Exn) : M A := fun st => Raised e st.

(** [try: m except TypeError as e: h e] *)
Definition catch_TypeError {A} (m : M A) (h : string -> M A) : M A :=
  fun st =>
    match m st with
    | Raised (TypeError msg) st' => h msg st'
    | o => o
    end.

Definition lift {A} (r : Exn + A) : M A :=
  match r with
  | inl e => raise e
  | inr a => ret a
  end.

Declare Scope trace_scope.
Delimit Scope trace_scope with trace.
Notation "x <- m ;; k" := (bind m (fun x => k))
  (at level 61, m at next level, right associativity) : trace_scope.
Notation "m ;;; k" := (bind m (fun _ => k))
  (at level 61, right associativity) : trace_scope.
Local Open Scope trace_scope.

(** [exc.unimplemented(msg)] raises the unsupported-construct signal. *)
Definition unimplemented {A} (msg : string) : M A := raise (Unsupported msg).

Fixpoint mapM {A B} (f : A -> M B) (l : list A) : M (list B) :=
  match l with
  | [] => ret []
  | x :: xs => y <- f x ;; ys <- mapM f xs ;; ret (y :: ys)
  end.

(** *** Graph primitives *)

(** [tx.output.create_proxy(kind, target, args, kwargs)]: append a node and
    hand back the proxy for it. *)
Definition create_proxy (kind : string) (target : Target)
    (args : list Arg) (kwargs : list (string * Arg)) : M nat :=
  fun st =>
    Returned (List.length (nodes st))
      (mk_state (nodes st ++ [mk_node kind target args kwargs None])
                (guards st) (debugger_stops st)).

(** [proxy.node.meta.get("example_value")] *)
Definition example_value_of (st : TraceState) (p : nat) : option ExampleValue :=
  match nth_error (nodes st) p with
  | Some n => n_example_value n
  | None => None
  end.

Definition meta_get_example_value (p : nat) : M (option ExampleValue) :=
  fun st => Returned (example_value_of st p) st.

Fixpoint update_nth {A} (n : nat) (f : A -> A) (l : list A) : list A :=
  match l, n with
  | [], _ => []
  | x :: xs, O => f x :: xs
  | x :: xs, S n' => x :: update_nth n' f xs
  end.

(** [proxy.node.meta["example_value"] = v] *)
Definition meta_set_example_value (p : nat) (v : ExampleValue) : M unit :=
  fun st =>
    Returned tt
      (mk_state
         (update_nth p
            (fun n => mk_node (n_op n) (n_target n) (n_args n) (n_kwargs n)
                        (Some v))
            (nodes st))
         (guards st) (debugger_stops st)).

Definition install_guard (g : Guard) : M unit :=
  fun st => Returned tt (mk_state (nodes st) (guards st ++ [g]) (debugger_stops st)).

(** [breakpoint()]: the debugger is entered and execution goes on. *)
Definition breakpoint : M unit :=
  fun st => Returned tt (mk_state (nodes st) (guards st) (S (debugger_stops st))).

(** ** Variables *)

(** The classes of the [TensorVariable] family defined in this file.  They
    share the fields below; the [raw_value] and [need_unwrap] that
    [UnspecializedPythonVariable] and [FakeItemVariable] add are not looked at
    by any method embedded here and are left out. *)
Inductive TensorClass :=
| TensorVariable_cls
| NumpyNdarrayVariable_cls
| UnspecializedPythonVariable_cls
| FakeItemVariable_cls.

(** The fields [TensorVariable.__init__] stores, and [source] of the base
    class.  A field that is [None] in Python is [None] here. *)
Record TensorFields := mk_tensor
  { proxy : nat;
    dtype : option Torch.dtype;
    device : option Torch.device;
    layout : option Torch.layout;
    ndim : option Z;
    size : option (list IntLike);
    stride : option (list IntLike);
    requires_grad : option bool;
    is_quantized : option bool;
    is_contiguous : option (list Torch.memory_format);
    is_sparse : option bool;
    class_type : option PyClass;
    source : option Source }.

#[warnings="-register-all"]
Inductive VariableTracker :=
| TensorVariable (cls : TensorClass) (f : TensorFields)
| ConstantVariable (value : PyValue) (src : option Source)
| SizeVariable (items : list VariableTracker) (src : option Source)
| TupleVariable (items : list VariableTracker) (src : option Source)
| ListVariable (items : list VariableTracker) (src : option Source)
| SymNodeVariable (p : nat) (sym_num : ExampleValue) (src : option Source)
| TensorSubclassVariable (value : PyClass) (src : option Source)
| TensorWithTFOverrideVariable (f : TensorFields) (subclass : PyClass)
    (torch_function_fn : VariableTracker)
| UserDefinedClassVariable (value : PyValue) (src : option Source)
| DelayGraphBreakVariable (src : option Source)
| BuiltVariable (value : PyValue) (src : option Source).

(** Induction over variables, through the sequences they contain. *)

Section VariableTracker_nested_ind.

Variable P : VariableTracker -> Prop.
Hypothesis H_tensor : forall c f, P (TensorVariable c f).
Hypothesis H_constant : forall x s, P (ConstantVariable x s).
Hypothesis H_size : forall l s, Forall P l -> P (SizeVariable l s).
Hypothesis H_tuple : forall l s, Forall P l -> P (TupleVariable l s).
Hypothesis H_list : forall l s, Forall P l -> P (ListVariable l s).
Hypothesis H_symnode : forall p n s, P (SymNodeVariable p n s).
Hypothesis H_subclass : forall c s, P (TensorSubclassVariable c s).
Hypothesis H_override :
  forall f c fn, P fn -> P (TensorWithTFOverrideVariable f c fn).
Hypothesis H_class : forall x s, P (UserDefinedClassVariable x s).
Hypothesis H_delay : forall s, P (DelayGraphBreakVariable s).
Hypothesis H_built : forall x s, P (BuiltVariable x s).

Fixpoint VariableTracker_nested_ind (v : VariableTracker) : P v :=
  let all :=
    fix all (l : list VariableTracker) : Forall P l :=
      match l with
      | [] => Forall_nil P
      | x :: xs => Forall_cons x (VariableTracker_nested_ind x) (all xs)
      end in
  match v with
  | TensorVariable c f => H_tensor c f
  | ConstantVariable x s => H_constant x s
  | SizeVariable l s => H_size l s (all l)
  | TupleVariable l s => H_tuple l s (all l)
  | ListVariable l s => H_list l s (all l)
  | SymNodeVariable p n s => H_symnode p n s
  | TensorSubclassVariable c s => H_subclass c s
  | TensorWithTFOverrideVariable f c fn =>
      H_override f c fn (VariableTracker_nested_ind fn)
  | UserDefinedClassVariable x s => H_class x s
  | DelayGraphBreakVariable s => H_delay s
  | BuiltVariable x s => H_built x s
  end.

End VariableTracker_nested_ind.

Definition kwargs_t := list (string * VariableTracker).

(** [result.source = s] *)
Definition set_source_fields (f : TensorFields) (s : option Source) : TensorFields :=
  mk_tensor (proxy f) (dtype f) (device f) (layout f) (ndim f) (size f)
    (stride f) (requires_grad f) (is_quantized f) (is_contiguous f)
    (is_sparse f) (class_type f) s.

Definition set_source (v : VariableTracker) (s : option Source) : VariableTracker :=
  match v with
  | TensorVariable c f => TensorVariable c (set_source_fields f s)
  | ConstantVariable x _ => ConstantVariable x s
  | SizeVariable l _ => SizeVariable l s
  | TupleVariable l _ => TupleVariable l s
  | ListVariable l _ => ListVariable l s
  | SymNodeVariable p n _ => SymNodeVariable p n s
  | TensorSubclassVariable c _ => TensorSubclassVariable c s
  | TensorWithTFOverrideVariable f c fn =>
      TensorWithTFOverrideVariable (set_source_fields f s) c fn
  | UserDefinedClassVariable c _ => UserDefinedClassVariable c s
  | DelayGraphBreakVariable _ => DelayGraphBreakVariable s
  | BuiltVariable x _ => BuiltVariable x s
  end.

(** [isinstance(v, TensorVariable)]: the four classes of this file and
    [TensorWithTFOverrideVariable], which derives from [TensorVariable]. *)
Definition isinstance_TensorVariable (v : VariableTracker) : option TensorFields :=
  match v with
  | TensorVariable _ f => Some f
  | TensorWithTFOverrideVariable f _ _ => Some f
  | _ => None
  end.

(** Modelled from the spec: [ConstantVariable.create] (constant.py) is not in
    the source tree; it yields the plain constant variable that carries the
    value. *)
Definition ConstantVariable_create (v : PyValue) : VariableTracker :=
  ConstantVariable v None.

(** Modelled from the spec: [as_proxy] of the variable kinds other than
    [TensorVariable] and [SymNodeVariable], and [utils.proxy_args_kwargs],
    are not in the source tree.  The graph-node factory records an operation
    "over [self] and the argument variables": a variable that stands for a
    node is passed as its proxy, a constant as its value, a sequence item by
    item, a variable that stands for a Python object as that object. *)
Fixpoint as_proxy (v : VariableTracker) : Arg :=
  match v with
  | TensorVariable _ f => AProxy (proxy f)
  | SymNodeVariable p _ _ => AProxy p
  | TensorWithTFOverrideVariable f _ _ => AProxy (proxy f)
  | ConstantVariable x _ => AConst x
  | SizeVariable l _ | TupleVariable l _ | ListVariable l _ =>
      ATuple (map as_proxy l)
  | TensorSubclassVariable c _ => AConst (VClass c)
  | UserDefinedClassVariable x _ => AConst x
  | DelayGraphBreakVariable _ => AConst (VObject "DelayGraphBreakVariable")
  | BuiltVariable x _ => AConst x
  end.

Definition proxy_args_kwargs (args : list VariableTracker) (kwargs : kwargs_t)
  : list Arg * list (string * Arg) :=
  (map as_proxy args, map (fun kv => (fst kv, as_proxy (snd kv))) kwargs).

(** Modelled from the spec: [as_python_constant] of the base class and of
    [ConstantVariable] are not in the source tree; arguments are "unwrapped
    from their variable representation", which only a constant allows.
    [TensorSubclassVariable.as_python_constant] is the source's. *)
Definition as_python_constant (v : VariableTracker) : M PyValue :=
  match v with
  | ConstantVariable x _ => ret x
  | TensorSubclassVariable c _ => ret (VClass c)
  | _ => raise NotImplementedError
  end.

(** ** Metadata extraction *)

(** Modelled from the spec: [int(s)] of a symbolic quantity (symbolic_shapes
    is not in the source tree) "forces a concrete value out of the symbolic
    expression", by the hints of its symbols; without a hint it fails with
    the data-dependent guard condition. *)
Definition int_ (s : IntLike) : Exn + Z :=
  match s with
  | PyInt z => inr z
  | SymInt e =>
      match hint_value e with
      | Some z => inr z
      | None => inl GuardOnDataDependentSymNode
      end
  end.

Fixpoint map_result {A B} (f : A -> Exn + B) (l : list A) : Exn + list B :=
  match l with
  | [] => inr []
  | x :: xs =>
      match f x with
      | inl e => inl e
      | inr y =>
          match map_result f xs with
          | inl e => inl e
          | inr ys => inr (y :: ys)
          end
      end
  end.

(** Modelled from the spec: [torch._prims_common._memory_formats], "the
    recognized memory-format tags", is not in the source tree. *)
Definition _memory_formats : list Torch.memory_format :=
  [Torch.contiguous_format; Torch.preserve_format;
   Torch.channels_last; Torch.channels_last_3d].

(** The dictionary [specialize] returns.  The eight keys written by the
    dictionary display are always there; [size], [stride] and
    [is_contiguous] are keys that may be missing, and the value stored under
    [is_contiguous] may itself be [None]. *)
Record Props := mk_props
  { props_dtype : Torch.dtype;
    props_device : Torch.device;
    props_layout : Torch.layout;
    props_ndim : Z;
    props_requires_grad : bool;
    props_is_quantized : bool;
    props_is_sparse : bool;
    props_class_type : PyClass;
    props_size : option (list IntLike);
    props_stride : option (list IntLike);
    props_is_contiguous : option (option (list Torch.memory_format)) }.

(** [TensorVariable.specialize] *)
Definition specialize (value : FakeTensor) : Exn + Props :=
  let base sz st ic :=
    mk_props (t_dtype value) (t_device value) (t_layout value) (t_ndim value)
      (t_requires_grad value) (t_is_quantized value) (t_is_sparse value)
      (t_class value) sz st ic in
  if negb (has_free_symbols_tensor value) then
    match map_result
            (fun s => if is_symbolic s
                      then match int_ s with
                           | inl e => inl e
                           | inr z => inr (PyInt z)
                           end
                      else inr s)
            (t_size value) with
    | inl e => inl e
    | inr sz =>
        inr (base (Some sz) (Some (t_stride value))
               (Some (if t_is_batchedtensor value then None
                      else Some (filter (t_is_contiguous value) _memory_formats))))
    end
  else inr (base None None None).

(** [TensorVariable(proxy, **props, source=...)]: a key missing from [props]
    leaves the default [None] of [__init__]. *)
Definition TensorFields_of_props (p : nat) (props : Props) (src : option Source)
  : TensorFields :=
  mk_tensor p
    (Some (props_dtype props)) (Some (props_device props))
    (Some (props_layout props)) (Some (props_ndim props))
    (props_size props) (props_stride props)
    (Some (props_requires_grad props)) (Some (props_is_quantized props))
    (match props_is_contiguous props with
     | Some c => c
     | None => None
     end)
    (Some (props_is_sparse props)) (Some (props_class_type props)) src.

(** ** The environment of a trace

    Global switches, tables and collaborators the module reads but does not
    own.  What is code outside this file is a field here, so that every
    statement below holds whatever these collaborators answer. *)

#[warnings="-register-all"]
Inductive ExArg :=
| XExample (ev : ExampleValue)
| XConst (v : PyValue)
| XTuple (items : list ExArg).

Definition Handler : Type :=
  TensorClass -> TensorFields -> list VariableTracker -> kwargs_t ->
  M (option VariableTracker).

Record Env := mk_env
  { (** [tx.strict_checks_enabled] *)
    strict_checks_enabled : bool;
    (** [torch._dynamo.config._autograd_backward_strict_mode_banned_ops] *)
    _autograd_backward_strict_mode_banned_ops : list string;
    (** [config.trace_numpy], [config.capture_scalar_outputs] *)
    trace_numpy : bool;
    capture_scalar_outputs : bool;
    (** whether [import numpy as np] succeeded *)
    np : bool;
    (** [torch.is_grad_enabled()] *)
    is_grad_enabled : bool;
    (** [utils.tensortype_to_dtype]: legacy tensor type name, its dtypes *)
    tensortype_to_dtype : list (string * list Torch.dtype);
    (** the oracle: one abstract operation on the example values of the
        arguments of a node *)
    run_node : string -> Target -> list ExArg -> list (string * ExArg) ->
               Exn + ExampleValue;
    (** Python [==] between a recorded example value and a supplied one *)
    example_value_eq : ExampleValue -> ExampleValue -> bool;
    (** [name] is an operator of [torch.ops.aten] tagged [inplace_view] *)
    aten_inplace_view : string -> bool;
    (** [inspect.getattr_static(torch.Tensor, name)] is a getset descriptor *)
    Tensor_getset_descriptor : string -> bool;
    (** what [dynamic_getattr] finds behind a source: [None] when the code
        refuses (the source cannot be evaluated, the object bound to it is
        [None] or customizes attribute access, the attribute is callable),
        and otherwise the outcome of [getattr(obj, name)], which raises
        [AttributeError] when the object has no such attribute *)
    source_getattr : Source -> string -> option (Exn + PyValue);
    (** the method handlers of [TensorVariable] that are not embedded below,
        by name *)
    other_handler : string -> Handler }.

Section Trace.

Variable env : Env.

(** *** The oracle and the value-wrapping service *)

Fixpoint arg_example (st : TraceState) (a : Arg) : option ExArg :=
  match a with
  | AProxy p => option_map XExample (example_value_of st p)
  | AConst v => Some (XConst v)
  | ATuple l =>
      option_map XTuple
        ((fix go (l : list Arg) : option (list ExArg) :=
            match l with
            | [] => Some []
            | x :: xs =>
                match arg_example st x, go xs with
                | Some y, Some ys => Some (y :: ys)
                | _, _ => None
                end
            end) l)
  end.

Fixpoint args_example (st : TraceState) (l : list Arg) : option (list ExArg) :=
  match l with
  | [] => Some []
  | x :: xs =>
      match arg_example st x, args_example st xs with
      | Some y, Some ys => Some (y :: ys)
      | _, _ => None
      end
  end.

Fixpoint kwargs_example (st : TraceState) (l : list (string * Arg))
  : option (list (string * ExArg)) :=
  match l with
  | [] => Some []
  | (k, x) :: xs =>
      match arg_example st x, kwargs_example st xs with
      | Some y, Some ys => Some ((k, y) :: ys)
      | _, _ => None
      end
  end.

(** Modelled from the spec: [utils.get_fake_value] is not in the source
    tree.  "Given an operation and symbolic inputs, returns an example
    value": the operation of the node is run on the example values recorded
    for its arguments; an argument without one is a [KeyError]. *)
Definition get_fake_value (p : nat) : M ExampleValue :=
  fun st =>
    match nth_error (nodes st) p with
    | None => Raised (KeyError "example_value") st
    | Some n =>
        match args_example st (n_args n), kwargs_example st (n_kwargs n) with
        | Some xs, Some ks =>
            lift (run_node env (n_op n) (n_target n) xs ks) st
        | _, _ => Raised (KeyError "example_value") st
        end
    end.

(** [SymNodeVariable.create(tx, proxy, sym_num, **options)]; a [sym_num]
    of [None] is [EvScalar VNone]. *)
Definition SymNodeVariable_create (p : nat) (sym_num : ExampleValue)
    (src : option Source) : M VariableTracker :=
  recorded <- meta_get_example_value p ;;
  match recorded with
  | Some r =>
      if example_value_eq env r sym_num then ret tt else raise AssertionError
  | None => ret tt
  end ;;;
  sym_num <- match sym_num with
             | EvScalar VNone => get_fake_value p
             | _ => ret sym_num
             end ;;
  meta_set_example_value p sym_num ;;;
  match sym_num with
  | EvScalar (VSympyInteger z) =>
      breakpoint ;;; ret (ConstantVariable_create (VInt z))
  | EvScalar (VInt z) => ret (ConstantVariable_create (VInt z))
  | EvScalar (VBool b) => ret (ConstantVariable_create (VBool b))
  | _ => ret (SymNodeVariable p sym_num src)
  end.

(** [SymNodeVariable.evaluate_expr], with [guard_scalar] modelled from the
    spec: a concrete value is forced out of the expression; where that needs
    data not available at trace time the user-facing diagnostic is raised
    (the text of the inner exception, which the source appends, is left
    out). *)
Definition evaluate_expr (sym_num : ExampleValue) : M PyValue :=
  match sym_num with
  | EvScalar (VSymInt e) =>
      match hint_value e with
      | Some z => ret (VInt z)
      | None =>
          raise (UserError
                   "Consider annotating your code using torch._constrain_as_*().")
      end
  | EvScalar (VInt z) => ret (VInt z)
  | EvScalar (VBool b) => ret (VBool b)
  | _ => raise AssertionError
  end.

(** Modelled from the spec: the value-wrapping service of builder.py is not
    in the source tree.  It asks the oracle for the example value of the
    node, records it, and "chooses the correct concrete variable kind from
    the oracle's example value's runtime type": a tensor becomes a variable
    of the class asked for, with the metadata [specialize] extracts; a size
    a [SizeVariable] whose symbolic extents are symbolic-scalar
    placeholders over subscript nodes; a symbolic scalar a
    [SymNodeVariable]; anything else a constant. *)
Fixpoint wrap_size_items (p : nat) (i : Z) (l : list IntLike)
  : M (list VariableTracker) :=
  match l with
  | [] => ret []
  | x :: xs =>
      v <- match x with
           | PyInt z => ret (ConstantVariable_create (VInt z))
           | SymInt e =>
               pi <- create_proxy "call_function" (TFunction "getitem")
                       [AProxy p; AConst (VInt i)] [] ;;
               SymNodeVariable_create pi (EvScalar (VSymInt e)) None
           end ;;
      vs <- wrap_size_items p (i + 1) xs ;;
      ret (v :: vs)
  end.

Definition wrap_fx_proxy_cls (target_cls : TensorClass) (p : nat)
    (src : option Source) : M VariableTracker :=
  example_value <- get_fake_value p ;;
  meta_set_example_value p example_value ;;;
  match example_value with
  | EvTensor t =>
      props <- lift (specialize t) ;;
      ret (TensorVariable target_cls (TensorFields_of_props p props src))
  | EvSize extents =>
      items <- wrap_size_items p 0 extents ;;
      ret (SizeVariable items src)
  | EvScalar (VSymInt e) => ret (SymNodeVariable p example_value src)
  | EvScalar v => ret (ConstantVariable v src)
  end.

Definition wrap_fx_proxy (p : nat) (src : option Source) : M VariableTracker :=
  wrap_fx_proxy_cls TensorVariable_cls p src.

(** Modelled from the spec: [VariableBuilder(tx, source)(value)] is the same
    service for a Python object that has provenance. *)
Definition VariableBuilder (s : Source) (value : PyValue) : M VariableTracker :=
  ret (match value with
       | VNone | VBool _ | VInt _ | VStr _ => ConstantVariable value (Some s)
       | VClass c => UserDefinedClassVariable value (Some s)
       | _ => BuiltVariable value (Some s)
       end).

(** Modelled from the spec: [TensorWithTFOverrideVariable.from_tensor_var]
    (torch_function.py) returns "a new composite variable combining the
    original tensor-like data with the overload function". *)
Definition from_tensor_var (tensor_var : TensorFields) (class_type : PyClass)
    (torch_function_fn : VariableTracker) : M VariableTracker :=
  ret (TensorWithTFOverrideVariable tensor_var class_type torch_function_fn).

(** *** Argument helpers *)

(** What [utils.guard_if_dyn] hands back: a Python value, or the variable
    itself when it is neither a constant nor a symbolic scalar. *)
Inductive Guarded :=
| GValue (v : PyValue)
| GVariable (v : VariableTracker).

(** Modelled from the spec: [utils.guard_if_dyn] is not in the source tree;
    a symbolic scalar is evaluated, a constant unwrapped.  The result is
    [None] for no argument and for the constant [None]. *)
Definition guard_if_dyn (arg : option VariableTracker) : M (option Guarded) :=
  match arg with
  | None => ret None
  | Some (SymNodeVariable _ sym_num _) =>
      v <- evaluate_expr sym_num ;; ret (Some (GValue v))
  | Some (ConstantVariable VNone _) => ret None
  | Some (ConstantVariable x _) => ret (Some (GValue x))
  | Some v => ret (Some (GVariable v))
  end.

(** [operator.index] of a subscript. *)
Definition index_of (d : Guarded) : option Z :=
  match d with
  | GValue (VInt z) => Some z
  | GValue (VBool b) => Some (if b then 1 else 0)
  | _ => None
  end.

(** [r[dim]] on a tuple: negative subscripts count from the end. *)
Definition getitem_with {A} (out_of_range not_an_index : string)
    (r : list A) (d : Guarded) : Exn + A :=
  match index_of d with
  | None => inl (TypeError not_an_index)
  | Some i =>
      let n := Z.of_nat (List.length r) in
      let j := if i <? 0 then i + n else i in
      if (0 <=? j) && (j <? n) then
        match nth_error r (Z.to_nat j) with
        | Some x => inr x
        | None => inl (IndexError out_of_range)
        end
      else inl (IndexError out_of_range)
  end.

Definition tuple_getitem {A} : list A -> Guarded -> Exn + A :=
  getitem_with "tuple index out of range"
    "tuple indices must be integers or slices".

(** Decimal notation of an integer, as [str] prints it. *)
Definition show_Z (z : Z) : string :=
  DecimalString.NilZero.string_of_int (Z.to_int z).

(** The message of torch for a dimension that a tensor of rank [n] does not
    have. *)
Definition dimension_out_of_range (n : nat) (i : Z) : string :=
  match n with
  | O => "Dimension specified as " ++ show_Z i ++ " but tensor has no dimensions"
  | S _ =>
      "Dimension out of range (expected to be in range of ["
      ++ show_Z (- Z.of_nat n) ++ ", " ++ show_Z (Z.of_nat n - 1)
      ++ "], but got " ++ show_Z i ++ ")"
  end.

(** [fake.size(dim)] and [fake.stride(dim)]: torch takes an [int] for
    [dim], and not a [bool]; a negative [dim] counts from the end. *)
Definition tensor_dim_getitem {A} (r : list A) (d : Guarded) : Exn + A :=
  match d with
  | GValue (VInt i) =>
      getitem_with (dimension_out_of_range (List.length r) i)
        "size(): argument 'dim' must be int" r d
  | _ => inl (TypeError "size(): argument 'dim' must be int")
  end.

(** [utils.product]: [functools.reduce(operator.mul, it, 1)] *)
Definition intlike_mul (a b : IntLike) : IntLike :=
  match a, b with
  | PyInt x, PyInt y => PyInt (x * y)
  | PyInt x, SymInt e => SymInt (Mul (Num x) e)
  | SymInt e, PyInt y => SymInt (Mul e (Num y))
  | SymInt e1, SymInt e2 => SymInt (Mul e1 e2)
  end.

Definition product (it : list IntLike) : IntLike :=
  fold_left intlike_mul it (PyInt 1).

(** *** Handlers that answer from metadata *)

Definition str_in (x : string) (l : list string) : bool :=
  existsb (String.eqb x) l.

Definition make_const_size_variable (x : list PyValue) : VariableTracker :=
  SizeVariable (map ConstantVariable_create x) None.

(** [RetVariable]: a size is answered as a [SizeVariable] of constants, a
    stride as one constant. *)
Definition RetVariable (name : string) (x : list PyValue) : VariableTracker :=
  if (name =? "size")%string then make_const_size_variable x
  else ConstantVariable_create (VTuple x).

(** [getattr(self, name)] and [getattr(fake, name)()], for the two names
    [method_size] and [method_stride] pass. *)
Definition getattr_size_stride (self : TensorFields) (name : string)
  : option (list IntLike) :=
  if (name =? "size")%string then size self else stride self.

Definition fake_size_stride (fake : FakeTensor) (name : string) : list IntLike :=
  if (name =? "size")%string then t_size fake else t_stride fake.

Definition no_attribute (name : string) : Exn :=
  AttributeError ("object has no attribute '" ++ name ++ "'")%string.

(** [TensorVariable._method_size_stride] *)
Definition _method_size_stride (self : TensorFields) (name : string)
    (dim : option VariableTracker) : M (option VariableTracker) :=
  dim <- guard_if_dyn dim ;;
  match getattr_size_stride self name with
  | Some r =>
      match dim with
      | None => ret (Some (RetVariable name (map intlike_value r)))
      | Some d =>
          x <- lift (tuple_getitem r d) ;;
          ret (Some (ConstantVariable_create (intlike_value x)))
      end
  | None =>
      fake <- meta_get_example_value (proxy self) ;;
      match fake with
      | None | Some (EvScalar VNone) => ret None
      | Some (EvTensor fake) =>
          match dim with
          | None =>
              let fake_r := fake_size_stride fake name in
              if negb (has_free_symbols_seq fake_r) then
                ints <- lift (map_result int_ fake_r) ;;
                ret (Some (RetVariable name (map VInt ints)))
              else ret None
          | Some d =>
              fake_r <- lift (tensor_dim_getitem (fake_size_stride fake name) d) ;;
              if negb (has_free_symbols fake_r) then
                z <- lift (int_ fake_r) ;;
                ret (Some (ConstantVariable_create (VInt z)))
              else ret None
          end
      | Some _ => raise (no_attribute name)
      end
  end.

Definition method_size (self : TensorFields) (dim : option VariableTracker) :=
  _method_size_stride self "size" dim.

Definition method_stride (self : TensorFields) (dim : option VariableTracker) :=
  _method_size_stride self "stride" dim.

(** [method_numel], also bound as [method_nelement] *)
Definition method_numel (self : TensorFields) : M (option VariableTracker) :=
  match size self with
  | Some s => ret (Some (ConstantVariable_create (intlike_value (product s))))
  | None =>
      fake <- meta_get_example_value (proxy self) ;;
      match fake with
      | None | Some (EvScalar VNone) => ret None
      | Some (EvTensor fake) =>
          let fake_r := product (t_size fake) in
          if negb (has_free_symbols fake_r) then
            z <- lift (int_ fake_r) ;;
            ret (Some (ConstantVariable_create (VInt z)))
          else ret None
      | Some _ => raise (no_attribute "numel")
      end
  end.

(** [method_dim], also bound as [method_ndimension] *)
Definition method_dim (self : TensorFields) : M (option VariableTracker) :=
  match ndim self with
  | Some n => ret (Some (ConstantVariable_create (VInt n)))
  | None => ret None
  end.

Definition method_is_floating_point (self : TensorFields)
  : M (option VariableTracker) :=
  match dtype self with
  | Some d => ret (Some (ConstantVariable_create (VBool (Torch.is_floating_point d))))
  | None => ret None
  end.

Definition method_is_contiguous (self : TensorFields)
    (memory_format : option VariableTracker) : M (option VariableTracker) :=
  memory_format <- match memory_format with
                   | Some v => as_python_constant v
                   | None => ret (VMemoryFormat Torch.contiguous_format)
                   end ;;
  match is_contiguous self with
  | Some formats =>
      ret (Some (ConstantVariable_create
                   (VBool match memory_format with
                          | VMemoryFormat m =>
                              existsb (Torch.memory_format_eqb m) formats
                          | _ => false
                          end)))
  | None =>
      fake <- meta_get_example_value (proxy self) ;;
      match fake with
      | None | Some (EvScalar VNone) => ret None
      | Some (EvTensor fake) =>
          match memory_format with
          | VMemoryFormat m =>
              ret (Some (ConstantVariable_create (VBool (t_is_contiguous fake m))))
          | _ => raise (TypeError "is_contiguous(): argument 'memory_format' must be torch.memory_format")
          end
      | Some _ => raise (no_attribute "is_contiguous")
      end
  end.

(** [next(k for k, v in tensortype_to_dtype.items() if self.dtype in v)] *)
Definition tensortype_of (d : Torch.dtype) : M string :=
  match find (fun kv => existsb (Torch.dtype_eqb d) (snd kv))
             (tensortype_to_dtype env) with
  | Some kv => ret (fst kv)
  | None => raise StopIteration
  end.

Definition method_type (cls : TensorClass) (self : TensorFields)
    (dtype_arg : option VariableTracker)
    (non_blocking : option VariableTracker) (kwargs : kwargs_t)
  : M (option VariableTracker) :=
  match dtype_arg, dtype self, device self with
  | None, Some d, Some dev =>
      tensortype <- tensortype_of d ;;
      if (Torch.type_ dev =? "cuda")%string
      then ret (Some (ConstantVariable_create (VStr ("torch.cuda." ++ tensortype)%string)))
      else ret (Some (ConstantVariable_create (VStr ("torch." ++ tensortype)%string)))
  | None, _, _ => ret None
  | Some dt, _, _ =>
      tensor_type <- as_python_constant dt ;;
      match tensor_type with
      | VTensorType qualname =>
          let tensor_type_const := ConstantVariable_create (VStr qualname) in
          let kwargs := match non_blocking with
                        | Some nb => ("non_blocking", nb) :: kwargs
                        | None => kwargs
                        end in
          let '(a, k) := proxy_args_kwargs
                           [TensorVariable cls self; tensor_type_const]
                           kwargs in
          p <- create_proxy "call_method" (TMethod "type") a k ;;
          v <- wrap_fx_proxy p None ;;
          ret (Some v)
      | _ => ret None
      end
  end.

(** [method_as_subclass]: [cls.source] is truthy when it is not [None]. *)
Definition method_as_subclass (self : TensorFields) (cls : VariableTracker)
  : M (option VariableTracker) :=
  match cls with
  | TensorSubclassVariable _ (Some cls_source) =>
      py_cls <- as_python_constant cls ;;
      match py_cls with
      | VClass c =>
          match cls_torch_function c with
          | Some func =>
              torch_fn <- VariableBuilder
                            (AttrSource (AttrSource cls_source "__torch_function__")
                                        "__func__")
                            (VObject func) ;;
              v <- from_tensor_var self c torch_fn ;;
              ret (Some v)
          | None => raise (no_attribute "__func__")
          end
      | _ => raise (no_attribute "__torch_function__")
      end
  | _ => ret None
  end.

Definition method_get_device (self : TensorFields) : M (option VariableTracker) :=
  match device self with
  | Some dev =>
      let index := if negb (Torch.type_ dev =? "cpu")%string
                   then match Torch.index dev with
                        | Some i => VInt i
                        | None => VNone
                        end
                   else VInt (-1) in
      ret (Some (ConstantVariable_create index))
  | None => ret None
  end.

(** [method_element_size]: [self.dtype.itemsize] is read without a test of
    [self.dtype]. *)
Definition method_element_size (self : TensorFields) : M (option VariableTracker) :=
  match dtype self with
  | Some d => ret (Some (ConstantVariable_create (VInt (Torch.itemsize d))))
  | None => raise (AttributeError "'NoneType' object has no attribute 'itemsize'")
  end.

(** *** Handlers that refuse or record *)

Definition method_backward : M (option VariableTracker) :=
  unimplemented "Tensor.backward".

Definition method_data_ptr : M (option VariableTracker) :=
  unimplemented "Tensor.data_ptr".

Definition method_item : M (option VariableTracker) :=
  if negb (capture_scalar_outputs env) then unimplemented "Tensor.item"
  else ret None.

Definition method_resize_ : M (option VariableTracker) :=
  unimplemented "Tensor.resize_".

Definition method_resize_as_ : M (option VariableTracker) :=
  unimplemented "Tensor.resize_as_".

Definition method_set_ (args : list VariableTracker) : M (option VariableTracker) :=
  if (1 <? List.length args)%nat
  then unimplemented "Tensor.set_.source_Tensor_storage_offset"
  else ret None.

(** [has_bool_key], local to [method___setitem__].  [SizeVariable] derives
    from [TupleVariable] (lists.py), [ListVariable] does not. *)
Fixpoint has_bool_key (v : VariableTracker) : bool :=
  match v with
  | TensorVariable _ f | TensorWithTFOverrideVariable f _ _ =>
      match dtype f with
      | Some d => Torch.dtype_eqb d Torch.bool_ || Torch.dtype_eqb d Torch.int8
      | None => false
      end
  | TupleVariable items _ | SizeVariable items _ => existsb has_bool_key items
  | _ => false
  end.

Definition setitem_rejected (key value : VariableTracker) : bool :=
  has_bool_key key
  && match isinstance_TensorVariable value with
     | Some f => match requires_grad f with
                 | Some b => b
                 | None => false
                 end
     | None => false
     end
  && is_grad_enabled env.

Definition method___setitem__ (cls : TensorClass) (self : TensorFields)
    (key value : VariableTracker) : M (option VariableTracker) :=
  (if setitem_rejected key value
   then unimplemented
          "boolean masking setitem backwards, see https://github.com/pytorch/pytorch/issues/114123"
   else ret tt) ;;;
  let '(a, k) := proxy_args_kwargs [TensorVariable cls self; key; value] [] in
  create_proxy "call_function" (TFunction "setitem") a k ;;;
  ret (Some (ConstantVariable_create VNone)).

(** *** Binding of call arguments

    Calling the handler with the unpacked [args] and [kwargs] binds the
    variables to the parameters
    of the handler; a call that does not fit raises [TypeError].  (The
    wording of these interpreter messages is not reproduced.) *)

Fixpoint kw_lookup (k : string) (kwargs : kwargs_t) : option VariableTracker :=
  match kwargs with
  | [] => None
  | (k', v) :: rest => if (k =? k')%string then Some v else kw_lookup k rest
  end.

Definition kw_remove (k : string) (kwargs : kwargs_t) : kwargs_t :=
  filter (fun kv => negb (k =? fst kv)%string) kwargs.

(** Positional-or-keyword parameters [params]; the result gives, for each
    one, the variable bound to it, if any, and the keywords left over. *)
Fixpoint bind_params (params : list string) (args : list VariableTracker)
    (kwargs : kwargs_t) : Exn + (list (option VariableTracker) * kwargs_t) :=
  match params, args with
  | [], [] => inr ([], kwargs)
  | [], _ :: _ => inl (TypeError "too many positional arguments")
  | p :: ps, a :: rest =>
      match kw_lookup p kwargs with
      | Some _ => inl (TypeError ("got multiple values for argument '" ++ p ++ "'")%string)
      | None =>
          match bind_params ps rest kwargs with
          | inl e => inl e
          | inr (bound, left_over) => inr (Some a :: bound, left_over)
          end
      end
  | p :: ps, [] =>
      match bind_params ps [] (kw_remove p kwargs) with
      | inl e => inl e
      | inr (bound, left_over) => inr (kw_lookup p kwargs :: bound, left_over)
      end
  end.

Definition unexpected_keyword {A} (kwargs : kwargs_t) : Exn + A :=
  inl (TypeError ("got an unexpected keyword argument '"
                  ++ match kwargs with (k, _) :: _ => k | [] => "" end ++ "'")%string).

Definition missing_argument {A} (p : string) : Exn + A :=
  inl (TypeError ("missing 1 required positional argument: '" ++ p ++ "'")%string).

(** [def f(self)] *)
Definition bind0 (args : list VariableTracker) (kwargs : kwargs_t) : Exn + unit :=
  match bind_params [] args kwargs with
  | inl e => inl e
  | inr (_, []) => inr tt
  | inr (_, left_over) => unexpected_keyword left_over
  end.

(** [def f(self, p=None)] *)
Definition bind_optional (p : string) (args : list VariableTracker)
    (kwargs : kwargs_t) : Exn + option VariableTracker :=
  match bind_params [p] args kwargs with
  | inl e => inl e
  | inr ([x], []) => inr x
  | inr (_, left_over) => unexpected_keyword left_over
  end.

(** [def f(self, p)] *)
Definition bind1 (p : string) (args : list VariableTracker) (kwargs : kwargs_t)
  : Exn + VariableTracker :=
  match bind_optional p args kwargs with
  | inl e => inl e
  | inr (Some x) => inr x
  | inr None => missing_argument p
  end.

(** [def f(self, p, q)] *)
Definition bind2 (p q : string) (args : list VariableTracker) (kwargs : kwargs_t)
  : Exn + (VariableTracker * VariableTracker) :=
  match bind_params [p; q] args kwargs with
  | inl e => inl e
  | inr ([Some x; Some y], []) => inr (x, y)
  | inr ([None; _], []) => missing_argument p
  | inr ([_; None], []) => missing_argument q
  | inr (_, left_over) => unexpected_keyword left_over
  end.

(** [def f(self, *args, **kwargs)]: every positional argument and every
    keyword is taken, but for a keyword named [self], which collides with
    the receiver of the bound method. *)
Definition bind_var_keywords (kwargs : kwargs_t) : Exn + unit :=
  match kw_lookup "self" kwargs with
  | Some _ => inl (TypeError "got multiple values for argument 'self'")
  | None => inr tt
  end.

(** [def f(self, *, p=False)] *)
Definition bind_keyword_only (p : string) (args : list VariableTracker)
    (kwargs : kwargs_t) : Exn + option VariableTracker :=
  match args with
  | _ :: _ => inl (TypeError "takes 1 positional argument")
  | [] =>
      match kw_remove p kwargs with
      | [] => inr (kw_lookup p kwargs)
      | left_over => unexpected_keyword left_over
      end
  end.

(** *** Method dispatch *)

Definition strict_mode_check (what name : string) : M unit :=
  if strict_checks_enabled env
     && str_in name (_autograd_backward_strict_mode_banned_ops env)
  then unimplemented ("Illegal " ++ what ++ " invocation " ++ name ++ " in strict mode")%string
  else ret tt.

(** [TensorVariable.call_method], over the table of handlers that
    [getattr(self, f"method_{name}")] finds.  A variable is truthy, so
    [if result:] is the test that the handler did not return [None]. *)
Definition dispatch (handlers : string -> option Handler) (cls : TensorClass)
    (self : TensorFields) (name : string) (args : list VariableTracker)
    (kwargs : kwargs_t) : M VariableTracker :=
  strict_mode_check "method" name ;;;
  result <- match handlers name with
            | None => ret None
            | Some handler_method =>
                catch_TypeError (handler_method cls self args kwargs)
                  (fun e => unimplemented ("unhandled args for " ++ name ++ ": " ++ e)%string)
            end ;;
  match result with
  | Some v => ret v
  | None =>
      let '(a, k) := proxy_args_kwargs (TensorVariable cls self :: args) kwargs in
      p <- create_proxy "call_method" (TMethod name) a k ;;
      wrap_fx_proxy p None
  end.

(** [kwargs_rename.get(k, k)] *)
Definition clip_keyword (k : string) : string :=
  if (k =? "a_min")%string then "min"
  else if (k =? "a_max")%string then "max" else k.

(** [d[k] = v] on a dict kept in insertion order: a key that is there keeps
    its place and takes the new value, a new key goes to the end. *)
Fixpoint dict_set (k : string) (v : VariableTracker) (d : kwargs_t) : kwargs_t :=
  match d with
  | [] => [(k, v)]
  | (k', v') :: rest =>
      if (k =? k')%string then (k, v) :: rest else (k', v') :: dict_set k v rest
  end.

(** [NumpyNdarrayVariable.patch_args]; the dict comprehension sets the
    renamed keys one after the other. *)
Definition patch_args (name : string) (args : list VariableTracker)
    (kwargs : kwargs_t) : list VariableTracker * kwargs_t :=
  if (name =? "clip")%string then
    (args,
     fold_left (fun d kv => dict_set (clip_keyword (fst kv)) (snd kv) d) kwargs [])
  else (args, kwargs).

(** [self.call_method(...)]: [NumpyNdarrayVariable] overrides the method of
    [TensorVariable], the other classes inherit it. *)
Definition call_method_via (handlers : string -> option Handler)
    (cls : TensorClass) (self : TensorFields) (name : string)
    (args : list VariableTracker) (kwargs : kwargs_t) : M VariableTracker :=
  match cls with
  | NumpyNdarrayVariable_cls =>
      let '(args, kwargs) := patch_args name args kwargs in
      if str_in name ["__len__"; "size"; "tolist"] then
        dispatch handlers cls self name args kwargs
      else if (name =? "tobytes")%string then
        unimplemented "tobytes is not modelled in torch._numpy"
      else
        let '(a, k) := proxy_args_kwargs (TensorVariable cls self :: args) kwargs in
        p <- create_proxy "call_function"
               (TFunction ("numpy_method_wrapper(" ++ name ++ ")")%string) a k ;;
        wrap_fx_proxy_cls NumpyNdarrayVariable_cls p None
  | _ => dispatch handlers cls self name args kwargs
  end.

Definition with_args {A} (b : Exn + A) (k : A -> M (option VariableTracker))
  : M (option VariableTracker) :=
  match b with
  | inl e => raise e
  | inr a => k a
  end.

(** The handlers that do not call back into [call_method]. *)
Definition direct_handlers (name : string) : option Handler :=
  let named n := (name =? n)%string in
  if named "size" then
    Some (fun _ self args kw => with_args (bind_optional "dim" args kw) (method_size self))
  else if named "stride" then
    Some (fun _ self args kw => with_args (bind_optional "dim" args kw) (method_stride self))
  else if named "numel" || named "nelement" then
    Some (fun _ self args kw => with_args (bind0 args kw) (fun _ => method_numel self))
  else if named "dim" || named "ndimension" then
    Some (fun _ self args kw => with_args (bind0 args kw) (fun _ => method_dim self))
  else if named "is_floating_point" then
    Some (fun _ self args kw =>
            with_args (bind0 args kw) (fun _ => method_is_floating_point self))
  else if named "is_contiguous" then
    Some (fun _ self args kw =>
            with_args (bind_optional "memory_format" args kw) (method_is_contiguous self))
  else if named "type" then
    Some (fun cls self args kw =>
            with_args (bind_var_keywords kw)
              (fun _ =>
                 with_args (bind_params ["dtype"; "non_blocking"] args kw)
                   (fun b => match b with
                             | ([d; nb], rest) => method_type cls self d nb rest
                             | _ => raise AssertionError
                             end)))
  else if named "as_subclass" then
    Some (fun _ self args kw => with_args (bind1 "cls" args kw) (method_as_subclass self))
  else if named "get_device" then
    Some (fun _ self args kw => with_args (bind0 args kw) (fun _ => method_get_device self))
  else if named "element_size" then
    Some (fun _ self args kw => with_args (bind0 args kw) (fun _ => method_element_size self))
  else if named "backward" then
    Some (fun _ _ _ kw => with_args (bind_var_keywords kw) (fun _ => method_backward))
  else if named "data_ptr" then
    Some (fun _ _ _ kw => with_args (bind_var_keywords kw) (fun _ => method_data_ptr))
  else if named "item" then
    Some (fun _ _ _ kw => with_args (bind_var_keywords kw) (fun _ => method_item))
  else if named "resize_" then
    Some (fun _ _ _ kw => with_args (bind_var_keywords kw) (fun _ => method_resize_))
  else if named "resize_as_" then
    Some (fun _ _ _ kw => with_args (bind_var_keywords kw) (fun _ => method_resize_as_))
  else if named "set_" then
    Some (fun _ _ args kw => with_args (bind_var_keywords kw) (fun _ => method_set_ args))
  else if named "__setitem__" then
    Some (fun cls self args kw =>
            with_args (bind2 "key" "value" args kw)
              (fun kv => method___setitem__ cls self (fst kv) (snd kv)))
  else if str_in name ["tolist"; "add_"; "addcdiv_"; "__contains__"; "redistribute";
                       "register_hook"; "register_post_accumulate_grad_hook";
                       "requires_grad_"; "new"]
  then Some (other_handler env name)
  else None.

(** [method___len__] *)
Definition method___len__ (cls : TensorClass) (self : TensorFields)
  : M (option VariableTracker) :=
  v <- call_method_via direct_handlers cls self "size"
         [ConstantVariable_create (VInt 0)] [] ;;
  ret (Some v).

(** Truth value of a Python object. *)
Definition truthy (v : PyValue) : bool :=
  match v with
  | VNone | VBool false | VInt 0 | VSympyInteger 0 | VStr "" | VTuple [] => false
  | _ => true
  end.

(** [method_numpy(self, *, force=False)]: a variable passed for [force] is
    truthy. *)
Definition method_numpy (cls : TensorClass) (self : TensorFields)
    (force : option VariableTracker) : M (option VariableTracker) :=
  (if negb (trace_numpy env)
   then unimplemented "Tensor.numpy(). config.trace_numpy is False" else ret tt) ;;;
  (if negb (np env)
   then unimplemented "Tensor.numpy(). NumPy is not available" else ret tt) ;;;
  match layout self with
  | Some Torch.strided =>
      forced <- match force with
                | Some f =>
                    c <- as_python_constant f ;;
                    ret (truthy c)
                | None => ret false
                end ;;
      p <- (if forced : bool then
              t <- call_method_via direct_handlers cls self "detach" [] [] ;;
              create_proxy "call_method" (TMethod "cpu") [as_proxy t] []
            else
              let '(a, k) := proxy_args_kwargs
                               [TensorVariable cls self; TensorVariable cls self] [] in
              create_proxy "call_method" (TMethod "view_as") a k) ;;
      v <- wrap_fx_proxy_cls NumpyNdarrayVariable_cls p None ;;
      ret (Some v)
  | other =>
      raise (TypeError
               ("can't convert "
                ++ match other with Some l => Torch.layout_repr l | None => "None" end
                ++ " layout tensor to numpy. Use Tensor.dense() first")%string)
  end.

(** The whole table behind [getattr(self, f"method_{name}")]. *)
Definition handlers (name : string) : option Handler :=
  if (name =? "__len__")%string then
    Some (fun cls self args kw => with_args (bind0 args kw) (fun _ => method___len__ cls self))
  else if (name =? "numpy")%string then
    Some (fun cls self args kw =>
            with_args (bind_keyword_only "force" args kw) (method_numpy cls self))
  else direct_handlers name.

Definition call_method := call_method_via handlers.

(** *** Sequence unpacking *)

(** [has_unpack_var_sequence]: [self.ndim > 0], and [None > 0] is a
    [TypeError]. *)
Definition has_unpack_var_sequence (self : TensorFields) : Exn + bool :=
  match ndim self with
  | Some n => inr (0 <? n)
  | None =>
      inl (TypeError "'>' not supported between instances of 'NoneType' and 'int'")
  end.

(** [range(n)] *)
Definition range (n : Z) : list Z := map Z.of_nat (seq 0 (Z.to_nat n)).

(** [range(length)] wants an integer. *)
Definition range_of (length : PyValue) : M (list Z) :=
  match length with
  | VInt n => ret (range n)
  | VBool b => ret (range (if b then 1 else 0))
  | _ => raise (TypeError "object cannot be interpreted as an integer")
  end.

(** [self.as_proxy()[i]] records the subscript operation. *)
Definition proxy_getitem (p : nat) (i : Z) : M nat :=
  create_proxy "call_function" (TFunction "getitem") [AProxy p; AConst (VInt i)] [].

(** [unpack_var_sequence]: [if self.size:] holds for a size that is known
    and not empty. *)
Definition unpack_var_sequence (cls : TensorClass) (self : TensorFields)
    (idxes : option (list Z)) : M (list VariableTracker) :=
  idxes <- match idxes with
           | Some l => ret l
           | None =>
               match size self with
               | Some (length :: _) =>
                   n <- lift (int_ length) ;; ret (range n)
               | _ =>
                   dyn_length <- call_method cls self "size"
                                   [ConstantVariable_create (VInt 0)] [] ;;
                   match dyn_length with
                   | SymNodeVariable _ sym_num _ =>
                       length <- evaluate_expr sym_num ;; range_of length
                   | ConstantVariable value _ => range_of value
                   | _ => raise AssertionError
                   end
               end
           end ;;
  mapM (fun i => p <- proxy_getitem (proxy self) i ;; wrap_fx_proxy_cls cls p None)
       idxes.

(** *** Attribute resolution *)

(** [dynamic_getattr]: the re-binding of the source and the read of the
    attribute are the collaborator's; what the code refuses is
    [NotImplementedError], and the [getattr] itself is not protected: what
    it raises leaves the function as it is. *)
Definition dynamic_getattr (self : TensorFields) (name : string) : M VariableTracker :=
  match source self with
  | None => raise NotImplementedError
  | Some s =>
      match source_getattr env s name with
      | None => raise NotImplementedError
      | Some read =>
          real_value <- lift read ;;
          let attr_source := AttrSource s name in
          install_guard (mk_guard attr_source HASATTR) ;;;
          VariableBuilder attr_source real_value
      end
  end.

Definition try_generic_attr_handling (cls : TensorClass) (self : TensorFields)
    (name : string) : M (option VariableTracker) :=
  if negb (Tensor_getset_descriptor env name) then ret None
  else
    p <- create_proxy "call_function" (TFunction "getattr")
           [AProxy (proxy self); AConst (VStr name)] [] ;;
    v <- wrap_fx_proxy p (option_map (fun s => AttrSource s name) (source self)) ;;
    ret (Some v).

(** [self.python_type()]: the class recorded for the value, which
    [NumpyNdarrayVariable] overrides with [np.ndarray]. *)
Definition python_type (cls : TensorClass) (self : TensorFields) : PyValue :=
  match cls with
  | NumpyNdarrayVariable_cls => VClass (mk_class "numpy.ndarray" None)
  | _ => match class_type self with Some c => VClass c | None => VNone end
  end.

(** [TensorVariable.var_getattr], the method of the base class: an array
    resolves its attributes with the [var_getattr] of [NumpyNdarrayVariable]
    and does not come here.  Each [elif name == n and self.f is not None] is
    a match on the field, looked at only under that name. *)
Definition var_getattr (cls : TensorClass) (self : TensorFields) (name : string)
  : M VariableTracker :=
  let named n := (name =? n)%string in
  let under {A} n (field : option A) := if named n then field else None in
  let const (v : PyValue) := ret (Some (ConstantVariable_create v)) in
  let called (m : string) :=
    v <- call_method cls self m [] [] ;; ret (Some v) in
  strict_mode_check "getattr" name ;;;
  result <-
    match under "ndim" (ndim self) with Some n => const (VInt n) | None =>
    match under "dtype" (dtype self) with Some d => const (VDtype d) | None =>
    match under "device" (device self) with Some d => const (VDevice d) | None =>
    match under "layout" (layout self) with Some l => const (VLayout l) | None =>
    match under "is_cuda" (device self) with
    | Some d => const (VBool (Torch.type_ d =? "cuda")%string)
    | None =>
    match under "shape" (size self) with
    | Some s =>
        let sizes := map (fun x => ConstantVariable_create (intlike_value x)) s in
        ret (Some (SizeVariable sizes None))
    | None =>
    match under "requires_grad" (requires_grad self) with
    | Some b => const (VBool b)
    | None =>
    match under "is_quantized" (is_quantized self) with
    | Some b => const (VBool b)
    | None =>
    match under "is_sparse" (is_sparse self) with
    | Some b => const (VBool b)
    | None =>
        if named "shape" then called "size"
        else if named "ndim" then called "dim"
        else if named "data" then called "detach"
        else ret None
    end end end end end end end end end ;;
  if named "__class__" then
    ret (UserDefinedClassVariable (python_type cls self) None)
  else
    result <- match result, source self with
              | Some r, Some s =>
                  install_guard (mk_guard s TYPE_MATCH) ;;;
                  ret (Some (set_source r (Some (AttrSource s name))))
              | _, _ => ret result
              end ;;
    match (if aten_inplace_view env name then source self else None) with
    | Some s => ret (DelayGraphBreakVariable (Some (AttrSource s name)))
    | None =>
        result <- match result with
                  | Some r => ret (Some r)
                  | None => try_generic_attr_handling cls self name
                  end ;;
        match result with
        | Some r => ret r
        | None => dynamic_getattr self name
        end
    end.

End Trace.

(** ** Sample objects, used to run the definitions *)

Module Sample.

Definition Tensor : PyClass := mk_class "torch.Tensor" None.
Definition MyTensor : PyClass := mk_class "MyTensor" (Some "MyTensor.__torch_function__").
Definition cpu : Torch.device := Torch.mk_device "cpu" None.

(** A fake tensor of the given extents and strides. *)
Definition fake (sz st : list IntLike) (l : Torch.layout) : FakeTensor :=
  mk_fake Torch.float32 cpu l sz st (PyInt 0) false false false Tensor false
    [Torch.contiguous_format].

(** A toy oracle: a subscript drops the leading dimension, [size] reads
    the extents, [detach], [cpu] and [view_as] keep the metadata, everything
    else is refused. *)
Definition run_node (op : string) (target : Target) (args : list ExArg)
    (kwargs : list (string * ExArg)) : Exn + ExampleValue :=
  match target, args with
  | TFunction "getitem", [XExample (EvTensor t); XConst (VInt _)] =>
      inr (EvTensor (fake (tl (t_size t)) (tl (t_stride t)) (t_layout t)))
  | TMethod "size", [XExample (EvTensor t)] => inr (EvSize (t_size t))
  | TMethod "detach", [XExample (EvTensor t)]
  | TMethod "cpu", [XExample (EvTensor t)]
  | TMethod "view_as", [XExample (EvTensor t); _] => inr (EvTensor t)
  | _, _ => inl (Unsupported "operator not known to the toy oracle")
  end.

Definition env : Env :=
  mk_env false [] true false true true
    [("FloatTensor", [Torch.float32]); ("LongTensor", [Torch.int64])]
    run_node (fun _ _ => false) (fun _ => false) (fun _ => false)
    (fun _ _ => None) (fun _ _ _ _ _ => ret None).

(** A variable about which nothing is known. *)
Definition blank (p : nat) : TensorFields :=
  mk_tensor p None None None None None None None None None None None None.

Definition empty : TraceState := mk_state [] [] 0.

(** The same environment with gradient tracking switched off. *)
Definition env_no_grad : Env :=
  mk_env false [] true false true false
    [("FloatTensor", [Torch.float32]); ("LongTensor", [Torch.int64])]
    run_node (fun _ _ => false) (fun _ => false) (fun _ => false)
    (fun _ _ => None) (fun _ _ _ _ _ => ret None).

(** A boolean mask, and a float tensor that requires gradients. *)
Definition mask : VariableTracker :=
  TensorVariable TensorVariable_cls
    (mk_tensor 1 (Some Torch.bool_) None None None None None (Some false) None
       None None None None).

(** A backed symbol, and a fake tensor whose leading extent is symbolic. *)
Definition s0 : Symbol := mk_symbol "s0" (Some 8).

Definition dynamic_fake : FakeTensor :=
  fake [SymInt (Sym s0); PyInt 3] [PyInt 3; PyInt 1] Torch.strided.

(** A fake tensor whose leading extent is a [SymInt] refined to 2. *)
Definition refined_fake : FakeTensor :=
  fake [SymInt (Num 2); PyInt 3] [PyInt 3; PyInt 1] Torch.strided.

(** A variable with static metadata for a tensor of extents 2 and 3. *)
Definition static_2x3 (p : nat) : TensorFields :=
  mk_tensor p (Some Torch.float32) (Some cpu) (Some Torch.strided) (Some 2)
    (Some [PyInt 2; PyInt 3]) (Some [PyInt 3; PyInt 1]) (Some false)
    (Some false) (Some [Torch.contiguous_format]) (Some false) (Some Tensor) None.

Definition grad_value : VariableTracker :=
  TensorVariable TensorVariable_cls
    (mk_tensor 2 (Some Torch.float32) None None None None None (Some true) None
       None None None None).

(** A state whose only node is a placeholder with the given example. *)
Definition placeholder (ev : option ExampleValue) : TraceState :=
  mk_state [mk_node "placeholder" (TFunction "x") [] [] ev] [] 0.

End Sample.

(** ** Definitions used by the statements *)

(** The default of [call_method]: the call is recorded and wrapped. *)
Definition default_dispatch (env : Env) (cls : TensorClass) (self : TensorFields)
    (name : string) (args : list VariableTracker) (kwargs : kwargs_t)
  : M VariableTracker :=
  let '(a, k) := proxy_args_kwargs (TensorVariable cls self :: args) kwargs in
  bind (create_proxy "call_method" (TMethod name) a k)
       (fun p => wrap_fx_proxy env p None).

Definition not_banned (env : Env) (name : string) : Prop :=
  strict_checks_enabled env
  && str_in name (_autograd_backward_strict_mode_banned_ops env) = false.


(** The argument of [as_subclass] the handler acts on: a subclass
    constructor variable whose [source] is known. *)
Definition subclass_with_source (v : VariableTracker) : option (PyClass * Source) :=
  match v with
  | TensorSubclassVariable c (Some s) => Some (c, s)
  | _ => None
  end.

(** The text of the [TypeError] of [method_numpy]. *)
Definition cannot_convert_layout (l : option Torch.layout) : string :=
  ("can't convert "
   ++ match l with Some l => Torch.layout_repr l | None => "None" end
   ++ " layout tensor to numpy. Use Tensor.dense() first")%string.

(** The index of [__setitem__] contains a boolean or int8 mask: a
    tensor-like variable of that dtype, possibly nested inside tuples. *)
Definition bool_or_int8 (f : TensorFields) : Prop :=
  dtype f = Some Torch.bool_ \/ dtype f = Some Torch.int8.

Inductive ContainsBoolMask : VariableTracker -> Prop :=
| mask_tensor cls f :
    bool_or_int8 f -> ContainsBoolMask (TensorVariable cls f)
| mask_tensor_with_override f c fn :
    bool_or_int8 f -> ContainsBoolMask (TensorWithTFOverrideVariable f c fn)
| mask_in_tuple items src item :
    In item items -> ContainsBoolMask item ->
    ContainsBoolMask (TupleVariable items src)
| mask_in_size items src item :
    In item items -> ContainsBoolMask item ->
    ContainsBoolMask (SizeVariable items src).

(** The value written is a tensor-like variable that requires gradients. *)
Definition requires_grad_tensor (v : VariableTracker) : Prop :=
  exists f, isinstance_TensorVariable v = Some f /\ requires_grad f = Some true.

(** The state after the index assignment has been recorded. *)
Definition setitem_recorded (self : TensorFields) (key value : VariableTracker)
    (st : TraceState) : TraceState :=
  mk_state
    (nodes st ++ [mk_node "call_function" (TFunction "setitem")
                    [AProxy (proxy self); as_proxy key; as_proxy value] [] None])
    (guards st) (debugger_stops st).

Definition boolean_masking_message : string :=
  "boolean masking setitem backwards, see https://github.com/pytorch/pytorch/issues/114123".

(** Free symbols of an example value. *)
Definition example_has_free_symbols (v : ExampleValue) : bool :=
  match v with
  | EvTensor t => has_free_symbols_tensor t
  | EvSize l => has_free_symbols_seq l
  | EvScalar (VSymInt e) => negb (is_number e)
  | EvScalar _ => false
  end.

(** The values [SymNodeVariable.create] folds into a constant: instances of
    [int], [bool] and [sympy.Integer], the latter converted to [int]. *)
Definition plain_constant (v : ExampleValue) : option PyValue :=
  match v with
  | EvScalar (VInt z) => Some (VInt z)
  | EvScalar (VBool b) => Some (VBool b)
  | EvScalar (VSympyInteger z) => Some (VInt z)
  | _ => None
  end.

(** The value [create] goes on with: the supplied one, or the oracle's when
    [None] was supplied. *)
Definition resolved_sym_num (env : Env) (p : nat) (sym_num : ExampleValue)
  : M ExampleValue :=
  match sym_num with
  | EvScalar VNone => get_fake_value env p
  | _ => ret sym_num
  end.

(** The state [create] leaves: the value is recorded for the node, and the
    debugger has been entered once for a [sympy.Integer]. *)
Definition state_after_create (p : nat) (v : ExampleValue) (st : TraceState)
  : TraceState :=
  let nodes' :=
    update_nth p
      (fun n => mk_node (n_op n) (n_target n) (n_args n) (n_kwargs n) (Some v))
      (nodes st) in
  match v with
  | EvScalar (VSympyInteger _) => mk_state nodes' (guards st) (S (debugger_stops st))
  | _ => mk_state nodes' (guards st) (debugger_stops st)
  end.

(** The recorded example value of the node, if any, equals the supplied
    value. *)
Definition consistent_with_recorded (env : Env) (p : nat) (sym_num : ExampleValue)
    (st : TraceState) : Prop :=
  forall r, example_value_of st p = Some r -> example_value_eq env r sym_num = true.

(** Extents that are safe to treat as compile-time constants: no free
    symbol, and an integer value. *)
Definition symbol_free_constant (x : IntLike) : Prop :=
  has_free_symbols x = false /\ exists z, int_ x = inr z.

(** The invariant of the metadata model: [size] and [stride], when present,
    are sequences of symbol-free constants. *)
Definition static_metadata_invariant (f : TensorFields) : Prop :=
  (forall s, size f = Some s -> Forall symbol_free_constant s)
  /\ (forall s, stride f = Some s -> Forall symbol_free_constant s).

(** The contiguity [specialize] computes for a value that is not batched. *)
Definition computed_contiguity (value : FakeTensor) : list Torch.memory_format :=
  filter (t_is_contiguous value) _memory_formats.

(** The entry a Python subscript [d] selects in a sequence, when it is in
    range; a negative subscript counts from the end. *)
Definition subscript {A} (r : list A) (d : Z) : option A :=
  let n := Z.of_nat (List.length r) in
  let j := if d <? 0 then d + n else d in
  if (0 <=? j) && (j <? n) then nth_error r (Z.to_nat j) else None.

(** A constant [dim] argument. *)
Definition dim_arg (d : Z) : option VariableTracker :=
  Some (ConstantVariable (VInt d) None).

(** The node [self.as_proxy()[i]] records, with its example value. *)
Definition getitem_node (p : nat) (i : Z) (ev : option ExampleValue) : Node :=
  mk_node "call_function" (TFunction "getitem") [AProxy p; AConst (VInt i)] [] ev.

(** The oracle's answer for the subscript [i] of a value. *)
Definition oracle_getitem (env : Env) (ev : ExampleValue) (i : Z)
  : Exn + ExampleValue :=
  run_node env "call_function" (TFunction "getitem")
    [XExample ev; XConst (VInt i)] [].

(** One step of the loop of [unpack_var_sequence]. *)
Definition unpack_item (env : Env) (cls : TensorClass) (self : TensorFields) (i : Z)
  : M VariableTracker :=
  bind (proxy_getitem (proxy self) i) (fun p => wrap_fx_proxy_cls env cls p None).

(** *** Contents of a result, apart from the identity of graph nodes *)

Definition forget_proxy (f : TensorFields) : TensorFields :=
  mk_tensor 0 (dtype f) (device f) (layout f) (ndim f) (size f) (stride f)
    (requires_grad f) (is_quantized f) (is_contiguous f) (is_sparse f)
    (class_type f) (source f).

(** A variable with every reference to a graph node blanked: what is left
    is its kind, its metadata and the scalars it carries. *)
Fixpoint forget_nodes (v : VariableTracker) : VariableTracker :=
  match v with
  | TensorVariable c f => TensorVariable c (forget_proxy f)
  | SymNodeVariable _ n s => SymNodeVariable 0 n s
  | SizeVariable l s => SizeVariable (map forget_nodes l) s
  | TupleVariable l s => TupleVariable (map forget_nodes l) s
  | ListVariable l s => ListVariable (map forget_nodes l) s
  | TensorWithTFOverrideVariable f c fn =>
      TensorWithTFOverrideVariable (forget_proxy f) c (forget_nodes fn)
  | ConstantVariable _ _ | TensorSubclassVariable _ _
  | UserDefinedClassVariable _ _ | DelayGraphBreakVariable _
  | BuiltVariable _ _ => v
  end.

(** The scalar a variable carries as a dimension extent. *)
Definition extent_of (v : VariableTracker) : option ExampleValue :=
  match v with
  | ConstantVariable x _ => Some (EvScalar x)
  | SymNodeVariable _ n _ => Some n
  | _ => None
  end.

(** The sequence of dimension extents of a shape. *)
Definition dimension_extents (v : VariableTracker) : option (list (option ExampleValue)) :=
  match v with
  | SizeVariable items _ => Some (map extent_of items)
  | _ => None
  end.

Definition state_of {A} (o : Outcome A) : TraceState :=
  match o with
  | Returned _ st | Raised _ st => st
  end.

(** Two outcomes with the same contents: the same exception, or results
    that differ at most in the graph nodes they refer to. *)
Definition same_contents (o1 o2 : Outcome VariableTracker) : Prop :=
  match o1, o2 with
  | Returned r1 _, Returned r2 _ =>
      forget_nodes r1 = forget_nodes r2
      /\ dimension_extents r1 = dimension_extents r2
  | Raised e1 _, Raised e2 _ => e1 = e2
  | _, _ => False
  end.

(** The graph of [st'] starts with the graph of [st], node for node. *)
Definition graph_prefix (st st' : TraceState) : Prop :=
  exists extra, nodes st' = nodes st ++ extra.

(** The item the wrapping service makes of an extent, nodes blanked. *)
Definition wrapped_extent (x : IntLike) : VariableTracker :=
  match x with
  | PyInt z => ConstantVariable (VInt z) None
  | SymInt e => SymNodeVariable 0 (EvScalar (VSymInt e)) None
  end.

(** What the wrapping service makes of an example value, nodes blanked. *)
Definition wrapped_contents (target_cls : TensorClass) (v : ExampleValue)
    (src : option Source) : option VariableTracker :=
  match v with
  | EvTensor t =>
      match specialize t with
      | inr props => Some (TensorVariable target_cls (TensorFields_of_props 0 props src))
      | inl _ => None
      end
  | EvSize l => Some (SizeVariable (map wrapped_extent l) src)
  | EvScalar (VSymInt e) => Some (SymNodeVariable 0 v src)
  | EvScalar x => Some (ConstantVariable x src)
  end.

(** The proxy of [self] refers to a node of the graph. *)
Definition proxy_in_graph (self : TensorFields) (st : TraceState) : Prop :=
  (proxy self < List.length (nodes st))%nat.

(** The two stages of [var_getattr] for the name [shape]: the answer of the
    metadata or of the method protocol, and what follows the chain of
    tests (guard, source of the result, fallbacks). *)
Definition shape_answer (env : Env) (cls : TensorClass) (self : TensorFields)
  : M (option VariableTracker) :=
  match size self with
  | Some s =>
      ret (Some (SizeVariable
                   (map (fun x => ConstantVariable_create (intlike_value x)) s) None))
  | None => bind (call_method env cls self "size" [] []) (fun v => ret (Some v))
  end.

Definition after_answer (env : Env) (cls : TensorClass) (self : TensorFields)
    (name : string) (result : option VariableTracker) : M VariableTracker :=
  bind match result, source self with
       | Some r, Some s =>
           bind (install_guard (mk_guard s TYPE_MATCH))
                (fun _ => ret (Some (set_source r (Some (AttrSource s name)))))
       | _, _ => ret result
       end
    (fun result =>
       match (if aten_inplace_view env name then source self else None) with
       | Some s => ret (DelayGraphBreakVariable (Some (AttrSource s name)))
       | None =>
           bind match result with
                | Some r => ret (Some r)
                | None => try_generic_attr_handling env cls self name
                end
             (fun result =>
                match result with
                | Some r => ret r
                | None => dynamic_getattr env self name
                end)
       end).

(** ** Further definitions used by the statements *)

(** The handlers that take no argument besides [self]. *)
Definition zero_parameter_handlers : list string :=
  ["numel"; "nelement"; "dim"; "ndimension"; "is_floating_point";
   "get_device"; "element_size"; "__len__"].

(** The handlers whose body is a call of [unimplemented]. *)
Definition refusing_handlers : list string :=
  ["backward"; "data_ptr"; "resize_"; "resize_as_"].

(** What [call_method] does with an exception that leaves a handler. *)
Definition through_call_method {A} (name : string) (o : Outcome A) : Outcome A :=
  match o with
  | Raised (TypeError msg) st =>
      Raised (Unsupported ("unhandled args for " ++ name ++ ": " ++ msg)%string) st
  | _ => o
  end.

(** The product of a list of integers, as [utils.product] folds it. *)
Definition product_Z (zs : list Z) : Z := fold_left Z.mul zs 1.

(** The constant items [size()] answers for the integer extents [zs]. *)
Definition constant_items (zs : list Z) : list VariableTracker :=
  map (fun z => ConstantVariable (VInt z) None) zs.

(** The attributes [var_getattr] answers from a metadata field, with the
    constant it answers when the field is known. *)
Definition static_attribute (self : TensorFields) (name : string) : option PyValue :=
  if (name =? "ndim")%string then option_map VInt (ndim self)
  else if (name =? "dtype")%string then option_map VDtype (dtype self)
  else if (name =? "device")%string then option_map VDevice (device self)
  else if (name =? "layout")%string then option_map VLayout (layout self)
  else if (name =? "is_cuda")%string then
    option_map (fun d => VBool (Torch.type_ d =? "cuda")%string) (device self)
  else if (name =? "requires_grad")%string then option_map VBool (requires_grad self)
  else if (name =? "is_quantized")%string then option_map VBool (is_quantized self)
  else if (name =? "is_sparse")%string then option_map VBool (is_sparse self)
  else None.

(** The names [var_getattr] tests for by name. *)
Definition special_attribute_names : list string :=
  ["ndim"; "dtype"; "device"; "layout"; "is_cuda"; "shape"; "requires_grad";
   "is_quantized"; "is_sparse"; "data"; "__class__"].

(** The state after a guard has been installed. *)
Definition with_guard (g : Guard) (st : TraceState) : TraceState :=
  mk_state (nodes st) (guards st ++ [g]) (debugger_stops st).

(** The outcome of [var_getattr] for an attribute answered by the constant
    [v]: without a source nothing else happens; with a source a type-match
    guard on it is installed and the result carries the source of the
    attribute, unless the name is an in-place view operator, for which the
    delayed graph break is returned instead. *)
Definition static_attribute_outcome (env : Env) (self : TensorFields)
    (name : string) (v : PyValue) (st : TraceState) : Outcome VariableTracker :=
  match source self with
  | None => Returned (ConstantVariable v None) st
  | Some s =>
      Returned
        (if aten_inplace_view env name
         then DelayGraphBreakVariable (Some (AttrSource s name))
         else ConstantVariable v (Some (AttrSource s name)))
        (with_guard (mk_guard s TYPE_MATCH) st)
  end.

(** The handlers whose body reads the metadata of [self] or the example
    value of its node and calls nothing else. *)
Definition metadata_handlers : list string :=
  ["numel"; "nelement"; "dim"; "ndimension"; "is_floating_point";
   "get_device"; "element_size"].

(** A computation that hands back the trace state it was given, whether it
    returns or raises. *)
Definition read_only {A} (m : M A) : Prop :=
  forall st, state_of (m st) = st.

(** The node [NumpyNdarrayVariable.call_method] records for a method it does
    not hand to [TensorVariable]: the wrapper of the method over [self] and
    the arguments, the keywords as [patch_args] renames them. *)
Definition numpy_method_node (self : TensorFields) (name : string)
    (args : list VariableTracker) (kwargs : kwargs_t)
    (ev : option ExampleValue) : Node :=
  mk_node "call_function" (TFunction ("numpy_method_wrapper(" ++ name ++ ")")%string)
    (AProxy (proxy self) :: map as_proxy (fst (patch_args name args kwargs)))
    (map (fun kv => (fst kv, as_proxy (snd kv))) (snd (patch_args name args kwargs)))
    ev.

(** An environment in strict mode that bans [numel]. *)
Definition strict_env : Env :=
  mk_env true ["numel"] true false true true
    [("FloatTensor", [Torch.float32]); ("LongTensor", [Torch.int64])]
    Sample.run_node (fun _ _ => false) (fun _ => false) (fun _ => false)
    (fun _ _ => None) (fun _ _ _ _ _ => ret None).

(** The keywords of a call of [clip] under the names [patch_args] gives
    them, one entry per keyword passed. *)
Definition renamed (kwargs : kwargs_t) : kwargs_t :=
  map (fun kv => (clip_keyword (fst kv), snd kv)) kwargs.

(** ** Two more handlers of [TensorVariable]

    The table of handlers takes [method_requires_grad_] and [method_new]
    from the environment; here they are, as the source has them. *)

(** [method_requires_grad_(self, requires_grad=True)].  [ne] is Python's
    [!=] between the flag of the example value and the constant passed; an
    example value other than a tensor has no attribute [requires_grad]. *)
Definition method_requires_grad_ (ne : bool -> PyValue -> bool)
    (cls : TensorClass) (self : TensorFields)
    (requires_grad : option VariableTracker) : M (option VariableTracker) :=
  bind (match requires_grad with
        | None => ret (VBool true)
        | Some v => as_python_constant v
        end)
    (fun requires_grad =>
       bind (meta_get_example_value (proxy self))
         (fun example_value =>
            match example_value with
            | None => raise (KeyError "example_value")
            | Some (EvTensor t) =>
                if ne (t_requires_grad t) requires_grad
                then unimplemented "Tensor.requires_grad_"
                else ret (Some (TensorVariable cls self))
            | Some _ => raise (no_attribute "requires_grad")
            end)).

(** The handler as [call_method] finds it. *)
Definition handler_requires_grad_ (ne : bool -> PyValue -> bool) : Handler :=
  fun cls self args kw =>
    with_args (bind_optional "requires_grad" args kw) (method_requires_grad_ ne cls self).

(** [method_new(self, *args, **kwargs)], as [call_method] calls it: a
    keyword named [self] does not bind. *)
Definition method_new (env : Env) : Handler :=
  fun cls self args kwargs =>
    with_args (bind_var_keywords kwargs)
      (fun _ =>
         match args with
         | [SizeVariable _ _] =>
             bind (call_method env cls self "new_empty" args kwargs)
                  (fun v => ret (Some v))
         | _ => ret None
         end).

(** The flag a call of [requires_grad_] asks for, when it is the default or
    a constant bool. *)
Definition requested_flag (requires_grad : option VariableTracker) : option bool :=
  match requires_grad with
  | None => Some true
  | Some (ConstantVariable (VBool b) _) => Some b
  | Some _ => None
  end.

(** [!=] on the values the samples compare: bools, and ints as Python
    compares them with a bool. *)
Definition sample_ne (b : bool) (v : PyValue) : bool :=
  match v with
  | VBool c => negb (Bool.eqb b c)
  | VInt z => negb (z =? (if b then 1 else 0))
  | _ => true
  end.

(** The sample environment with the two handlers bound. *)
Definition env_with_handlers : Env :=
  mk_env false [] true false true true
    [("FloatTensor", [Torch.float32]); ("LongTensor", [Torch.int64])]
    Sample.run_node (fun _ _ => false) (fun _ => false) (fun _ => false)
    (fun _ _ => None)
    (fun name =>
       if (name =? "requires_grad_")%string then handler_requires_grad_ sample_ne
       else if (name =? "new")%string then method_new Sample.env
       else fun _ _ _ _ => ret None).

(** [size_argument args]: the call has one positional argument and it is a
    [SizeVariable]. *)
Definition size_argument (args : list VariableTracker) : bool :=
  match args with
  | [SizeVariable _ _] => true
  | _ => false
  end.

(** The node the default of [call_method] records. *)
Definition method_call_node (self : TensorFields) (name : string)
    (args : list VariableTracker) (kwargs : kwargs_t)
    (ev : option ExampleValue) : Node :=
  mk_node "call_method" (TMethod name)
    (AProxy (proxy self) :: map as_proxy args)
    (map (fun kv => (fst kv, as_proxy (snd kv))) kwargs) ev.

(** ** Attributes of arrays *)

Section NumpyNdarrayVariable_var_getattr.

Variable env : Env.

(** torch._numpy is not in the source tree: the array view
    [tnp.ndarray(example_value)] and the reads of its attributes are taken
    as parameters.  [ndim] and [itemsize] are read as Python values,
    [shape] and [stride] as sequences of extents, [size] as one extent. *)
Variable ndarray : Type.
Variable tnp_ndarray : ExampleValue -> Exn + ndarray.
Variable getattr_constant : ndarray -> string -> Exn + PyValue.
Variable getattr_extents : ndarray -> string -> Exn + list IntLike.
Variable getattr_size : ndarray -> Exn + IntLike.

(** [insert_into_graph()] *)
Definition insert_into_graph (self : TensorFields) (name : string)
  : M VariableTracker :=
  bind (create_proxy "call_function" (TFunction "numpy_attr_wrapper")
          [AProxy (proxy self); AConst (VStr name)] [])
       (fun p => wrap_fx_proxy env p None).

(** [NumpyNdarrayVariable.var_getattr] *)
Definition NumpyNdarrayVariable_var_getattr (self : TensorFields) (name : string)
  : M VariableTracker :=
  bind (meta_get_example_value (proxy self))
    (fun example_value =>
       match example_value with
       | None => raise (KeyError "example_value")
       | Some example_value =>
           bind (lift (tnp_ndarray example_value))
             (fun example_ndarray =>
                if str_in name ["T"; "real"; "imag"] then
                  bind (create_proxy "call_function" (TFunction "numpy_attr_wrapper")
                          [AProxy (proxy self); AConst (VStr name)] [])
                       (fun p => wrap_fx_proxy_cls env NumpyNdarrayVariable_cls p None)
                else if str_in name ["ndim"; "itemsize"] then
                  bind (lift (getattr_constant example_ndarray name))
                       (fun v => ret (ConstantVariable_create v))
                else if str_in name ["shape"; "stride"] then
                  bind (lift (getattr_extents example_ndarray name))
                    (fun r =>
                       if negb (has_free_symbols_seq r) then
                         bind (lift (map_result int_ r))
                              (fun ints =>
                                 ret (ConstantVariable_create (VTuple (map VInt ints))))
                       else insert_into_graph self name)
                else if (name =? "size")%string then
                  bind (lift (getattr_size example_ndarray))
                    (fun r =>
                       if negb (has_free_symbols r) then
                         bind (lift (int_ r))
                              (fun z => ret (ConstantVariable_create (VInt z)))
                       else insert_into_graph self name)
                else if str_in name ["base"; "flags"; "dtype"] then
                  unimplemented ("TODO: add support for ndarray." ++ name)%string
                else if str_in name ["__version__"] then
                  unimplemented "delegate np.__version__ to NumPy"
                else raise NotImplementedError)
       end).

End NumpyNdarrayVariable_var_getattr.

(** The attributes of an array whose read can record a node. *)
Definition recordable_array_attributes : list string :=
  ["T"; "real"; "imag"; "shape"; "stride"; "size"].

(** A toy array view: the tensor itself, with the attributes torch reports
    for it. *)
Definition sample_tnp_ndarray (ev : ExampleValue) : Exn + FakeTensor :=
  match ev with
  | EvTensor t => inr t
  | _ => inl (TypeError "expected a tensor")
  end.

Definition sample_getattr_constant (t : FakeTensor) (name : string) : Exn + PyValue :=
  if (name =? "ndim")%string then inr (VInt (Z.of_nat (List.length (t_size t))))
  else inr (VInt (Torch.itemsize (t_dtype t))).

Definition sample_getattr_extents (t : FakeTensor) (name : string)
  : Exn + list IntLike :=
  if (name =? "shape")%string then inr (t_size t) else inr (t_stride t).

Definition sample_getattr_size (t : FakeTensor) : Exn + IntLike :=
  inr (product (t_size t)).
(** * Properties *)

(** ** Basic facts about the monad and the dispatcher *)

Lemma dtype_eqb_eq (a b : Torch.dtype) : Torch.dtype_eqb a b = true <-> a = b.
Proof. destruct a, b; simpl; split; congruence. Qed.

Lemma bind_Returned {A B} (m : M A) (k : A -> M B) st a st' :
  m st = Returned a st' -> bind m k st = k a st'.
Proof. intros H. unfold bind. now rewrite H. Qed.

Lemma bind_Raised {A B} (m : M A) (k : A -> M B) st e st' :
  m st = Raised e st' -> bind m k st = Raised e st'.
Proof. intros H. unfold bind. now rewrite H. Qed.

(** A handler that declines leaves the call to the default. *)
Lemma dispatch_declined env table cls self name args kwargs h st st' :
  not_banned env name ->
  table name = Some h ->
  h cls self args kwargs st = Returned None st' ->
  dispatch env table cls self name args kwargs st
  = default_dispatch env cls self name args kwargs st'.
Proof.
  intros Hb Ht Hh. unfold dispatch, default_dispatch, strict_mode_check.
  red in Hb. rewrite Hb, Ht. unfold bind at 1. simpl.
  unfold bind at 1. unfold catch_TypeError. rewrite Hh. reflexivity.
Qed.

(** An exception of a handler other than [TypeError] leaves [call_method]
    as it is; [TypeError] leaves as the unsupported-construct signal. *)
Lemma dispatch_raised env table cls self name args kwargs h st st' e :
  not_banned env name ->
  table name = Some h ->
  h cls self args kwargs st = Raised e st' ->
  dispatch env table cls self name args kwargs st
  = match e with
    | TypeError msg =>
        Raised (Unsupported ("unhandled args for " ++ name ++ ": " ++ msg)%string) st'
    | _ => Raised e st'
    end.
Proof.
  intros Hb Ht Hh. unfold dispatch, strict_mode_check.
  red in Hb. rewrite Hb, Ht. unfold bind at 1. simpl.
  unfold bind at 1. unfold catch_TypeError. rewrite Hh.
  destruct e; reflexivity.
Qed.

(** ** Running the definitions on the samples *)

Example element_size_float32 :
  method_element_size (Sample.static_2x3 0) Sample.empty
  = Returned (Some (ConstantVariable (VInt 4) None)) Sample.empty.
Proof. reflexivity. Qed.

Example numel_2x3 :
  method_numel (Sample.static_2x3 0) Sample.empty
  = Returned (Some (ConstantVariable (VInt 6) None)) Sample.empty.
Proof. reflexivity. Qed.

Example type_name_cpu :
  method_type Sample.env TensorVariable_cls (Sample.static_2x3 0) None None []
    Sample.empty
  = Returned (Some (ConstantVariable (VStr "torch.FloatTensor") None)) Sample.empty.
Proof. reflexivity. Qed.

Example get_device_cpu :
  method_get_device (Sample.static_2x3 0) Sample.empty
  = Returned (Some (ConstantVariable (VInt (-1)) None)) Sample.empty.
Proof. reflexivity. Qed.

Example size_negative_dim :
  method_size (Sample.static_2x3 0) (dim_arg (-2)) Sample.empty
  = Returned (Some (ConstantVariable (VInt 2) None)) Sample.empty.
Proof. reflexivity. Qed.

Example size_dim_out_of_range :
  method_size (Sample.static_2x3 0) (dim_arg 2) Sample.empty
  = Raised (IndexError "tuple index out of range") Sample.empty.
Proof. reflexivity. Qed.

Example size_through_call_method :
  call_method Sample.env TensorVariable_cls (Sample.static_2x3 0) "size"
    [ConstantVariable (VInt 1) None] [] Sample.empty
  = Returned (ConstantVariable (VInt 3) None) Sample.empty.
Proof. reflexivity. Qed.

Example size_two_positional_arguments :
  call_method Sample.env TensorVariable_cls (Sample.static_2x3 0) "size"
    [ConstantVariable (VInt 0) None; ConstantVariable (VInt 1) None] [] Sample.empty
  = Raised (Unsupported "unhandled args for size: too many positional arguments")
      Sample.empty.
Proof. reflexivity. Qed.

Example len_is_size_0 :
  call_method Sample.env TensorVariable_cls (Sample.static_2x3 0) "__len__" [] []
    Sample.empty
  = Returned (ConstantVariable (VInt 2) None) Sample.empty.
Proof. reflexivity. Qed.

Example backward_is_unsupported :
  call_method Sample.env TensorVariable_cls (Sample.static_2x3 0) "backward" [] []
    Sample.empty
  = Raised (Unsupported "Tensor.backward") Sample.empty.
Proof. reflexivity. Qed.

Example has_bool_key_nested :
  has_bool_key (TupleVariable [ConstantVariable (VInt 0) None;
                               TupleVariable [Sample.mask] None] None) = true
  /\ has_bool_key (ListVariable [Sample.mask] None) = false
  /\ has_bool_key Sample.grad_value = false.
Proof. repeat split. Qed.

Example numpy_view_recorded :
  method_numpy Sample.env TensorVariable_cls (Sample.static_2x3 0) None
    (Sample.placeholder (Some (EvTensor Sample.refined_fake)))
  = Returned
      (Some (TensorVariable NumpyNdarrayVariable_cls (Sample.static_2x3 1)))
      (mk_state
         [mk_node "placeholder" (TFunction "x") [] []
            (Some (EvTensor Sample.refined_fake));
          mk_node "call_method" (TMethod "view_as") [AProxy 0; AProxy 0] []
            (Some (EvTensor Sample.refined_fake))]
         [] 0).
Proof. reflexivity. Qed.

Example numpy_forced_detaches_first :
  match method_numpy Sample.env TensorVariable_cls (Sample.static_2x3 0)
          (Some (ConstantVariable (VBool true) None))
          (Sample.placeholder (Some (EvTensor Sample.refined_fake))) with
  | Returned (Some (TensorVariable NumpyNdarrayVariable_cls f)) st =>
      proxy f = 2%nat
      /\ map n_target (nodes st)
         = [TFunction "x"; TMethod "detach"; TMethod "cpu"]
  | _ => False
  end.
Proof. vm_compute. split; reflexivity. Qed.

(** A variable of rank 0 has the empty size, which is falsy: unpacking asks
    [size(0)] and the subscript of the empty tuple fails. *)
Example unpack_rank_0 :
  unpack_var_sequence Sample.env TensorVariable_cls
    (mk_tensor 0 None None None (Some 0) (Some []) (Some []) None None None None
       None None) None Sample.empty
  = Raised (IndexError "tuple index out of range") Sample.empty.
Proof. reflexivity. Qed.

(** ** Sequence-unpacking predicate *)

Lemma has_unpack_var_sequence_known (self : TensorFields) (n : Z) :
  ndim self = Some n ->
  has_unpack_var_sequence self = inr (0 <? n).
Proof. intros H. unfold has_unpack_var_sequence. now rewrite H. Qed.

Lemma has_unpack_var_sequence_positive (self : TensorFields) (n : Z) :
  ndim self = Some n ->
  (has_unpack_var_sequence self = inr true <-> 0 < n).
Proof.
  intros H. rewrite (has_unpack_var_sequence_known self n H). split.
  - intros E. injection E as E. now apply Z.ltb_lt.
  - intros L. f_equal. now apply Z.ltb_lt.
Qed.

(** C5: on a variable whose [ndim] is absent the predicate does not answer
    [false]: the comparison [None > 0] raises [TypeError]. *)
Theorem has_unpack_var_sequence_ndim_absent :
  ndim (Sample.blank 0) = None
  /\ has_unpack_var_sequence (Sample.blank 0)
     = inl (TypeError "'>' not supported between instances of 'NoneType' and 'int'")
  /\ has_unpack_var_sequence (Sample.blank 0) <> inr false.
Proof.
  split; [reflexivity|]. split; [reflexivity|discriminate].
Qed.

(** ** [element_size] *)

Lemma method_element_size_present self d st :
  dtype self = Some d ->
  method_element_size self st
  = Returned (Some (ConstantVariable (VInt (Torch.itemsize d)) None)) st.
Proof. intros H. unfold method_element_size. now rewrite H. Qed.

Lemma method_element_size_absent self st :
  dtype self = None ->
  method_element_size self st
  = Raised (AttributeError "'NoneType' object has no attribute 'itemsize'") st.
Proof. intros H. unfold method_element_size. now rewrite H. Qed.

Lemma handlers_element_size env :
  handlers env "element_size"
  = Some (fun _ self args kw =>
            with_args (bind0 args kw) (fun _ => method_element_size self)).
Proof. reflexivity. Qed.

(** The handlers that answer from metadata and test for its absence. *)
Lemma guarded_handlers_decline env cls self st :
  example_value_of st (proxy self) = None ->
  (ndim self = None -> method_dim self st = Returned None st)
  /\ (dtype self = None -> method_is_floating_point self st = Returned None st)
  /\ (dtype self = None ->
      forall nb kw, method_type env cls self None nb kw st = Returned None st)
  /\ (device self = None -> method_get_device self st = Returned None st)
  /\ (size self = None -> method_size self None st = Returned None st)
  /\ (stride self = None -> method_stride self None st = Returned None st)
  /\ (size self = None -> method_numel self st = Returned None st)
  /\ (is_contiguous self = None ->
      method_is_contiguous self None st = Returned None st).
Proof.
  intros Hev. repeat split; intros H; intros.
  - unfold method_dim. now rewrite H.
  - unfold method_is_floating_point. now rewrite H.
  - unfold method_type. rewrite H. now destruct (device self).
  - unfold method_get_device. now rewrite H.
  - unfold method_size, _method_size_stride, getattr_size_stride. simpl.
    rewrite H. unfold bind, ret, meta_get_example_value. simpl. now rewrite Hev.
  - unfold method_stride, _method_size_stride, getattr_size_stride. simpl.
    rewrite H. unfold bind, ret, meta_get_example_value. simpl. now rewrite Hev.
  - unfold method_numel. rewrite H.
    unfold bind, ret, meta_get_example_value. now rewrite Hev.
  - unfold method_is_contiguous. unfold bind, ret. rewrite H.
    unfold meta_get_example_value. now rewrite Hev.
Qed.

(** C9: [element_size] answers the byte width of the dtype when the dtype is
    present.  When it is absent the handler neither declines nor raises the
    unsupported-construct signal: reading [itemsize] off [None] raises
    [AttributeError], which [call_method] lets through, while the other
    handlers that answer from metadata decline when their field is absent. *)
Theorem method_element_size_requires_dtype env cls self st :
  (forall d, dtype self = Some d ->
     method_element_size self st
     = Returned (Some (ConstantVariable (VInt (Torch.itemsize d)) None)) st)
  /\ (dtype self = None ->
      method_element_size self st
      = Raised (AttributeError "'NoneType' object has no attribute 'itemsize'") st
      /\ (not_banned env "element_size" ->
          dispatch env (handlers env) cls self "element_size" [] [] st
          = Raised (AttributeError "'NoneType' object has no attribute 'itemsize'") st)
      /\ method_is_floating_point self st = Returned None st
      /\ (forall nb kw, method_type env cls self None nb kw st = Returned None st))
  /\ (example_value_of st (proxy self) = None ->
      (ndim self = None -> method_dim self st = Returned None st)
      /\ (device self = None -> method_get_device self st = Returned None st)
      /\ (size self = None -> method_size self None st = Returned None st)
      /\ (stride self = None -> method_stride self None st = Returned None st)
      /\ (size self = None -> method_numel self st = Returned None st)
      /\ (is_contiguous self = None ->
          method_is_contiguous self None st = Returned None st)).
Proof.
  split; [|split].
  - intros d H. now apply method_element_size_present.
  - intros H. split; [now apply method_element_size_absent|]. split.
    + intros Hb.
      rewrite (dispatch_raised env (handlers env) cls self "element_size" [] []
                 _ st st
                 (AttributeError "'NoneType' object has no attribute 'itemsize'")
                 Hb (handlers_element_size env)).
      * reflexivity.
      * simpl. now apply method_element_size_absent.
    + split.
      * unfold method_is_floating_point. now rewrite H.
      * intros nb kw. unfold method_type. rewrite H. now destruct (device self).
  - intros Hev.
    destruct (guarded_handlers_decline env cls self st Hev)
      as (H1 & _ & _ & H4 & H5 & H6 & H7 & H8).
    repeat split; assumption.
Qed.

Lemma method_element_size_requires_dtype_witness :
  method_element_size (Sample.static_2x3 0) (Sample.placeholder None)
  = Returned (Some (ConstantVariable (VInt 4) None)) (Sample.placeholder None)
  /\ method_element_size (Sample.blank 0) (Sample.placeholder None)
     = Raised (AttributeError "'NoneType' object has no attribute 'itemsize'")
         (Sample.placeholder None)
  /\ dispatch Sample.env (handlers Sample.env) TensorVariable_cls (Sample.blank 0)
       "element_size" [] [] (Sample.placeholder None)
     = Raised (AttributeError "'NoneType' object has no attribute 'itemsize'")
         (Sample.placeholder None)
  /\ method_dim (Sample.blank 0) (Sample.placeholder None)
     = Returned None (Sample.placeholder None)
  /\ method_get_device (Sample.blank 0) (Sample.placeholder None)
     = Returned None (Sample.placeholder None)
  /\ method_size (Sample.blank 0) None (Sample.placeholder None)
     = Returned None (Sample.placeholder None)
  /\ method_stride (Sample.blank 0) None (Sample.placeholder None)
     = Returned None (Sample.placeholder None)
  /\ method_numel (Sample.blank 0) (Sample.placeholder None)
     = Returned None (Sample.placeholder None)
  /\ method_is_contiguous (Sample.blank 0) None (Sample.placeholder None)
     = Returned None (Sample.placeholder None).
Proof.
  destruct (method_element_size_requires_dtype Sample.env TensorVariable_cls
              (Sample.static_2x3 0) (Sample.placeholder None)) as (Hpres & _).
  destruct (method_element_size_requires_dtype Sample.env TensorVariable_cls
              (Sample.blank 0) (Sample.placeholder None)) as (_ & Habs & Hrest).
  destruct (Habs eq_refl) as (Hraise & Hdisp & _).
  destruct (Hrest eq_refl) as (Hdim & Hdev & Hsize & Hstride & Hnumel & Hcontig).
  split; [exact (Hpres Torch.float32 eq_refl)|].
  split; [exact Hraise|].
  split; [exact (Hdisp eq_refl)|].
  split; [exact (Hdim eq_refl)|].
  split; [exact (Hdev eq_refl)|].
  split; [exact (Hsize eq_refl)|].
  split; [exact (Hstride eq_refl)|].
  split; [exact (Hnumel eq_refl)|exact (Hcontig eq_refl)].
Defined.

(** ** [numpy] *)

Lemma handlers_numpy env :
  handlers env "numpy"
  = Some (fun cls self args kw =>
            with_args (bind_keyword_only "force" args kw) (method_numpy env cls self)).
Proof. reflexivity. Qed.

Lemma method_numpy_not_strided env cls self force st :
  trace_numpy env = true ->
  np env = true ->
  layout self <> Some Torch.strided ->
  method_numpy env cls self force st
  = Raised (TypeError (cannot_convert_layout (layout self))) st.
Proof.
  intros Ht Hn Hl.
  unfold method_numpy. rewrite Ht, Hn. simpl. unfold bind, ret. simpl.
  destruct (layout self) as [[]|]; try reflexivity. now elim Hl.
Qed.

(** Called through [call_method], [numpy] on a sparse tensor ends in the
    unsupported-construct signal and not in a [TypeError]: the dispatcher
    catches the [TypeError] of the handler. *)
Lemma call_method_numpy_sparse_is_Unsupported :
  trace_numpy Sample.env = true
  /\ np Sample.env = true
  /\ call_method Sample.env TensorVariable_cls
       (mk_tensor 0 None None (Some Torch.sparse_coo) None None None None None None
          None None None)
       "numpy" [] [("force", ConstantVariable (VBool true) None)]
       (Sample.placeholder None)
     = Raised
         (Unsupported
            "unhandled args for numpy: can't convert torch.sparse_coo layout tensor to numpy. Use Tensor.dense() first")
         (Sample.placeholder None).
Proof. repeat split. Qed.

(** C10, as the code has it: with array interop allowed and an array
    backend at hand, the handler of [numpy] raises [TypeError] on a variable
    whose layout is not the strided one, with or without [force], before
    any detach, device move or view is recorded.  [call_method], which is
    what calls the handler, catches that [TypeError]: the call ends in the
    unsupported-construct signal, whose message carries the text of the
    [TypeError], in the trace state it started in.  No [TypeError] leaves
    [call_method]. *)
Theorem call_method_numpy_layout_Unsupported env cls self kwargs force st :
  trace_numpy env = true ->
  np env = true ->
  layout self <> Some Torch.strided ->
  cls <> NumpyNdarrayVariable_cls ->
  not_banned env "numpy" ->
  bind_keyword_only "force" [] kwargs = inr force ->
  method_numpy env cls self force st
  = Raised (TypeError (cannot_convert_layout (layout self))) st
  /\ call_method env cls self "numpy" [] kwargs st
     = Raised (Unsupported ("unhandled args for numpy: "
                            ++ cannot_convert_layout (layout self))%string) st
  /\ (forall msg st',
        call_method env cls self "numpy" [] kwargs st <> Raised (TypeError msg) st').
Proof.
  intros Ht Hn Hl Hcls Hb Hforce.
  pose proof (method_numpy_not_strided env cls self force st Ht Hn Hl) as Hraise.
  assert (Hcall : call_method env cls self "numpy" [] kwargs st
                  = Raised (Unsupported ("unhandled args for numpy: "
                                         ++ cannot_convert_layout (layout self))%string)
                      st).
  { assert (Hc : call_method env cls self "numpy" [] kwargs st
                 = dispatch env (handlers env) cls self "numpy" [] kwargs st)
      by (destruct cls; [reflexivity|now elim Hcls|reflexivity|reflexivity]).
    rewrite Hc.
    rewrite (dispatch_raised env (handlers env) cls self "numpy" [] kwargs _ st st
               (TypeError (cannot_convert_layout (layout self)))
               Hb (handlers_numpy env)).
    - reflexivity.
    - unfold with_args. rewrite Hforce. exact Hraise. }
  split; [exact Hraise|]. split; [exact Hcall|].
  intros msg st'. rewrite Hcall. discriminate.
Qed.

Lemma call_method_numpy_layout_Unsupported_witness :
  method_numpy Sample.env TensorVariable_cls
    (mk_tensor 0 None None (Some Torch.sparse_coo) None None None None None None
       None None None)
    (Some (ConstantVariable (VBool true) None)) (Sample.placeholder None)
  = Raised (TypeError "can't convert torch.sparse_coo layout tensor to numpy. Use Tensor.dense() first")
      (Sample.placeholder None)
  /\ call_method Sample.env TensorVariable_cls
       (mk_tensor 0 None None None None None None None None None None None None)
       "numpy" [] [] (Sample.placeholder None)
     = Raised
         (Unsupported
            "unhandled args for numpy: can't convert None layout tensor to numpy. Use Tensor.dense() first")
         (Sample.placeholder None).
Proof.
  split.
  - refine (proj1 (call_method_numpy_layout_Unsupported Sample.env TensorVariable_cls
                     (mk_tensor 0 None None (Some Torch.sparse_coo) None None None None
                        None None None None None)
                     [("force", ConstantVariable (VBool true) None)]
                     (Some (ConstantVariable (VBool true) None))
                     (Sample.placeholder None) _ _ _ _ _ _));
      try reflexivity; discriminate.
  - refine (proj1 (proj2 (call_method_numpy_layout_Unsupported Sample.env
                            TensorVariable_cls
                            (mk_tensor 0 None None None None None None None None None
                               None None None)
                            [] None (Sample.placeholder None) _ _ _ _ _ _)));
      try reflexivity; discriminate.
Defined.

(** ** [as_subclass] *)

Lemma handlers_as_subclass env :
  handlers env "as_subclass"
  = Some (fun _ self args kw =>
            with_args (bind1 "cls" args kw) (method_as_subclass self)).
Proof. reflexivity. Qed.

Lemma method_as_subclass_declines self arg st :
  subclass_with_source arg = None ->
  method_as_subclass self arg st = Returned None st.
Proof.
  intros H. destruct arg; try reflexivity.
  destruct src; [discriminate|reflexivity].
Qed.

(** C7: [as_subclass] rewires [self] into the composite variable only for
    an argument that is a subclass constructor variable with a source.  For
    an argument of another kind, or one without a source, the handler
    returns nothing, raises nothing and leaves the state alone, and
    [call_method] records the call by its default. *)
Theorem method_as_subclass_needs_source env cls self arg st :
  (subclass_with_source arg = None ->
     method_as_subclass self arg st = Returned None st
     /\ (not_banned env "as_subclass" ->
         dispatch env (handlers env) cls self "as_subclass" [arg] [] st
         = default_dispatch env cls self "as_subclass" [arg] [] st))
  /\ (forall r st',
        method_as_subclass self arg st = Returned (Some r) st' ->
        exists c s fn,
          arg = TensorSubclassVariable c (Some s)
          /\ r = TensorWithTFOverrideVariable self c fn)
  /\ (forall c s func,
        arg = TensorSubclassVariable c (Some s) ->
        cls_torch_function c = Some func ->
        exists fn,
          method_as_subclass self arg st
          = Returned (Some (TensorWithTFOverrideVariable self c fn)) st).
Proof.
  split; [|split].
  - intros H. split; [now apply method_as_subclass_declines|].
    intros Hb.
    apply (dispatch_declined env (handlers env) cls self "as_subclass" [arg] []
             _ st st Hb (handlers_as_subclass env)).
    simpl. now apply method_as_subclass_declines.
  - intros r st' H. destruct arg; try discriminate.
    destruct src as [s|]; [|discriminate].
    unfold method_as_subclass in H. simpl in H. unfold bind, ret in H. simpl in H.
    destruct (cls_torch_function value) as [func|]; [|discriminate].
    simpl in H. injection H as Hr _. subst r. eauto.
  - intros c s func -> Hf. unfold method_as_subclass. simpl.
    unfold bind, ret. simpl. rewrite Hf. simpl. eauto.
Qed.

Lemma method_as_subclass_needs_source_witness :
  method_as_subclass (Sample.blank 0) (TensorSubclassVariable Sample.MyTensor None)
    Sample.empty
  = Returned None Sample.empty
  /\ dispatch Sample.env (handlers Sample.env) TensorVariable_cls (Sample.blank 0)
       "as_subclass" [TensorSubclassVariable Sample.MyTensor None] [] Sample.empty
     = default_dispatch Sample.env TensorVariable_cls (Sample.blank 0)
         "as_subclass" [TensorSubclassVariable Sample.MyTensor None] [] Sample.empty
  /\ exists fn,
       method_as_subclass (Sample.blank 0)
         (TensorSubclassVariable Sample.MyTensor (Some (LocalSource "MyTensor")))
         Sample.empty
       = Returned (Some (TensorWithTFOverrideVariable (Sample.blank 0) Sample.MyTensor fn))
           Sample.empty.
Proof.
  destruct (method_as_subclass_needs_source Sample.env TensorVariable_cls
              (Sample.blank 0) (TensorSubclassVariable Sample.MyTensor None)
              Sample.empty) as (H & _).
  destruct (H eq_refl) as (H1 & H2).
  split; [exact H1|]. split; [exact (H2 eq_refl)|].
  exact (proj2 (proj2 (method_as_subclass_needs_source Sample.env TensorVariable_cls
                         (Sample.blank 0)
                         (TensorSubclassVariable Sample.MyTensor
                            (Some (LocalSource "MyTensor")))
                         Sample.empty))
           Sample.MyTensor (LocalSource "MyTensor") "MyTensor.__torch_function__"
           eq_refl eq_refl).
Defined.

(** ** [__setitem__] *)

Lemma dtype_mask_test f :
  match dtype f with
  | Some d => Torch.dtype_eqb d Torch.bool_ || Torch.dtype_eqb d Torch.int8
  | None => false
  end = true <-> bool_or_int8 f.
Proof.
  unfold bool_or_int8. destruct (dtype f) as [d|].
  - rewrite orb_true_iff, !dtype_eqb_eq. split; intros [H|H]; subst; auto;
      injection H as ->; auto.
  - split; [discriminate|]. intros [H|H]; discriminate.
Qed.

Lemma existsb_has_bool_key l :
  Forall (fun v => has_bool_key v = true <-> ContainsBoolMask v) l ->
  existsb has_bool_key l = true <-> exists item, In item l /\ ContainsBoolMask item.
Proof.
  intros HF. rewrite existsb_exists. rewrite Forall_forall in HF.
  split; intros (x & Hin & Hx); exists x; split; auto; now apply (HF x Hin).
Qed.

(** The test of the source and the property it stands for agree. *)
Lemma has_bool_key_spec v : has_bool_key v = true <-> ContainsBoolMask v.
Proof.
  induction v using VariableTracker_nested_ind;
    try (simpl; split; [discriminate | intros HC; inversion HC]).
  - simpl. rewrite dtype_mask_test. split.
    + now constructor.
    + intros HC. now inversion HC.
  - simpl. rewrite (existsb_has_bool_key l H). split.
    + intros (x & Hin & Hx). now apply mask_in_size with x.
    + intros HC. inversion HC; subst. eauto.
  - simpl. rewrite (existsb_has_bool_key l H). split.
    + intros (x & Hin & Hx). now apply mask_in_tuple with x.
    + intros HC. inversion HC; subst. eauto.
  - simpl. rewrite dtype_mask_test. split.
    + now constructor.
    + intros HC. now inversion HC.
Qed.

Lemma requires_grad_test value :
  match isinstance_TensorVariable value with
  | Some f => match requires_grad f with Some b => b | None => false end
  | None => false
  end = true <-> requires_grad_tensor value.
Proof.
  unfold requires_grad_tensor.
  destruct (isinstance_TensorVariable value) as [f|].
  - split.
    + intros H. exists f. split; auto.
      destruct (requires_grad f) as [[]|]; congruence.
    + intros (f' & Hf & Hr). injection Hf as <-. now rewrite Hr.
  - split; [discriminate|]. intros (f & Hf & _). discriminate.
Qed.

Lemma setitem_rejected_spec env key value :
  setitem_rejected env key value = true
  <-> ContainsBoolMask key /\ requires_grad_tensor value /\ is_grad_enabled env = true.
Proof.
  unfold setitem_rejected.
  rewrite !andb_true_iff, has_bool_key_spec, requires_grad_test. tauto.
Qed.

(** C4: [__setitem__] raises the unsupported-construct signal exactly when
    the index contains a boolean or int8 tensor-like variable (possibly
    inside tuples), the value written is a tensor-like variable that
    requires gradients, and gradient tracking is enabled.  In every other
    case it records the index assignment as a graph node over [self], the
    index and the value, and returns the constant [None]. *)
Theorem method___setitem___rejects_masked_grad env cls self key value st :
  let rejected :=
    ContainsBoolMask key /\ requires_grad_tensor value /\ is_grad_enabled env = true in
  (rejected ->
     method___setitem__ env cls self key value st
     = Raised (Unsupported boolean_masking_message) st)
  /\ (~ rejected ->
      method___setitem__ env cls self key value st
      = Returned (Some (ConstantVariable VNone None))
          (setitem_recorded self key value st))
  /\ ((exists e st', method___setitem__ env cls self key value st = Raised e st')
      <-> rejected).
Proof.
  intros rejected.
  assert (Hyes : rejected ->
                 method___setitem__ env cls self key value st
                 = Raised (Unsupported boolean_masking_message) st).
  { intros Hr. apply setitem_rejected_spec in Hr.
    unfold method___setitem__. now rewrite Hr. }
  assert (Hno : ~ rejected ->
                method___setitem__ env cls self key value st
                = Returned (Some (ConstantVariable VNone None))
                    (setitem_recorded self key value st)).
  { intros Hr. unfold method___setitem__.
    destruct (setitem_rejected env key value) eqn:E.
    - elim Hr. now apply setitem_rejected_spec.
    - reflexivity. }
  split; [exact Hyes|]. split; [exact Hno|].
  split.
  - intros (e & st' & H).
    destruct (setitem_rejected env key value) eqn:E.
    + now apply setitem_rejected_spec.
    + rewrite Hno in H; [discriminate|].
      intros Hr. apply setitem_rejected_spec in Hr. congruence.
  - intros Hr. rewrite (Hyes Hr). eauto.
Qed.

Lemma method___setitem___rejects_masked_grad_witness :
  method___setitem__ Sample.env TensorVariable_cls (Sample.blank 0)
    (TupleVariable [Sample.mask] None) Sample.grad_value Sample.empty
  = Raised (Unsupported boolean_masking_message) Sample.empty
  /\ method___setitem__ Sample.env_no_grad TensorVariable_cls (Sample.blank 0)
       (TupleVariable [Sample.mask] None) Sample.grad_value Sample.empty
     = Returned (Some (ConstantVariable VNone None))
         (mk_state
            [mk_node "call_function" (TFunction "setitem")
               [AProxy 0; ATuple [AProxy 1]; AProxy 2] [] None] [] 0).
Proof.
  split.
  - apply (method___setitem___rejects_masked_grad Sample.env TensorVariable_cls
             (Sample.blank 0) (TupleVariable [Sample.mask] None) Sample.grad_value
             Sample.empty).
    split; [|split].
    + apply mask_in_tuple with Sample.mask; [now left|].
      constructor. now left.
    + eexists. split; reflexivity.
    + reflexivity.
  - apply (method___setitem___rejects_masked_grad Sample.env_no_grad
             TensorVariable_cls (Sample.blank 0) (TupleVariable [Sample.mask] None)
             Sample.grad_value Sample.empty).
    intros (_ & _ & H). discriminate H.
Defined.

(** ** [SymNodeVariable.create] *)

(** A [SymInt] whose expression is a number has no free symbols, and
    [create] still answers with a symbolic-scalar variable for it: the test
    in [create] is on the type of the value. *)
Lemma SymNodeVariable_create_symbol_free_SymInt :
  example_has_free_symbols (EvScalar (VSymInt (Num 5))) = false
  /\ SymNodeVariable_create Sample.env 0 (EvScalar (VSymInt (Num 5))) None
       (Sample.placeholder None)
     = Returned (SymNodeVariable 0 (EvScalar (VSymInt (Num 5))) None)
         (Sample.placeholder (Some (EvScalar (VSymInt (Num 5))))).
Proof. split; reflexivity. Qed.

Lemma create_after_resolution p v src st :
  bind (meta_set_example_value p v)
    (fun _ =>
       match v with
       | EvScalar (VSympyInteger z) =>
           bind breakpoint (fun _ => ret (ConstantVariable_create (VInt z)))
       | EvScalar (VInt z) => ret (ConstantVariable_create (VInt z))
       | EvScalar (VBool b) => ret (ConstantVariable_create (VBool b))
       | _ => ret (SymNodeVariable p v src)
       end) st
  = Returned
      match plain_constant v with
      | Some c => ConstantVariable c None
      | None => SymNodeVariable p v src
      end
      (state_after_create p v st).
Proof.
  destruct v as [t|l|[]]; reflexivity.
Qed.

(** C3, as the code has it: [create] returns a plain constant variable
    exactly when the resolved value (the supplied one, or the oracle's when
    none was supplied) is an [int], a [bool] or a [sympy.Integer], and a
    [SymNodeVariable] for every other value, whether or not it has free
    symbols.  A recorded example value of the node that differs from the
    supplied value fails the assertion. *)
Theorem SymNodeVariable_create_folds_plain_numbers env p sym_num src st :
  (forall r, example_value_of st p = Some r ->
             example_value_eq env r sym_num = false ->
             SymNodeVariable_create env p sym_num src st = Raised AssertionError st)
  /\ (consistent_with_recorded env p sym_num st ->
      (forall v st1,
         resolved_sym_num env p sym_num st = Returned v st1 ->
         SymNodeVariable_create env p sym_num src st
         = Returned
             match plain_constant v with
             | Some c => ConstantVariable c None
             | None => SymNodeVariable p v src
             end
             (state_after_create p v st1))
      /\ (forall e st1,
            resolved_sym_num env p sym_num st = Raised e st1 ->
            SymNodeVariable_create env p sym_num src st = Raised e st1)).
Proof.
  split.
  - intros r Hr He. unfold SymNodeVariable_create.
    unfold bind at 1. unfold meta_get_example_value. rewrite Hr.
    unfold bind at 1. now rewrite He.
  - intros Hc.
    assert (Hpre : forall k : M VariableTracker,
               bind (meta_get_example_value p)
                 (fun recorded =>
                    bind match recorded with
                         | Some r =>
                             if example_value_eq env r sym_num
                             then ret tt else raise AssertionError
                         | None => ret tt
                         end (fun _ => k)) st = k st).
    { intros k. unfold bind at 1. unfold meta_get_example_value.
      destruct (example_value_of st p) as [r|] eqn:Hr.
      - unfold bind at 1. now rewrite (Hc r Hr).
      - reflexivity. }
    split.
    + intros v st1 Hres. unfold SymNodeVariable_create. rewrite Hpre.
      fold (resolved_sym_num env p sym_num).
      rewrite (bind_Returned _ _ _ _ _ Hres).
      apply create_after_resolution.
    + intros e st1 Hres. unfold SymNodeVariable_create. rewrite Hpre.
      fold (resolved_sym_num env p sym_num).
      now rewrite (bind_Raised _ _ _ _ _ Hres).
Qed.

Lemma SymNodeVariable_create_folds_plain_numbers_witness :
  SymNodeVariable_create Sample.env 0 (EvScalar (VInt 4)) None
    (Sample.placeholder (Some (EvScalar (VInt 3))))
  = Raised AssertionError (Sample.placeholder (Some (EvScalar (VInt 3))))
  /\ SymNodeVariable_create Sample.env 0 (EvScalar (VInt 7)) None
       (Sample.placeholder None)
     = Returned (ConstantVariable (VInt 7) None)
         (Sample.placeholder (Some (EvScalar (VInt 7))))
  /\ SymNodeVariable_create Sample.env 0
       (EvScalar (VSymInt (Sym (mk_symbol "s0" (Some 8))))) None
       (Sample.placeholder None)
     = Returned
         (SymNodeVariable 0 (EvScalar (VSymInt (Sym (mk_symbol "s0" (Some 8))))) None)
         (Sample.placeholder
            (Some (EvScalar (VSymInt (Sym (mk_symbol "s0" (Some 8)))))))
  /\ SymNodeVariable_create Sample.env 0 (EvScalar VNone) None (Sample.placeholder None)
     = Raised (Unsupported "operator not known to the toy oracle")
         (Sample.placeholder None).
Proof.
  split; [|split; [|split]].
  - apply (proj1 (SymNodeVariable_create_folds_plain_numbers Sample.env 0
                    (EvScalar (VInt 4)) None
                    (Sample.placeholder (Some (EvScalar (VInt 3)))))
             (EvScalar (VInt 3))); reflexivity.
  - refine (proj1 (proj2 (SymNodeVariable_create_folds_plain_numbers Sample.env 0
                            (EvScalar (VInt 7)) None (Sample.placeholder None)) _)
              (EvScalar (VInt 7)) (Sample.placeholder None) _).
    + intros r H. discriminate H.
    + reflexivity.
  - refine (proj1 (proj2 (SymNodeVariable_create_folds_plain_numbers Sample.env 0
                            (EvScalar (VSymInt (Sym (mk_symbol "s0" (Some 8)))))
                            None (Sample.placeholder None)) _)
              (EvScalar (VSymInt (Sym (mk_symbol "s0" (Some 8)))))
              (Sample.placeholder None) _).
    + intros r H. discriminate H.
    + reflexivity.
  - refine (proj2 (proj2 (SymNodeVariable_create_folds_plain_numbers Sample.env 0
                            (EvScalar VNone) None (Sample.placeholder None)) _)
              (Unsupported "operator not known to the toy oracle")
              (Sample.placeholder None) _).
    + intros r H. discriminate H.
    + reflexivity.
Defined.

(** ** [specialize] *)

(** An expression is a number exactly when no symbol is free in it. *)
Lemma is_number_free_symbols e : is_number e = true <-> free_symbols e = [].
Proof.
  induction e as [z|s|a IHa b IHb|a IHa b IHb]; simpl.
  - tauto.
  - split; discriminate.
  - rewrite andb_true_iff, IHa, IHb. split.
    + now intros [-> ->].
    + intros H. now apply app_eq_nil in H.
  - rewrite andb_true_iff, IHa, IHb. split.
    + now intros [-> ->].
    + intros H. now apply app_eq_nil in H.
Qed.

Lemma is_number_hint_value e :
  is_number e = true -> exists z, hint_value e = Some z.
Proof.
  induction e as [z|s|a IHa b IHb|a IHa b IHb]; simpl; intros H.
  - eauto.
  - discriminate.
  - apply andb_true_iff in H as [Ha Hb].
    destruct (IHa Ha) as [x ->], (IHb Hb) as [y ->]. eauto.
  - apply andb_true_iff in H as [Ha Hb].
    destruct (IHa Ha) as [x ->], (IHb Hb) as [y ->]. eauto.
Qed.

Lemma symbol_free_int x :
  has_free_symbols x = false -> exists z, int_ x = inr z.
Proof.
  destruct x as [z|e]; simpl; intros H.
  - eauto.
  - apply negb_false_iff in H. destruct (is_number_hint_value e H) as [z ->]. eauto.
Qed.

Lemma symbol_free_seq l :
  has_free_symbols_seq l = false -> Forall symbol_free_constant l.
Proof.
  unfold has_free_symbols_seq. induction l as [|x xs IH]; simpl; intros H.
  - constructor.
  - apply orb_false_iff in H as [Hx Hxs]. constructor; auto.
    split; auto. now apply symbol_free_int.
Qed.

(** The cast of the extents in [specialize] goes through on a symbol-free
    size and leaves plain integers with the same values. *)
Lemma specialize_size_cast l :
  has_free_symbols_seq l = false ->
  exists sz,
    map_result
      (fun s => if is_symbolic s
                then match int_ s with
                     | inl e => inl e
                     | inr z => inr (PyInt z)
                     end
                else inr s) l = inr sz
    /\ Forall (fun x => exists z, x = PyInt z) sz
    /\ map int_ sz = map int_ l.
Proof.
  unfold has_free_symbols_seq. induction l as [|x xs IH]; simpl; intros H.
  - exists []. repeat split. constructor.
  - apply orb_false_iff in H as [Hx Hxs].
    destruct (IH Hxs) as (sz & E & Hp & Hm). rewrite E.
    destruct (symbol_free_int x Hx) as [z Hz].
    destruct x as [z'|e]; simpl in *.
    + exists (PyInt z' :: sz). repeat split; simpl; [|now f_equal].
      constructor; eauto.
    + destruct (hint_value e) as [z'|]; [|discriminate].
      exists (PyInt z' :: sz). repeat split; simpl; [|now f_equal].
      constructor; eauto.
Qed.

Lemma has_free_symbols_tensor_false value :
  has_free_symbols_tensor value = false ->
  has_free_symbols_seq (t_size value) = false
  /\ has_free_symbols_seq (t_stride value) = false.
Proof.
  unfold has_free_symbols_tensor. intros H.
  apply orb_false_iff in H as [H _]. now apply orb_false_iff in H.
Qed.

(** [specialize] never raises: the cast is only reached for symbol-free
    extents. *)
Lemma specialize_total t : exists props, specialize t = inr props.
Proof.
  unfold specialize.
  destruct (has_free_symbols_tensor t) eqn:Hfree; simpl; [eauto|].
  destruct (has_free_symbols_tensor_false t Hfree) as [Hsz _].
  destruct (specialize_size_cast (t_size t) Hsz) as (sz & E & _).
  rewrite E. eauto.
Qed.

Lemma plain_ints_symbol_free sz :
  Forall (fun x => exists z, x = PyInt z) sz -> Forall symbol_free_constant sz.
Proof.
  intros H. eapply Forall_impl; [|exact H].
  intros x [z ->]. split; simpl; eauto.
Qed.

(** C2: [specialize] always records dtype, device, layout, ndim,
    requires_grad, is_quantized, is_sparse and the class; it records size,
    stride and contiguity exactly for a value without free symbols, the
    contiguity of a batched value being [None] and not computed.  Every
    variable built from the result has a [size] and a [stride] that are
    absent or symbol-free constants. *)
Theorem specialize_records_static_metadata (value : FakeTensor) :
  exists props,
    specialize value = inr props
    /\ (props_dtype props = t_dtype value
        /\ props_device props = t_device value
        /\ props_layout props = t_layout value
        /\ props_ndim props = t_ndim value
        /\ props_requires_grad props = t_requires_grad value
        /\ props_is_quantized props = t_is_quantized value
        /\ props_is_sparse props = t_is_sparse value
        /\ props_class_type props = t_class value)
    /\ (has_free_symbols_tensor value = false ->
        (exists sz, props_size props = Some sz
                    /\ Forall (fun x => exists z, x = PyInt z) sz
                    /\ map int_ sz = map int_ (t_size value))
        /\ props_stride props = Some (t_stride value)
        /\ props_is_contiguous props
           = Some (if t_is_batchedtensor value then None
                   else Some (computed_contiguity value)))
    /\ (has_free_symbols_tensor value = true ->
        props_size props = None
        /\ props_stride props = None
        /\ props_is_contiguous props = None)
    /\ (forall p src, static_metadata_invariant (TensorFields_of_props p props src)).
Proof.
  unfold specialize.
  destruct (has_free_symbols_tensor value) eqn:Hfree; simpl.
  - eexists. split; [reflexivity|]. simpl.
    split; [repeat split|]. split; [discriminate|]. split; [auto|].
    intros p src. split; simpl; intros s H; discriminate.
  - destruct (has_free_symbols_tensor_false value Hfree) as [Hsz Hst].
    destruct (specialize_size_cast (t_size value) Hsz) as (sz & E & Hp & Hm).
    rewrite E. eexists. split; [reflexivity|]. simpl.
    split; [repeat split|]. split.
    + intros _. split; [eauto|]. split; reflexivity.
    + split; [discriminate|].
      intros p src. split; simpl; intros s H; injection H as <-.
      * now apply plain_ints_symbol_free.
      * now apply symbol_free_seq.
Qed.

Lemma specialize_records_static_metadata_witness :
  specialize Sample.refined_fake
  = inr (mk_props Torch.float32 Sample.cpu Torch.strided 2 false false false
           Sample.Tensor (Some [PyInt 2; PyInt 3]) (Some [PyInt 3; PyInt 1])
           (Some (Some [Torch.contiguous_format])))
  /\ static_metadata_invariant
       (TensorFields_of_props 0
          (mk_props Torch.float32 Sample.cpu Torch.strided 2 false false false
             Sample.Tensor (Some [PyInt 2; PyInt 3]) (Some [PyInt 3; PyInt 1])
             (Some (Some [Torch.contiguous_format]))) None)
  /\ exists props,
       specialize Sample.dynamic_fake = inr props
       /\ props_size props = None
       /\ props_stride props = None
       /\ props_is_contiguous props = None.
Proof.
  destruct (specialize_records_static_metadata Sample.refined_fake)
    as (props & E & _ & Hstatic & _ & Hinv).
  destruct (Hstatic eq_refl) as ((sz & Hsz & _ & _) & Hst & Hc).
  vm_compute in E. injection E as <-.
  split; [reflexivity|]. split; [apply Hinv|].
  destruct (specialize_records_static_metadata Sample.dynamic_fake)
    as (props' & E' & _ & _ & Hdyn & _).
  exists props'. split; [exact E'|]. exact (Hdyn eq_refl).
Defined.

(** ** [size] and [stride] *)

Lemma getitem_with_subscript {A} m1 m2 (r : list A) d x :
  subscript r d = Some x ->
  getitem_with m1 m2 r (GValue (VInt d)) = inr x.
Proof.
  unfold subscript, getitem_with. simpl.
  destruct ((0 <=? (if d <? 0 then d + Z.of_nat (Datatypes.length r) else d))
            && ((if d <? 0 then d + Z.of_nat (Datatypes.length r) else d)
                <? Z.of_nat (Datatypes.length r))); [|discriminate].
  now intros ->.
Qed.

Lemma map_result_int_symbol_free l :
  has_free_symbols_seq l = false ->
  exists ints, map_result int_ l = inr ints /\ map int_ l = map inr ints.
Proof.
  unfold has_free_symbols_seq. induction l as [|x xs IH]; simpl; intros H.
  - exists []. split; reflexivity.
  - apply orb_false_iff in H as [Hx Hxs].
    destruct (symbol_free_int x Hx) as [z Hz], (IH Hxs) as (ints & E & Em).
    rewrite Hz, E. exists (z :: ints). split; [reflexivity|]. simpl. now f_equal.
Qed.

Lemma handlers_size_stride env name :
  name = "size" \/ name = "stride" ->
  exists h, handlers env name = Some h
            /\ forall cls self, h cls self [] [] = _method_size_stride self name None.
Proof.
  intros [->| ->]; eexists; (split; [reflexivity|]); intros; reflexivity.
Qed.

(** Runs the handler up to the point where it has read the metadata field
    (equation [Hmeta]) and the recorded example value (equation [Hev]). *)
Ltac run_size_stride Hmeta Hev :=
  unfold _method_size_stride, dim_arg; simpl; unfold bind, ret; simpl;
  rewrite Hmeta; unfold meta_get_example_value; rewrite Hev.

(** C1: the [size] and [stride] handlers answer from the static metadata
    when it is there, whatever the oracle has recorded.  When it is absent
    they look at the example value recorded for the node: they return a
    constant (the integer values of the answer) if and only if the answer
    has no free symbols, and otherwise, as when no example value is
    recorded, they return nothing and [call_method] records the call by its
    default. *)
Theorem _method_size_stride_static_then_oracle self name st :
  (forall r, getattr_size_stride self name = Some r ->
     _method_size_stride self name None st
     = Returned (Some (RetVariable name (map intlike_value r))) st
     /\ (forall d x, subscript r d = Some x ->
           _method_size_stride self name (dim_arg d) st
           = Returned (Some (ConstantVariable (intlike_value x) None)) st))
  /\ (getattr_size_stride self name = None ->
      (example_value_of st (proxy self) = None ->
         _method_size_stride self name None st = Returned None st
         /\ forall d, _method_size_stride self name (dim_arg d) st = Returned None st)
      /\ (forall fake, example_value_of st (proxy self) = Some (EvTensor fake) ->
            let fake_r := fake_size_stride fake name in
            (has_free_symbols_seq fake_r = false ->
               exists ints,
                 map int_ fake_r = map inr ints
                 /\ _method_size_stride self name None st
                    = Returned (Some (RetVariable name (map VInt ints))) st)
            /\ (has_free_symbols_seq fake_r = true ->
                  _method_size_stride self name None st = Returned None st
                  /\ forall env cls,
                       not_banned env name -> name = "size" \/ name = "stride" ->
                       dispatch env (handlers env) cls self name [] [] st
                       = default_dispatch env cls self name [] [] st)
            /\ (forall d x, subscript fake_r d = Some x ->
                  (has_free_symbols x = false ->
                     exists z,
                       int_ x = inr z
                       /\ _method_size_stride self name (dim_arg d) st
                          = Returned (Some (ConstantVariable (VInt z) None)) st)
                  /\ (has_free_symbols x = true ->
                        _method_size_stride self name (dim_arg d) st
                        = Returned None st)))).
Proof.
  split.
  - intros r Hr. split.
    + unfold _method_size_stride. simpl. unfold bind, ret. simpl. now rewrite Hr.
    + intros d x Hx. unfold _method_size_stride, dim_arg. simpl.
      unfold bind, ret. simpl. rewrite Hr. unfold tuple_getitem.
      now rewrite (getitem_with_subscript _ _ r d x Hx).
  - intros Hnone. split.
    + intros Hev. split; [|intros d]; run_size_stride Hnone Hev; reflexivity.
    + intros fake Hev fake_r.
      assert (Hdecl : has_free_symbols_seq fake_r = true ->
                      _method_size_stride self name None st = Returned None st).
      { intros Hfree. run_size_stride Hnone Hev. fold fake_r. now rewrite Hfree. }
      split; [|split].
      * intros Hfree.
        destruct (map_result_int_symbol_free fake_r Hfree) as (ints & E & Em).
        exists ints. split; [exact Em|].
        run_size_stride Hnone Hev. fold fake_r. rewrite Hfree. simpl. now rewrite E.
      * intros Hfree. split; [now apply Hdecl|].
        intros env cls Hb Hname.
        destruct (handlers_size_stride env name Hname) as (h & Hh & Hbody).
        apply (dispatch_declined env (handlers env) cls self name [] [] h st st Hb Hh).
        rewrite Hbody. now apply Hdecl.
      * intros d x Hx. split.
        -- intros Hfree. destruct (symbol_free_int x Hfree) as [z Hz].
           exists z. split; [exact Hz|].
           run_size_stride Hnone Hev. fold fake_r. unfold tensor_dim_getitem.
           rewrite (getitem_with_subscript _ _ fake_r d x Hx). simpl.
           rewrite Hfree. simpl. now rewrite Hz.
        -- intros Hfree.
           run_size_stride Hnone Hev. fold fake_r. unfold tensor_dim_getitem.
           rewrite (getitem_with_subscript _ _ fake_r d x Hx). simpl.
           now rewrite Hfree.
Qed.

Lemma _method_size_stride_static_then_oracle_witness :
  _method_size_stride (Sample.static_2x3 0) "size" None (Sample.placeholder None)
  = Returned (Some (SizeVariable [ConstantVariable (VInt 2) None;
                                  ConstantVariable (VInt 3) None] None))
      (Sample.placeholder None)
  /\ _method_size_stride (Sample.static_2x3 0) "stride" (dim_arg (-1))
       (Sample.placeholder None)
     = Returned (Some (ConstantVariable (VInt 1) None)) (Sample.placeholder None)
  /\ _method_size_stride (Sample.blank 0) "size" (dim_arg 0) (Sample.placeholder None)
     = Returned None (Sample.placeholder None)
  /\ (exists ints,
        _method_size_stride (Sample.blank 0) "size" None
          (Sample.placeholder (Some (EvTensor Sample.refined_fake)))
        = Returned (Some (RetVariable "size" (map VInt ints)))
            (Sample.placeholder (Some (EvTensor Sample.refined_fake))))
  /\ _method_size_stride (Sample.blank 0) "size" None
       (Sample.placeholder (Some (EvTensor Sample.dynamic_fake)))
     = Returned None (Sample.placeholder (Some (EvTensor Sample.dynamic_fake)))
  /\ dispatch Sample.env (handlers Sample.env) TensorVariable_cls (Sample.blank 0)
       "size" [] [] (Sample.placeholder (Some (EvTensor Sample.dynamic_fake)))
     = default_dispatch Sample.env TensorVariable_cls (Sample.blank 0) "size" [] []
         (Sample.placeholder (Some (EvTensor Sample.dynamic_fake)))
  /\ _method_size_stride (Sample.blank 0) "size" (dim_arg 1)
       (Sample.placeholder (Some (EvTensor Sample.dynamic_fake)))
     = Returned (Some (ConstantVariable (VInt 3) None))
         (Sample.placeholder (Some (EvTensor Sample.dynamic_fake)))
  /\ _method_size_stride (Sample.blank 0) "size" (dim_arg 0)
       (Sample.placeholder (Some (EvTensor Sample.dynamic_fake)))
     = Returned None (Sample.placeholder (Some (EvTensor Sample.dynamic_fake))).
Proof.
  destruct (_method_size_stride_static_then_oracle (Sample.static_2x3 0) "size"
              (Sample.placeholder None)) as (Hsize & _).
  destruct (_method_size_stride_static_then_oracle (Sample.static_2x3 0) "stride"
              (Sample.placeholder None)) as (Hstride & _).
  destruct (_method_size_stride_static_then_oracle (Sample.blank 0) "size"
              (Sample.placeholder None)) as (_ & Hnone).
  destruct (Hnone eq_refl) as (Hdecline & _).
  destruct (_method_size_stride_static_then_oracle (Sample.blank 0) "size"
              (Sample.placeholder (Some (EvTensor Sample.refined_fake))))
    as (_ & Href).
  destruct (Href eq_refl) as (_ & Href').
  destruct (Href' Sample.refined_fake eq_refl) as (Hconst & _).
  destruct (_method_size_stride_static_then_oracle (Sample.blank 0) "size"
              (Sample.placeholder (Some (EvTensor Sample.dynamic_fake))))
    as (_ & Hdyn).
  destruct (Hdyn eq_refl) as (_ & Hfake).
  destruct (Hfake Sample.dynamic_fake eq_refl) as (_ & Hfree & Hdim).
  split; [exact (proj1 (Hsize _ eq_refl))|].
  split; [exact (proj2 (Hstride _ eq_refl) (-1) (PyInt 1) eq_refl)|].
  split; [exact (proj2 (Hdecline eq_refl) 0)|].
  split.
  { destruct (Hconst eq_refl) as (ints & _ & E). exists ints. exact E. }
  split; [exact (proj1 (Hfree eq_refl))|].
  split.
  { exact (proj2 (Hfree eq_refl) Sample.env TensorVariable_cls eq_refl
             (or_introl eq_refl)). }
  split.
  - destruct (proj1 (Hdim 1 (PyInt 3) eq_refl) eq_refl) as (z & Hz & E).
    injection Hz as <-. exact E.
  - exact (proj2 (Hdim 0 (SymInt (Sym Sample.s0)) eq_refl) eq_refl).
Defined.

(** ** Sequence unpacking *)

Lemma update_nth_last {A} (f : A -> A) (l : list A) (x : A) :
  update_nth (List.length l) f (l ++ [x]) = l ++ [f x].
Proof. induction l as [|y ys IH]; simpl; [reflexivity|now rewrite IH]. Qed.

Lemma example_value_of_lt st p ev :
  example_value_of st p = Some ev -> (p < List.length (nodes st))%nat.
Proof.
  unfold example_value_of. intros H. apply nth_error_Some.
  destruct (nth_error (nodes st) p); [discriminate|discriminate H].
Qed.

(** One subscript: a node is appended, the oracle's tensor recorded for it,
    and a variable of the class asked for wraps it. *)
Lemma unpack_item_tensor env cls self i st ev t :
  example_value_of st (proxy self) = Some ev ->
  oracle_getitem env ev i = inr (EvTensor t) ->
  exists props,
    specialize t = inr props
    /\ unpack_item env cls self i st
       = Returned
           (TensorVariable cls
              (TensorFields_of_props (List.length (nodes st)) props None))
           (mk_state
              (nodes st ++ [getitem_node (proxy self) i (Some (EvTensor t))])
              (guards st) (debugger_stops st)).
Proof.
  intros Hev Hor. destruct (specialize_total t) as [props Hp].
  exists props. split; [exact Hp|].
  pose proof (example_value_of_lt _ _ _ Hev) as Hlt.
  unfold unpack_item, proxy_getitem, create_proxy. unfold bind at 1.
  unfold wrap_fx_proxy_cls. unfold bind at 1.
  unfold get_fake_value. cbn [nodes].
  rewrite nth_error_app2 by lia. rewrite Nat.sub_diag. cbn [nth_error n_args n_kwargs].
  cbn [args_example arg_example kwargs_example].
  unfold example_value_of at 1. cbn [nodes].
  rewrite nth_error_app1 by exact Hlt.
  unfold example_value_of in Hev.
  destruct (nth_error (nodes st) (proxy self)) as [n0|]; [|discriminate].
  rewrite Hev. cbn [option_map n_op n_target].
  unfold oracle_getitem in Hor. rewrite Hor. cbn [lift ret].
  unfold bind at 1. unfold meta_set_example_value. cbn [nodes guards debugger_stops].
  rewrite update_nth_last. cbn [n_op n_target n_args n_kwargs].
  unfold bind. rewrite Hp. reflexivity.
Qed.

Lemma example_value_of_appended st p extra g d :
  (p < List.length (nodes st))%nat ->
  example_value_of (mk_state (nodes st ++ extra) g d) p = example_value_of st p.
Proof.
  intros H. unfold example_value_of. cbn [nodes]. now rewrite nth_error_app1.
Qed.

(** The loop over the subscripts [a], ..., [a + m - 1]. *)
Lemma unpack_loop env cls self ev (sub : Z -> FakeTensor) m :
  forall a st,
    example_value_of st (proxy self) = Some ev ->
    (forall k, (k < m)%nat ->
       oracle_getitem env ev (Z.of_nat (a + k)) = inr (EvTensor (sub (Z.of_nat (a + k))))) ->
    exists vars st',
      mapM (unpack_item env cls self) (map Z.of_nat (seq a m)) st = Returned vars st'
      /\ List.length vars = m
      /\ List.length (nodes st') = (List.length (nodes st) + m)%nat
      /\ (forall j, (j < List.length (nodes st))%nat ->
            nth_error (nodes st') j = nth_error (nodes st) j)
      /\ (forall k, (k < m)%nat ->
            exists props,
              specialize (sub (Z.of_nat (a + k))) = inr props
              /\ nth_error vars k
                 = Some (TensorVariable cls
                           (TensorFields_of_props (List.length (nodes st) + k) props None))
              /\ nth_error (nodes st') (List.length (nodes st) + k)
                 = Some (getitem_node (proxy self) (Z.of_nat (a + k))
                           (Some (EvTensor (sub (Z.of_nat (a + k))))))).
Proof.
  induction m as [|m IH]; intros a st Hev Hor.
  - exists [], st. simpl. repeat split; auto; intros; lia.
  - pose proof (example_value_of_lt _ _ _ Hev) as Hlt.
    assert (Hor0 : oracle_getitem env ev (Z.of_nat a)
                   = inr (EvTensor (sub (Z.of_nat a)))).
    { specialize (Hor 0%nat). rewrite Nat.add_0_r in Hor. apply Hor. lia. }
    destruct (unpack_item_tensor env cls self (Z.of_nat a) st ev _ Hev Hor0)
      as (props0 & Hp0 & Hstep).
    set (st1 := mk_state
                  (nodes st ++ [getitem_node (proxy self) (Z.of_nat a)
                                  (Some (EvTensor (sub (Z.of_nat a))))])
                  (guards st) (debugger_stops st)) in *.
    assert (Hev1 : example_value_of st1 (proxy self) = Some ev).
    { unfold st1. now rewrite example_value_of_appended. }
    assert (Hlen1 : List.length (nodes st1) = S (List.length (nodes st))).
    { unfold st1. cbn [nodes]. rewrite length_app. simpl. lia. }
    destruct (IH (S a) st1 Hev1) as (vars & st' & Hrun & Hlen & Hnodes & Hold & Hitems).
    { intros k Hk. replace (S a + k)%nat with (a + S k)%nat by lia. apply Hor. lia. }
    eexists (_ :: vars), st'. split.
    { cbn [seq map mapM]. rewrite (bind_Returned _ _ _ _ _ Hstep).
      rewrite (bind_Returned _ _ _ _ _ Hrun). reflexivity. }
    split; [simpl; now rewrite Hlen|].
    split; [rewrite Hnodes, Hlen1; lia|].
    split.
    { intros j Hj. rewrite Hold by lia. unfold st1. cbn [nodes].
      now rewrite nth_error_app1. }
    intros [|k] Hk.
    + exists props0. rewrite !Nat.add_0_r. split; [exact Hp0|]. split; [reflexivity|].
      rewrite Hold by lia. unfold st1. cbn [nodes].
      rewrite nth_error_app2 by lia. now rewrite Nat.sub_diag.
    + destruct (Hitems k) as (props & Hp & Hv & Hn); [lia|].
      replace (S a + k)%nat with (a + S k)%nat in * by lia.
      rewrite Hlen1 in Hv, Hn.
      replace (S (List.length (nodes st)) + k)%nat
        with (List.length (nodes st) + S k)%nat in * by lia.
      exists props. split; [exact Hp|]. split; [exact Hv|exact Hn].
Qed.

(** C6: unpacking without explicit indices a variable whose leading extent
    [n] is statically known produces [n] variables, the one at position [k]
    wrapping the node of the subscript operation [self[k]] and being of the
    class of [self], as long as the oracle answers each subscript with a
    tensor. *)
Theorem unpack_var_sequence_known_length env cls self st x rest n ev
    (sub : Z -> FakeTensor) :
  size self = Some (x :: rest) ->
  int_ x = inr n ->
  example_value_of st (proxy self) = Some ev ->
  (forall i, 0 <= i < n -> oracle_getitem env ev i = inr (EvTensor (sub i))) ->
  exists vars st',
    unpack_var_sequence env cls self None st = Returned vars st'
    /\ List.length vars = Z.to_nat n
    /\ (forall k, (k < Z.to_nat n)%nat ->
          exists props,
            specialize (sub (Z.of_nat k)) = inr props
            /\ nth_error vars k
               = Some (TensorVariable cls
                         (TensorFields_of_props (List.length (nodes st) + k) props None))
            /\ nth_error (nodes st') (List.length (nodes st) + k)
               = Some (getitem_node (proxy self) (Z.of_nat k)
                         (Some (EvTensor (sub (Z.of_nat k)))))).
Proof.
  intros Hsize Hint Hev Hor.
  destruct (unpack_loop env cls self ev sub (Z.to_nat n) 0%nat st Hev)
    as (vars & st' & Hrun & Hlen & _ & _ & Hitems).
  { intros k Hk. apply Hor. simpl. lia. }
  exists vars, st'. split.
  - unfold unpack_var_sequence. rewrite Hsize.
    unfold bind at 1. unfold bind at 1. rewrite Hint. cbn [lift ret].
    unfold range. exact Hrun.
  - split; [exact Hlen|]. intros k Hk. exact (Hitems k Hk).
Qed.

Lemma unpack_var_sequence_known_length_witness :
  exists vars st',
    unpack_var_sequence Sample.env TensorVariable_cls (Sample.static_2x3 0) None
      (Sample.placeholder
         (Some (EvTensor (Sample.fake [PyInt 2; PyInt 3] [PyInt 3; PyInt 1]
                            Torch.strided))))
    = Returned vars st'
    /\ List.length vars = 2%nat
    /\ nth_error (nodes st') 2
       = Some (getitem_node 0 1
                 (Some (EvTensor (Sample.fake [PyInt 3] [PyInt 1] Torch.strided)))).
Proof.
  destruct (unpack_var_sequence_known_length Sample.env TensorVariable_cls
              (Sample.static_2x3 0)
              (Sample.placeholder
                 (Some (EvTensor (Sample.fake [PyInt 2; PyInt 3] [PyInt 3; PyInt 1]
                                    Torch.strided))))
              (PyInt 2) [PyInt 3] 2
              (EvTensor (Sample.fake [PyInt 2; PyInt 3] [PyInt 3; PyInt 1]
                           Torch.strided))
              (fun _ => Sample.fake [PyInt 3] [PyInt 1] Torch.strided)
              eq_refl eq_refl eq_refl (fun i _ => eq_refl))
    as (vars & st' & Hrun & Hlen & Hitems).
  exists vars, st'. split; [exact Hrun|]. split; [exact Hlen|].
  destruct (Hitems 1%nat) as (props & _ & _ & Hnode); [simpl; lia|].
  exact Hnode.
Defined.

(** ** Attribute resolution: [shape] *)

Lemma graph_prefix_refl st : graph_prefix st st.
Proof. exists []. now rewrite app_nil_r. Qed.

Lemma graph_prefix_trans a b c :
  graph_prefix a b -> graph_prefix b c -> graph_prefix a c.
Proof.
  intros [x Hx] [y Hy]. exists (x ++ y). now rewrite Hy, Hx, app_assoc.
Qed.

Lemma graph_prefix_example st st' p :
  graph_prefix st st' -> (p < List.length (nodes st))%nat ->
  example_value_of st' p = example_value_of st p
  /\ (p < List.length (nodes st'))%nat.
Proof.
  intros [x Hx] Hp. unfold example_value_of. rewrite Hx.
  rewrite nth_error_app1 by exact Hp. split; [reflexivity|].
  rewrite length_app. lia.
Qed.

Lemma dimension_extents_forget_nodes v :
  dimension_extents (forget_nodes v) = dimension_extents v.
Proof.
  destruct v; try reflexivity. simpl. f_equal. rewrite map_map.
  apply map_ext. intros a. now destruct a.
Qed.

Lemma same_contents_of_forget_nodes r1 r2 s1 s2 :
  forget_nodes r1 = forget_nodes r2 -> same_contents (Returned r1 s1) (Returned r2 s2).
Proof.
  intros H. split; [exact H|].
  now rewrite <- (dimension_extents_forget_nodes r1), H, dimension_extents_forget_nodes.
Qed.

Lemma forget_nodes_set_source v s :
  forget_nodes (set_source v s) = set_source (forget_nodes v) s.
Proof. destruct v; reflexivity. Qed.

(** [create] on a node that has just been appended. *)
Lemma SymNodeVariable_create_fresh env ns n g d e src :
  n_example_value n = None ->
  SymNodeVariable_create env (List.length ns) (EvScalar (VSymInt e)) src
    (mk_state (ns ++ [n]) g d)
  = Returned (SymNodeVariable (List.length ns) (EvScalar (VSymInt e)) src)
      (mk_state
         (ns ++ [mk_node (n_op n) (n_target n) (n_args n) (n_kwargs n)
                   (Some (EvScalar (VSymInt e)))]) g d).
Proof.
  intros Hn. unfold SymNodeVariable_create.
  unfold bind at 1. unfold meta_get_example_value, example_value_of. cbn [nodes].
  rewrite nth_error_app2 by lia. rewrite Nat.sub_diag. cbn [nth_error]. rewrite Hn.
  unfold bind at 1. cbn [ret]. unfold bind at 1. cbn [ret].
  unfold bind at 1. unfold meta_set_example_value. cbn [nodes guards debugger_stops].
  now rewrite update_nth_last.
Qed.

Lemma wrap_size_items_contents env q l :
  forall i st,
    exists items st',
      wrap_size_items env q i l st = Returned items st'
      /\ graph_prefix st st'
      /\ map forget_nodes items = map wrapped_extent l.
Proof.
  induction l as [|x xs IH]; intros i st.
  - exists [], st. split; [reflexivity|]. split; [apply graph_prefix_refl|reflexivity].
  - cbn [wrap_size_items]. destruct x as [z|e].
    + destruct (IH (i + 1) st) as (items & st' & Hrun & Hpre & Hmap).
      eexists (_ :: items), st'. split.
      { unfold bind at 1. cbn [ret]. rewrite (bind_Returned _ _ _ _ _ Hrun).
        reflexivity. }
      split; [exact Hpre|]. simpl. now rewrite Hmap.
    + set (n := mk_node "call_function" (TFunction "getitem")
                  [AProxy q; AConst (VInt i)] [] None).
      set (st1 := mk_state
                    (nodes st ++ [mk_node (n_op n) (n_target n) (n_args n) (n_kwargs n)
                                    (Some (EvScalar (VSymInt e)))])
                    (guards st) (debugger_stops st)).
      destruct (IH (i + 1) st1) as (items & st' & Hrun & Hpre & Hmap).
      eexists (_ :: items), st'. split.
      { unfold bind at 1. unfold bind at 1. unfold create_proxy.
        fold n. rewrite (SymNodeVariable_create_fresh env (nodes st) n _ _ e None eq_refl).
        fold st1. rewrite (bind_Returned _ _ _ _ _ Hrun). reflexivity. }
      split.
      { apply graph_prefix_trans with st1; [|exact Hpre]. eexists. reflexivity. }
      simpl. now rewrite Hmap.
Qed.

(** The wrapping service on a node that has just been appended: the oracle
    is asked once; its refusal is the outcome, its answer is wrapped. *)
Lemma wrap_fx_proxy_cls_fresh env c ns n g d src :
  n_example_value n = None ->
  let st := mk_state (ns ++ [n]) g d in
  match args_example st (n_args n), kwargs_example st (n_kwargs n) with
  | Some xs, Some ks =>
      match run_node env (n_op n) (n_target n) xs ks with
      | inl e => wrap_fx_proxy_cls env c (List.length ns) src st = Raised e st
      | inr v =>
          exists r st',
            wrap_fx_proxy_cls env c (List.length ns) src st = Returned r st'
            /\ graph_prefix (mk_state ns g d) st'
            /\ Some (forget_nodes r) = wrapped_contents c v src
      end
  | _, _ =>
      wrap_fx_proxy_cls env c (List.length ns) src st
      = Raised (KeyError "example_value") st
  end.
Proof.
  intros Hn st.
  assert (Hget : get_fake_value env (List.length ns) st
                 = match args_example st (n_args n), kwargs_example st (n_kwargs n) with
                   | Some xs, Some ks => lift (run_node env (n_op n) (n_target n) xs ks) st
                   | _, _ => Raised (KeyError "example_value") st
                   end).
  { unfold get_fake_value. unfold st at 1. cbn [nodes].
    rewrite nth_error_app2 by lia. now rewrite Nat.sub_diag. }
  unfold wrap_fx_proxy_cls.
  destruct (args_example st (n_args n)) as [xs|];
    [|unfold bind at 1; now rewrite Hget].
  destruct (kwargs_example st (n_kwargs n)) as [ks|];
    [|unfold bind at 1; now rewrite Hget].
  destruct (run_node env (n_op n) (n_target n) xs ks) as [e|v];
    [unfold bind at 1; now rewrite Hget|].
  unfold bind at 1. rewrite Hget. cbn [lift ret].
  unfold bind at 1. unfold meta_set_example_value. unfold st. cbn [nodes guards debugger_stops].
  rewrite update_nth_last.
  set (st1 := mk_state (ns ++ [_]) g d).
  assert (Hpre : graph_prefix (mk_state ns g d) st1) by (eexists; reflexivity).
  destruct v as [t|l|x].
  - destruct (specialize_total t) as [props Hp].
    eexists _, st1. split; [unfold bind; rewrite Hp; reflexivity|].
    split; [exact Hpre|]. simpl. now rewrite Hp.
  - destruct (wrap_size_items_contents env (List.length ns) l 0 st1)
      as (items & st' & Hrun & Hpre' & Hmap).
    eexists _, st'. split; [rewrite (bind_Returned _ _ _ _ _ Hrun); reflexivity|].
    split; [now apply graph_prefix_trans with st1|]. simpl. now rewrite Hmap.
  - destruct x; (eexists _, st1; split; [reflexivity|]; split; [exact Hpre|reflexivity]).
Qed.

Lemma var_getattr_shape env cls self st :
  var_getattr env cls self "shape" st
  = bind (strict_mode_check env "getattr" "shape")
      (fun _ => bind (shape_answer env cls self) (after_answer env cls self "shape")) st.
Proof.
  unfold var_getattr, shape_answer, after_answer. cbn [String.eqb Ascii.eqb Bool.eqb].
  unfold bind. destruct (strict_mode_check env "getattr" "shape" st); [|reflexivity].
  destruct (size self); reflexivity.
Qed.

Lemma dispatch_banned env table cls self name args kwargs st :
  ~ not_banned env name ->
  dispatch env table cls self name args kwargs st
  = Raised (Unsupported ("Illegal method invocation " ++ name ++ " in strict mode")%string) st.
Proof.
  intros Hb. unfold dispatch, strict_mode_check. unfold not_banned in Hb.
  destruct (strict_checks_enabled env
            && str_in name (_autograd_backward_strict_mode_banned_ops env));
    [reflexivity|now elim Hb].
Qed.

Lemma dispatch_answered env table cls self name args kwargs h st st' v :
  not_banned env name ->
  table name = Some h ->
  h cls self args kwargs st = Returned (Some v) st' ->
  dispatch env table cls self name args kwargs st = Returned v st'.
Proof.
  intros Hb Ht Hh. unfold dispatch, strict_mode_check.
  red in Hb. rewrite Hb, Ht. unfold bind at 1. simpl.
  unfold bind at 1. unfold catch_TypeError. rewrite Hh. reflexivity.
Qed.

Lemma call_method_size env cls self st :
  call_method env cls self "size" [] [] st
  = dispatch env (handlers env) cls self "size" [] [] st.
Proof. destruct cls; reflexivity. Qed.

Lemma handlers_size env :
  exists h, handlers env "size" = Some h
            /\ forall cls self, h cls self [] [] = method_size self None.
Proof. eexists. split; [reflexivity|]. intros; reflexivity. Qed.

Lemma method_size_no_dim self st :
  method_size self None st
  = match size self with
    | Some r => Returned (Some (RetVariable "size" (map intlike_value r))) st
    | None =>
        match example_value_of st (proxy self) with
        | None | Some (EvScalar VNone) => Returned None st
        | Some (EvTensor t) =>
            if has_free_symbols_seq (t_size t) then Returned None st
            else match map_result int_ (t_size t) with
                 | inl e => Raised e st
                 | inr ints => Returned (Some (RetVariable "size" (map VInt ints))) st
                 end
        | Some _ => Raised (no_attribute "size") st
        end
    end.
Proof.
  unfold method_size, _method_size_stride, getattr_size_stride, fake_size_stride.
  cbn [guard_if_dyn String.eqb Ascii.eqb Bool.eqb].
  unfold bind, ret, meta_get_example_value, raise.
  destruct (size self) as [r|]; [reflexivity|].
  destruct (example_value_of st (proxy self)) as [[t|l|x]|]; try reflexivity.
  - destruct (has_free_symbols_seq (t_size t)); cbn [negb]; [reflexivity|].
    now destruct (map_result int_ (t_size t)).
  - now destruct x.
Qed.

(** The [size] handler reads the state only for the example value of the
    node, and leaves it as it is. *)
Lemma method_size_reads_example self sa sb :
  example_value_of sa (proxy self) = example_value_of sb (proxy self) ->
  (exists r, method_size self None sa = Returned r sa
             /\ method_size self None sb = Returned r sb)
  \/ (exists e, method_size self None sa = Raised e sa
                /\ method_size self None sb = Raised e sb).
Proof.
  intros H. rewrite !method_size_no_dim, H.
  destruct (size self) as [r|]; [left; eexists; split; reflexivity|].
  destruct (example_value_of sb (proxy self)) as [[t|l|x]|].
  - destruct (has_free_symbols_seq (t_size t));
      [left; eexists; split; reflexivity|].
    destruct (map_result int_ (t_size t));
      [right|left]; eexists; split; reflexivity.
  - right. eexists. split; reflexivity.
  - destruct x; first [left; eexists; split; reflexivity
                      |right; eexists; split; reflexivity].
  - left. eexists. split; reflexivity.
Qed.

(** The default of [call_method] for a call without arguments: one node over
    [self] is appended and the oracle is asked about it. *)
Lemma default_dispatch_no_args env cls self name st :
  proxy_in_graph self st ->
  match example_value_of st (proxy self) with
  | None =>
      exists st',
        default_dispatch env cls self name [] [] st
        = Raised (KeyError "example_value") st'
        /\ graph_prefix st st'
  | Some x =>
      match run_node env "call_method" (TMethod name) [XExample x] [] with
      | inl e =>
          exists st',
            default_dispatch env cls self name [] [] st = Raised e st'
            /\ graph_prefix st st'
      | inr v =>
          exists r st',
            default_dispatch env cls self name [] [] st = Returned r st'
            /\ graph_prefix st st'
            /\ Some (forget_nodes r) = wrapped_contents TensorVariable_cls v None
      end
  end.
Proof.
  intros Hvalid.
  set (n := mk_node "call_method" (TMethod name) [AProxy (proxy self)] [] None).
  set (st1 := mk_state (nodes st ++ [n]) (guards st) (debugger_stops st)).
  assert (Hrun : default_dispatch env cls self name [] [] st
                 = wrap_fx_proxy_cls env TensorVariable_cls (List.length (nodes st))
                     None st1) by reflexivity.
  assert (Hpre : graph_prefix st st1) by (eexists; reflexivity).
  pose proof (wrap_fx_proxy_cls_fresh env TensorVariable_cls (nodes st) n (guards st)
                (debugger_stops st) None eq_refl) as W.
  cbv zeta in W. fold st1 in W.
  cbn [n n_args n_kwargs n_op n_target args_example arg_example kwargs_example] in W.
  unfold st1 in W at 1. rewrite example_value_of_appended in W by exact Hvalid.
  rewrite Hrun.
  destruct (example_value_of st (proxy self)) as [x|]; cbn [option_map] in W.
  - destruct (run_node env "call_method" (TMethod name) [XExample x] []) as [e|v].
    + exists st1. split; [exact W|exact Hpre].
    + destruct W as (r & st' & Hr & Hp & Hc). exists r, st'.
      split; [exact Hr|]. split; [|exact Hc].
      destruct Hp as [extra Hp]. exists extra. exact Hp.
  - exists st1. split; [exact W|exact Hpre].
Qed.

(** Two calls of [size] from states that record the same example value for
    the node of [self] have the same contents, and each only extends the
    graph it started from. *)
Lemma call_method_size_stable env cls self sa sb :
  proxy_in_graph self sa ->
  proxy_in_graph self sb ->
  example_value_of sa (proxy self) = example_value_of sb (proxy self) ->
  same_contents (call_method env cls self "size" [] [] sa)
                (call_method env cls self "size" [] [] sb)
  /\ graph_prefix sa (state_of (call_method env cls self "size" [] [] sa))
  /\ graph_prefix sb (state_of (call_method env cls self "size" [] [] sb)).
Proof.
  intros Va Vb Hev. rewrite !call_method_size.
  destruct (strict_checks_enabled env
            && str_in "size" (_autograd_backward_strict_mode_banned_ops env)) eqn:Hb.
  - assert (Hnb : ~ not_banned env "size") by (unfold not_banned; congruence).
    rewrite !(dispatch_banned _ _ _ _ _ _ _ _ Hnb).
    split; [reflexivity|]. split; apply graph_prefix_refl.
  - destruct (handlers_size env) as (h & Hh & Hbody).
    destruct (method_size_reads_example self sa sb Hev)
      as [(r & Ha & Hb')|(e & Ha & Hb')].
    + destruct r as [v|].
      * rewrite (dispatch_answered env _ cls self "size" [] [] h sa sa v Hb Hh)
          by (rewrite Hbody; exact Ha).
        rewrite (dispatch_answered env _ cls self "size" [] [] h sb sb v Hb Hh)
          by (rewrite Hbody; exact Hb').
        split; [now apply same_contents_of_forget_nodes|].
        split; apply graph_prefix_refl.
      * rewrite (dispatch_declined env _ cls self "size" [] [] h sa sa Hb Hh)
          by (rewrite Hbody; exact Ha).
        rewrite (dispatch_declined env _ cls self "size" [] [] h sb sb Hb Hh)
          by (rewrite Hbody; exact Hb').
        pose proof (default_dispatch_no_args env cls self "size" sa Va) as Da.
        pose proof (default_dispatch_no_args env cls self "size" sb Vb) as Db.
        rewrite Hev in Da.
        destruct (example_value_of sb (proxy self)) as [x|].
        -- destruct (run_node env "call_method" (TMethod "size") [XExample x] [])
             as [e|v].
           ++ destruct Da as (sa' & -> & Pa), Db as (sb' & -> & Pb).
              split; [reflexivity|]. split; assumption.
           ++ destruct Da as (ra & sa' & -> & Pa & Ca), Db as (rb & sb' & -> & Pb & Cb).
              split; [|split; assumption].
              apply same_contents_of_forget_nodes. congruence.
        -- destruct Da as (sa' & -> & Pa), Db as (sb' & -> & Pb).
           split; [reflexivity|]. split; assumption.
    + rewrite (dispatch_raised env _ cls self "size" [] [] h sa sa e Hb Hh)
        by (rewrite Hbody; exact Ha).
      rewrite (dispatch_raised env _ cls self "size" [] [] h sb sb e Hb Hh)
        by (rewrite Hbody; exact Hb').
      destruct e; (split; [reflexivity|split; apply graph_prefix_refl]).
Qed.

Lemma after_answer_stable env cls self name ra rb sa sb :
  forget_nodes ra = forget_nodes rb ->
  same_contents (after_answer env cls self name (Some ra) sa)
                (after_answer env cls self name (Some rb) sb)
  /\ nodes (state_of (after_answer env cls self name (Some ra) sa)) = nodes sa
  /\ nodes (state_of (after_answer env cls self name (Some rb) sb)) = nodes sb.
Proof.
  intros H. unfold after_answer, bind, install_guard, ret.
  destruct (source self) as [s|], (aten_inplace_view env name);
    cbn [state_of nodes];
    (split; [|split; reflexivity]);
    apply same_contents_of_forget_nodes; rewrite ?forget_nodes_set_source;
    congruence.
Qed.

Lemma bind_bind_ret {A B C} (m : M A) (f : A -> B) (k : B -> M C) st :
  bind (bind m (fun v => ret (f v))) k st
  = match m st with
    | Returned v st' => k (f v) st'
    | Raised e st' => Raised e st'
    end.
Proof. unfold bind, ret. now destruct (m st). Qed.

Lemma graph_prefix_nodes a b c :
  graph_prefix a b -> nodes c = nodes b -> graph_prefix a c.
Proof. intros [x Hx] H. exists x. now rewrite H. Qed.

Lemma var_getattr_shape_cases env cls self st :
  var_getattr env cls self "shape" st
  = if strict_checks_enabled env
       && str_in "shape" (_autograd_backward_strict_mode_banned_ops env)
    then Raised (Unsupported "Illegal getattr invocation shape in strict mode") st
    else
      match size self with
      | Some s =>
          after_answer env cls self "shape"
            (Some (SizeVariable
                     (map (fun x => ConstantVariable_create (intlike_value x)) s) None))
            st
      | None =>
          match call_method env cls self "size" [] [] st with
          | Returned v st' => after_answer env cls self "shape" (Some v) st'
          | Raised e st' => Raised e st'
          end
      end.
Proof.
  rewrite var_getattr_shape. unfold strict_mode_check, shape_answer.
  destruct (strict_checks_enabled env
            && str_in "shape" (_autograd_backward_strict_mode_banned_ops env));
    [reflexivity|].
  unfold bind at 1. cbn [ret].
  destruct (size self) as [s|]; [reflexivity|].
  now rewrite bind_bind_ret.
Qed.

(** Two resolutions of [shape] from states that record the same example
    value for the node of [self] have the same contents, and each only
    extends the graph it started from. *)
Lemma var_getattr_shape_stable env cls self sa sb :
  proxy_in_graph self sa ->
  proxy_in_graph self sb ->
  example_value_of sa (proxy self) = example_value_of sb (proxy self) ->
  same_contents (var_getattr env cls self "shape" sa)
                (var_getattr env cls self "shape" sb)
  /\ graph_prefix sa (state_of (var_getattr env cls self "shape" sa))
  /\ graph_prefix sb (state_of (var_getattr env cls self "shape" sb)).
Proof.
  intros Va Vb Hev. rewrite !var_getattr_shape_cases.
  destruct (strict_checks_enabled env
            && str_in "shape" (_autograd_backward_strict_mode_banned_ops env)).
  { split; [reflexivity|]. split; apply graph_prefix_refl. }
  destruct (size self) as [s|].
  - set (r := SizeVariable
                (map (fun x => ConstantVariable_create (intlike_value x)) s) None).
    destruct (after_answer_stable env cls self "shape" r r sa sb eq_refl)
      as (Hc & Na & Nb).
    split; [exact Hc|].
    split; [exact (graph_prefix_nodes _ _ _ (graph_prefix_refl sa) Na)
           |exact (graph_prefix_nodes _ _ _ (graph_prefix_refl sb) Nb)].
  - destruct (call_method_size_stable env cls self sa sb Va Vb Hev) as (Hc & Pa & Pb).
    destruct (call_method env cls self "size" [] [] sa) as [ra sa'|ea sa'],
             (call_method env cls self "size" [] [] sb) as [rb sb'|eb sb'];
      cbn [same_contents state_of] in Hc, Pa, Pb; try contradiction.
    + destruct Hc as (Hf & _).
      destruct (after_answer_stable env cls self "shape" ra rb sa' sb' Hf)
        as (Hc' & Na & Nb).
      split; [exact Hc'|].
      split; [exact (graph_prefix_nodes _ _ _ Pa Na)
             |exact (graph_prefix_nodes _ _ _ Pb Nb)].
    + subst eb. split; [reflexivity|]. split; assumption.
Qed.

(** C8: resolving [shape] a second time, in the state the first resolution
    left, yields the same contents: the same exception, or a result that
    differs from the first at most in the graph nodes it refers to, and in
    particular the same sequence of dimension extents. *)
Theorem var_getattr_shape_idempotent env cls self st :
  proxy_in_graph self st ->
  let first := var_getattr env cls self "shape" st in
  let second := var_getattr env cls self "shape" (state_of first) in
  same_contents first second.
Proof.
  intros V first second.
  destruct (var_getattr_shape_stable env cls self st st V V eq_refl) as (_ & P & _).
  fold first in P.
  destruct (graph_prefix_example st (state_of first) (proxy self) P V) as (Hev & V1).
  exact (proj1 (var_getattr_shape_stable env cls self st (state_of first) V V1
                  (eq_sym Hev))).
Qed.

Lemma var_getattr_shape_idempotent_witness :
  same_contents
    (var_getattr Sample.env TensorVariable_cls (Sample.blank 0) "shape"
       (Sample.placeholder (Some (EvTensor Sample.dynamic_fake))))
    (var_getattr Sample.env TensorVariable_cls (Sample.blank 0) "shape"
       (state_of
          (var_getattr Sample.env TensorVariable_cls (Sample.blank 0) "shape"
             (Sample.placeholder (Some (EvTensor Sample.dynamic_fake)))))).
Proof.
  apply (var_getattr_shape_idempotent Sample.env TensorVariable_cls (Sample.blank 0)
           (Sample.placeholder (Some (EvTensor Sample.dynamic_fake)))).
  unfold proxy_in_graph. simpl. lia.
Defined.

(** The two resolutions on the sample: a symbolic leading extent, the
    constant 3, and different nodes behind the symbolic extent. *)
Example var_getattr_shape_twice :
  let st := Sample.placeholder (Some (EvTensor Sample.dynamic_fake)) in
  let first := var_getattr Sample.env TensorVariable_cls (Sample.blank 0) "shape" st in
  let second := var_getattr Sample.env TensorVariable_cls (Sample.blank 0) "shape"
                  (state_of first) in
  match first, second with
  | Returned r1 _, Returned r2 _ =>
      r1 = SizeVariable [SymNodeVariable 2 (EvScalar (VSymInt (Sym Sample.s0))) None;
                         ConstantVariable (VInt 3) None] None
      /\ r2 = SizeVariable [SymNodeVariable 4 (EvScalar (VSymInt (Sym Sample.s0))) None;
                            ConstantVariable (VInt 3) None] None
  | _, _ => False
  end.
Proof. vm_compute. split; reflexivity. Qed.

(** * Further properties of the code *)

(** ** Method dispatch: arity and refusals *)

(** X1: a handler that takes no argument, called with a positional or a
    keyword argument, does not decline and records nothing: the [TypeError]
    of the call is turned into the unsupported-construct signal. *)
Theorem zero_parameter_handler_rejects_arguments env cls self name args kwargs st :
  In name zero_parameter_handlers ->
  not_banned env name ->
  args <> [] \/ kwargs <> [] ->
  exists msg,
    dispatch env (handlers env) cls self name args kwargs st
    = Raised (Unsupported ("unhandled args for " ++ name ++ ": " ++ msg)%string) st.
Proof.
  intros Hin Hb Hargs. unfold dispatch, strict_mode_check. red in Hb.
  assert (Hbind : exists msg, bind0 args kwargs = inl (TypeError msg)).
  { unfold bind0. destruct args as [|a args].
    - destruct kwargs as [|[k v] kwargs]; [destruct Hargs as [H|H]; now elim H|].
      eexists. reflexivity.
    - eexists. reflexivity. }
  destruct Hbind as (msg & Hbind). exists msg.
  simpl in Hin.
  repeat (destruct Hin as [<-|Hin]; [rewrite Hb; cbn; rewrite Hbind; reflexivity|]).
  contradiction.
Qed.

Lemma zero_parameter_handler_rejects_arguments_witness :
  exists msg,
    dispatch Sample.env (handlers Sample.env) TensorVariable_cls (Sample.static_2x3 0)
      "numel" [ConstantVariable (VInt 0) None] [] Sample.empty
    = Raised (Unsupported ("unhandled args for numel: " ++ msg)%string) Sample.empty.
Proof.
  apply (zero_parameter_handler_rejects_arguments Sample.env TensorVariable_cls
           (Sample.static_2x3 0) "numel" [ConstantVariable (VInt 0) None] []
           Sample.empty).
  - simpl. tauto.
  - reflexivity.
  - left. discriminate.
Defined.

(** X2: [backward], [data_ptr], [resize_] and [resize_as_] end in the
    unsupported-construct signal for every argument list and every setting
    of the environment, and leave the trace state as it was. *)
Theorem refusing_handlers_always_unsupported env cls self name args kwargs st :
  In name refusing_handlers ->
  exists msg,
    dispatch env (handlers env) cls self name args kwargs st
    = Raised (Unsupported msg) st.
Proof.
  intros Hin. unfold dispatch, strict_mode_check.
  destruct (strict_checks_enabled env
            && str_in name (_autograd_backward_strict_mode_banned_ops env));
    [eexists; reflexivity|].
  simpl in Hin.
  repeat (destruct Hin as [<-|Hin];
          [unfold bind, catch_TypeError; cbn; unfold bind_var_keywords;
           destruct (kw_lookup "self" kwargs); eexists; reflexivity|]).
  contradiction.
Qed.

Lemma refusing_handlers_always_unsupported_witness :
  exists msg,
    dispatch Sample.env (handlers Sample.env) TensorVariable_cls (Sample.static_2x3 0)
      "backward" [] [] Sample.empty
    = Raised (Unsupported msg) Sample.empty.
Proof.
  apply (refusing_handlers_always_unsupported Sample.env TensorVariable_cls
           (Sample.static_2x3 0) "backward" [] [] Sample.empty).
  simpl. tauto.
Defined.

(** A handler declared with [*args] and [**kwargs] takes every call but
    one that passes a keyword named [self]. *)
Lemma with_var_keywords_free {A} kwargs (k : unit -> M (option A)) st :
  kw_lookup "self" kwargs = None ->
  match bind_var_keywords kwargs with
  | inl e => raise e
  | inr a => k a
  end st = k tt st.
Proof. intros H. unfold bind_var_keywords. now rewrite H. Qed.

Lemma with_var_keywords_self {A} kwargs (k : unit -> M (option A)) st :
  kw_lookup "self" kwargs <> None ->
  match bind_var_keywords kwargs with
  | inl e => raise e
  | inr a => k a
  end st = Raised (TypeError "got multiple values for argument 'self'") st.
Proof.
  intros H. unfold bind_var_keywords.
  destruct (kw_lookup "self" kwargs); [reflexivity|now elim H].
Qed.

(** X3: [item] is refused unless scalar capture is switched on; with the
    switch on, the handler declines and the call is recorded by default,
    whatever the arguments.  The one call the handler does not take is a
    call with a keyword named [self]: it does not bind, and [call_method]
    turns the [TypeError] into the unsupported-construct signal with nothing
    recorded. *)
Theorem item_needs_capture_scalar_outputs env cls self args kwargs st :
  not_banned env "item" ->
  (kw_lookup "self" kwargs = None ->
   dispatch env (handlers env) cls self "item" args kwargs st
   = if capture_scalar_outputs env
     then default_dispatch env cls self "item" args kwargs st
     else Raised (Unsupported "Tensor.item") st)
  /\ (kw_lookup "self" kwargs <> None ->
      exists msg,
        dispatch env (handlers env) cls self "item" args kwargs st
        = Raised (Unsupported ("unhandled args for item: " ++ msg)) st).
Proof.
  intros Hb.
  assert (Ht : handlers env "item"
               = Some (fun _ _ _ kw =>
                         with_args (bind_var_keywords kw) (fun _ => method_item env)))
    by reflexivity.
  split.
  - intros Hk.
    assert (Hbody : with_args (bind_var_keywords kwargs) (fun _ => method_item env) st
                    = method_item env st)
      by (unfold with_args; now apply with_var_keywords_free).
    destruct (capture_scalar_outputs env) eqn:E.
    + apply (dispatch_declined env _ cls self "item" args kwargs _ st st Hb Ht).
      rewrite Hbody. unfold method_item. now rewrite E.
    + rewrite (dispatch_raised env _ cls self "item" args kwargs _ st st
                 (Unsupported "Tensor.item") Hb Ht); [reflexivity|].
      rewrite Hbody. unfold method_item. now rewrite E.
  - intros Hk. eexists.
    rewrite (dispatch_raised env _ cls self "item" args kwargs _ st st
               (TypeError "got multiple values for argument 'self'") Hb Ht);
      [reflexivity|].
    unfold with_args. now apply with_var_keywords_self.
Qed.

Lemma item_needs_capture_scalar_outputs_witness :
  dispatch Sample.env (handlers Sample.env) TensorVariable_cls (Sample.static_2x3 0)
    "item" [Sample.mask] [("x", Sample.mask)] Sample.empty
  = Raised (Unsupported "Tensor.item") Sample.empty
  /\ exists msg,
       dispatch Sample.env (handlers Sample.env) TensorVariable_cls
         (Sample.static_2x3 0) "item" [] [("self", Sample.mask)] Sample.empty
       = Raised (Unsupported ("unhandled args for item: " ++ msg)) Sample.empty.
Proof.
  split.
  - exact (proj1 (item_needs_capture_scalar_outputs Sample.env TensorVariable_cls
                    (Sample.static_2x3 0) [Sample.mask] [("x", Sample.mask)]
                    Sample.empty eq_refl) eq_refl).
  - apply (proj2 (item_needs_capture_scalar_outputs Sample.env TensorVariable_cls
                    (Sample.static_2x3 0) [] [("self", Sample.mask)]
                    Sample.empty eq_refl)).
    discriminate.
Defined.

(** X4: [set_] is refused exactly when it is given more than one positional
    argument; keyword arguments do not count, and every other call is
    recorded by default.  A keyword named [self] does not bind: that call
    ends in the unsupported-construct signal of [call_method] instead, with
    nothing recorded. *)
Theorem set__counts_positional_arguments env cls self args kwargs st :
  not_banned env "set_" ->
  (kw_lookup "self" kwargs = None ->
   dispatch env (handlers env) cls self "set_" args kwargs st
   = if (1 <? List.length args)%nat
     then Raised (Unsupported "Tensor.set_.source_Tensor_storage_offset") st
     else default_dispatch env cls self "set_" args kwargs st)
  /\ (kw_lookup "self" kwargs <> None ->
      exists msg,
        dispatch env (handlers env) cls self "set_" args kwargs st
        = Raised (Unsupported ("unhandled args for set_: " ++ msg)) st).
Proof.
  intros Hb.
  assert (Ht : handlers env "set_"
               = Some (fun _ _ a kw =>
                         with_args (bind_var_keywords kw) (fun _ => method_set_ a)))
    by reflexivity.
  split.
  - intros Hk.
    assert (Hbody : with_args (bind_var_keywords kwargs) (fun _ => method_set_ args) st
                    = method_set_ args st)
      by (unfold with_args; now apply with_var_keywords_free).
    destruct (1 <? List.length args)%nat eqn:E.
    + rewrite (dispatch_raised env _ cls self "set_" args kwargs _ st st
                 (Unsupported "Tensor.set_.source_Tensor_storage_offset") Hb Ht);
        [reflexivity|].
      rewrite Hbody. unfold method_set_. now rewrite E.
    + apply (dispatch_declined env _ cls self "set_" args kwargs _ st st Hb Ht).
      rewrite Hbody. unfold method_set_. now rewrite E.
  - intros Hk. eexists.
    rewrite (dispatch_raised env _ cls self "set_" args kwargs _ st st
               (TypeError "got multiple values for argument 'self'") Hb Ht);
      [reflexivity|].
    unfold with_args. now apply with_var_keywords_self.
Qed.

Lemma set__counts_positional_arguments_witness :
  dispatch Sample.env (handlers Sample.env) TensorVariable_cls (Sample.static_2x3 0)
    "set_" [Sample.mask; Sample.grad_value] [("x", Sample.mask)] Sample.empty
  = Raised (Unsupported "Tensor.set_.source_Tensor_storage_offset") Sample.empty
  /\ exists msg,
       dispatch Sample.env (handlers Sample.env) TensorVariable_cls
         (Sample.static_2x3 0) "set_" [Sample.mask] [("self", Sample.mask)]
         Sample.empty
       = Raised (Unsupported ("unhandled args for set_: " ++ msg)) Sample.empty.
Proof.
  split.
  - exact (proj1 (set__counts_positional_arguments Sample.env TensorVariable_cls
                    (Sample.static_2x3 0) [Sample.mask; Sample.grad_value]
                    [("x", Sample.mask)] Sample.empty eq_refl) eq_refl).
  - apply (proj2 (set__counts_positional_arguments Sample.env TensorVariable_cls
                    (Sample.static_2x3 0) [Sample.mask] [("self", Sample.mask)]
                    Sample.empty eq_refl)).
    discriminate.
Defined.

(** ** [__len__], [size], [numel] *)

Lemma call_method_via_size_same_table env cls self args kwargs st :
  call_method_via env (direct_handlers env) cls self "size" args kwargs st
  = call_method env cls self "size" args kwargs st.
Proof. destruct cls; reflexivity. Qed.

Lemma call_method_len env cls self st :
  call_method env cls self "__len__" [] [] st
  = dispatch env (handlers env) cls self "__len__" [] [] st.
Proof. destruct cls; reflexivity. Qed.

(** X5: [__len__] is [size(0)]: the outcome of [x.__len__()] is the outcome
    of [x.size(0)] as it comes back through [call_method], graph effects
    included. *)
Theorem len_is_size_of_dim_0 env cls self st :
  not_banned env "__len__" ->
  call_method env cls self "__len__" [] [] st
  = through_call_method "__len__"
      (call_method env cls self "size" [ConstantVariable_create (VInt 0)] [] st).
Proof.
  intros Hb. rewrite call_method_len.
  assert (Ht : handlers env "__len__"
               = Some (fun cls self args kw =>
                         with_args (bind0 args kw) (fun _ => method___len__ env cls self)))
    by reflexivity.
  assert (Hbody : method___len__ env cls self st
                  = match call_method env cls self "size"
                            [ConstantVariable_create (VInt 0)] [] st with
                    | Returned v st' => Returned (Some v) st'
                    | Raised e st' => Raised e st'
                    end).
  { unfold method___len__, bind, ret. now rewrite call_method_via_size_same_table. }
  destruct (call_method env cls self "size" [ConstantVariable_create (VInt 0)] [] st)
    as [v st'|e st'] eqn:E.
  - apply (dispatch_answered env _ cls self "__len__" [] [] _ st st' v Hb Ht).
    exact Hbody.
  - rewrite (dispatch_raised env _ cls self "__len__" [] [] _ st st' e Hb Ht Hbody).
    now destruct e.
Qed.

Lemma len_is_size_of_dim_0_witness :
  call_method Sample.env TensorVariable_cls (Sample.static_2x3 0) "__len__" [] []
    Sample.empty
  = through_call_method "__len__"
      (call_method Sample.env TensorVariable_cls (Sample.static_2x3 0) "size"
         [ConstantVariable_create (VInt 0)] [] Sample.empty).
Proof.
  exact (len_is_size_of_dim_0 Sample.env TensorVariable_cls (Sample.static_2x3 0)
           Sample.empty eq_refl).
Defined.

Lemma subscript_map {A B} (f : A -> B) (r : list A) d :
  subscript (map f r) d = option_map f (subscript r d).
Proof.
  unfold subscript. rewrite length_map.
  destruct ((0 <=? (if d <? 0 then d + Z.of_nat (List.length r) else d))
            && ((if d <? 0 then d + Z.of_nat (List.length r) else d)
                <? Z.of_nat (List.length r))); [|reflexivity].
  apply nth_error_map.
Qed.

Lemma getitem_with_out_of_range {A} m1 m2 (r : list A) d :
  subscript r d = None ->
  getitem_with m1 m2 r (GValue (VInt d)) = inl (IndexError m1).
Proof.
  unfold subscript, getitem_with. simpl.
  destruct ((0 <=? (if d <? 0 then d + Z.of_nat (List.length r) else d))
            && ((if d <? 0 then d + Z.of_nat (List.length r) else d)
                <? Z.of_nat (List.length r))); [|reflexivity].
  now intros ->.
Qed.

Lemma handlers_size_with_dim env d :
  exists h, handlers env "size" = Some h
            /\ forall cls self, h cls self [ConstantVariable (VInt d) None] []
                                = method_size self (dim_arg d).
Proof. eexists. split; [reflexivity|]. intros; reflexivity. Qed.

(** How the outcome of the [size] handler for a constant [dim] comes back
    through [call_method]. *)
Lemma call_method_size_with_dim env cls self d st o :
  method_size self (dim_arg d) st = o ->
  not_banned env "size" ->
  call_method env cls self "size" [ConstantVariable (VInt d) None] [] st
  = match o with
    | Returned (Some v) st' => Returned v st'
    | Returned None st' =>
        default_dispatch env cls self "size" [ConstantVariable (VInt d) None] [] st'
    | Raised e st' => through_call_method "size" (Raised e st')
    end.
Proof.
  intros Ho Hb.
  assert (Hc : call_method env cls self "size" [ConstantVariable (VInt d) None] [] st
               = dispatch env (handlers env) cls self "size"
                   [ConstantVariable (VInt d) None] [] st)
    by (destruct cls; reflexivity).
  rewrite Hc. destruct (handlers_size_with_dim env d) as (h & Hh & Hbody).
  destruct o as [[v|] st'|e st'].
  - apply (dispatch_answered env _ cls self "size" _ [] h st st' v Hb Hh).
    now rewrite Hbody.
  - apply (dispatch_declined env _ cls self "size" _ [] h st st' Hb Hh).
    now rewrite Hbody.
  - rewrite (dispatch_raised env _ cls self "size" _ [] h st st' e Hb Hh)
      by now rewrite Hbody.
    now destruct e.
Qed.

(** X6: with static metadata, [size(d)] is the item that a Python subscript
    [d] selects in the answer of [size()] (a negative [d] counts from the
    end); for a [d] out of range it raises [IndexError], which [call_method]
    lets through as it is, and nothing is recorded. *)
Theorem size_of_dim_is_item_of_size env cls self r st :
  size self = Some r ->
  exists items,
    method_size self None st = Returned (Some (SizeVariable items None)) st
    /\ List.length items = List.length r
    /\ forall d,
         match subscript items d with
         | Some v =>
             method_size self (dim_arg d) st = Returned (Some v) st
             /\ (not_banned env "size" ->
                 call_method env cls self "size" [ConstantVariable (VInt d) None] [] st
                 = Returned v st)
         | None =>
             method_size self (dim_arg d) st
             = Raised (IndexError "tuple index out of range") st
             /\ (not_banned env "size" ->
                 call_method env cls self "size" [ConstantVariable (VInt d) None] [] st
                 = Raised (IndexError "tuple index out of range") st)
         end.
Proof.
  intros Hr.
  exists (map ConstantVariable_create (map intlike_value r)).
  split; [|split].
  - unfold method_size, _method_size_stride, getattr_size_stride. simpl.
    unfold bind, ret. simpl. now rewrite Hr.
  - now rewrite !length_map.
  - intros d. rewrite !subscript_map.
    pose proof (fun o Ho Hb => call_method_size_with_dim env cls self d st o Ho Hb)
      as Hcm.
    destruct (subscript r d) as [x|] eqn:Hx; cbn [option_map].
    + assert (E : method_size self (dim_arg d) st
                  = Returned (Some (ConstantVariable_create (intlike_value x))) st).
      { unfold method_size, _method_size_stride, getattr_size_stride, dim_arg. simpl.
        unfold bind, ret. simpl. rewrite Hr. unfold tuple_getitem.
        now rewrite (getitem_with_subscript _ _ r d x Hx). }
      split; [exact E|]. intros Hb. now rewrite (Hcm _ E Hb).
    + assert (E : method_size self (dim_arg d) st
                  = Raised (IndexError "tuple index out of range") st).
      { unfold method_size, _method_size_stride, getattr_size_stride, dim_arg. simpl.
        unfold bind, ret. simpl. rewrite Hr. unfold tuple_getitem.
        now rewrite (getitem_with_out_of_range _ _ r d Hx). }
      split; [exact E|]. intros Hb. now rewrite (Hcm _ E Hb).
Qed.

Lemma size_of_dim_is_item_of_size_witness :
  call_method Sample.env TensorVariable_cls (Sample.static_2x3 0) "size"
    [ConstantVariable (VInt (-1)) None] [] Sample.empty
  = Returned (ConstantVariable (VInt 3) None) Sample.empty
  /\ call_method Sample.env TensorVariable_cls (Sample.static_2x3 0) "size"
       [ConstantVariable (VInt 2) None] [] Sample.empty
     = Raised (IndexError "tuple index out of range") Sample.empty.
Proof.
  destruct (size_of_dim_is_item_of_size Sample.env TensorVariable_cls
              (Sample.static_2x3 0) [PyInt 2; PyInt 3] Sample.empty eq_refl)
    as (items & Hsize & _ & Hdim).
  vm_compute in Hsize. injection Hsize as <-.
  split.
  - exact (proj2 (Hdim (-1)) eq_refl).
  - exact (proj2 (Hdim 2) eq_refl).
Defined.

Lemma has_free_symbols_intlike_mul a b :
  has_free_symbols (intlike_mul a b) = has_free_symbols a || has_free_symbols b.
Proof.
  destruct a as [x|e1], b as [y|e2]; simpl; try reflexivity.
  - now rewrite andb_true_r, orb_false_r.
  - now rewrite negb_andb.
Qed.

Lemma int_intlike_mul a b x y :
  int_ a = inr x -> int_ b = inr y -> int_ (intlike_mul a b) = inr (x * y).
Proof.
  destruct a as [x'|e1], b as [y'|e2]; simpl.
  - intros [= ->] [= ->]. reflexivity.
  - intros [= ->]. destruct (hint_value e2); [|discriminate]. now intros [= ->].
  - destruct (hint_value e1); [|discriminate]. now intros [= ->] [= ->].
  - destruct (hint_value e1); [|discriminate]. intros [= ->].
    destruct (hint_value e2); [|discriminate]. now intros [= ->].
Qed.

Lemma product_from l :
  forall acc a zs,
    int_ acc = inr a -> has_free_symbols acc = false ->
    has_free_symbols_seq l = false -> map int_ l = map inr zs ->
    int_ (fold_left intlike_mul l acc) = inr (fold_left Z.mul zs a)
    /\ has_free_symbols (fold_left intlike_mul l acc) = false.
Proof.
  unfold has_free_symbols_seq.
  induction l as [|x xs IH]; intros acc a zs Ha Hfa Hf Hm.
  - destruct zs; [|discriminate]. simpl. auto.
  - destruct zs as [|z zs]; [discriminate|]. simpl in *.
    injection Hm as Hx Hm. apply orb_false_iff in Hf as [Hfx Hfxs].
    apply IH; auto.
    + now apply int_intlike_mul.
    + now rewrite has_free_symbols_intlike_mul, Hfa, Hfx.
Qed.

Lemma product_symbol_free l zs :
  has_free_symbols_seq l = false -> map int_ l = map inr zs ->
  int_ (product l) = inr (product_Z zs) /\ has_free_symbols (product l) = false.
Proof. intros Hf Hm. now apply product_from. Qed.

Lemma product_plain zs : product (map PyInt zs) = PyInt (product_Z zs).
Proof.
  unfold product, product_Z. generalize 1.
  induction zs as [|z zs IH]; intros a; simpl; [reflexivity|apply IH].
Qed.

Lemma numel_size_static self st zs :
  size self = Some (map PyInt zs) ->
  method_size self None st = Returned (Some (SizeVariable (constant_items zs) None)) st
  /\ method_numel self st
     = Returned (Some (ConstantVariable (VInt (product_Z zs)) None)) st.
Proof.
  intros Hs. split.
  - rewrite method_size_no_dim, Hs. unfold RetVariable, make_const_size_variable.
    simpl. unfold constant_items. now rewrite !map_map.
  - unfold method_numel. rewrite Hs, product_plain. reflexivity.
Qed.

(** X7: [numel()] is the product of the extents [size()] reports: from the
    static size when it is known, and otherwise from a recorded example
    value whose extents have no free symbols. *)
Theorem numel_is_product_of_size self st zs :
  (size self = Some (map PyInt zs) ->
     method_size self None st = Returned (Some (SizeVariable (constant_items zs) None)) st
     /\ method_numel self st
        = Returned (Some (ConstantVariable (VInt (product_Z zs)) None)) st)
  /\ (forall fake,
        size self = None ->
        example_value_of st (proxy self) = Some (EvTensor fake) ->
        has_free_symbols_seq (t_size fake) = false ->
        map int_ (t_size fake) = map inr zs ->
        method_size self None st
        = Returned (Some (SizeVariable (constant_items zs) None)) st
        /\ method_numel self st
           = Returned (Some (ConstantVariable (VInt (product_Z zs)) None)) st).
Proof.
  split; [apply numel_size_static|].
  intros fake Hs Hev Hf Hm. split.
  -
    rewrite method_size_no_dim, Hs, Hev, Hf.
    destruct (map_result_int_symbol_free (t_size fake) Hf) as (ints & E & Em).
    rewrite E. assert (ints = zs) as ->.
    { rewrite Hm in Em. clear -Em. revert ints Em.
      induction zs as [|z zs IH]; intros [|i ints] Em; try discriminate; auto.
      simpl in Em. injection Em as -> Em. f_equal. now apply IH. }
    unfold RetVariable, make_const_size_variable. simpl. unfold constant_items.
    now rewrite map_map.
  - destruct (product_symbol_free _ _ Hf Hm) as (Hp & Hfp).
    unfold method_numel. rewrite Hs. unfold bind, meta_get_example_value.
    rewrite Hev, Hfp. simpl. now rewrite Hp.
Qed.

Lemma numel_is_product_of_size_witness :
  method_numel (Sample.static_2x3 0) Sample.empty
  = Returned (Some (ConstantVariable (VInt 6) None)) Sample.empty
  /\ method_numel (Sample.blank 0)
       (Sample.placeholder (Some (EvTensor Sample.refined_fake)))
     = Returned (Some (ConstantVariable (VInt 6) None))
         (Sample.placeholder (Some (EvTensor Sample.refined_fake))).
Proof.
  split.
  - exact (proj2 (proj1 (numel_is_product_of_size (Sample.static_2x3 0) Sample.empty
                           [2; 3]) eq_refl)).
  - exact (proj2 (proj2 (numel_is_product_of_size (Sample.blank 0)
                           (Sample.placeholder (Some (EvTensor Sample.refined_fake)))
                           [2; 3])
                    Sample.refined_fake eq_refl eq_refl eq_refl eq_refl)).
Defined.

(** ** [specialize] followed by the handlers *)

Lemma plain_ints_by_value sz :
  Forall (fun x => exists z, x = PyInt z) sz ->
  forall zs, map int_ sz = map inr zs -> sz = map PyInt zs.
Proof.
  induction 1 as [|x sz [z ->] _ IH]; intros [|z' zs] Hm; try discriminate; auto.
  simpl in Hm. injection Hm as -> Hm. simpl. f_equal. now apply IH.
Qed.

(** X8: for a value without free symbols, the variable built from
    [specialize] answers [size()], [stride()], [dim()] and [numel()] with
    what direct inspection of the value gives (integer extents, the strides
    as they are, the number of extents, their product), in any trace state
    and without touching it: the oracle is not consulted. *)
Theorem specialize_then_inspect value p src st :
  has_free_symbols_tensor value = false ->
  exists props zs,
    specialize value = inr props
    /\ map int_ (t_size value) = map inr zs
    /\ let self := TensorFields_of_props p props src in
       method_size self None st
       = Returned (Some (SizeVariable (constant_items zs) None)) st
       /\ method_stride self None st
          = Returned (Some (ConstantVariable
                              (VTuple (map intlike_value (t_stride value))) None)) st
       /\ method_dim self st
          = Returned (Some (ConstantVariable (VInt (Z.of_nat (List.length zs))) None)) st
       /\ method_numel self st
          = Returned (Some (ConstantVariable (VInt (product_Z zs)) None)) st.
Proof.
  intros Hfree.
  destruct (has_free_symbols_tensor_false value Hfree) as [Hsz _].
  destruct (specialize_size_cast (t_size value) Hsz) as (sz & E & Hp & Hm).
  destruct (map_result_int_symbol_free (t_size value) Hsz) as (zs & _ & Hzs).
  assert (Hsz' : sz = map PyInt zs)
    by (apply plain_ints_by_value; [exact Hp|congruence]).
  eexists _, zs. split.
  { unfold specialize. rewrite Hfree. simpl. rewrite E. reflexivity. }
  split; [exact Hzs|]. cbv zeta.
  set (self := TensorFields_of_props p _ src).
  assert (Hsize : size self = Some (map PyInt zs)) by (simpl; now rewrite Hsz').
  destruct (numel_size_static self st zs Hsize) as (H1 & H2).
  split; [exact H1|]. split; [|split; [|exact H2]].
  - unfold method_stride, _method_size_stride, getattr_size_stride. simpl.
    unfold bind, ret. reflexivity.
  - unfold method_dim. simpl. unfold t_ndim.
    assert (List.length (t_size value) = List.length zs) as ->; [|reflexivity].
    rewrite <- (length_map int_), Hzs. now rewrite length_map.
Qed.

Lemma specialize_then_inspect_witness :
  exists props zs,
    specialize Sample.refined_fake = inr props
    /\ map int_ (t_size Sample.refined_fake) = map inr zs
    /\ method_numel (TensorFields_of_props 0 props None) Sample.empty
       = Returned (Some (ConstantVariable (VInt (product_Z zs)) None)) Sample.empty.
Proof.
  destruct (specialize_then_inspect Sample.refined_fake 0 None Sample.empty eq_refl)
    as (props & zs & E & Hz & _ & _ & _ & Hn).
  exists props, zs. split; [exact E|]. split; [exact Hz|exact Hn].
Defined.

(** ** [is_contiguous] and [type] *)

Lemma memory_format_eqb_eq a b : Torch.memory_format_eqb a b = true <-> a = b.
Proof. destruct a, b; simpl; split; congruence. Qed.

Lemma existsb_filter_member (P : Torch.memory_format -> bool) m l :
  In m l ->
  existsb (Torch.memory_format_eqb m) (filter P l) = P m.
Proof.
  intros Hin. destruct (P m) eqn:HP.
  - apply existsb_exists. exists m. split; [|now apply memory_format_eqb_eq].
    apply filter_In. auto.
  - apply not_true_is_false. intros H. apply existsb_exists in H as (x & Hx & E).
    apply memory_format_eqb_eq in E. subst x. apply filter_In in Hx. destruct Hx.
    congruence.
Qed.

Lemma specialize_symbol_free value :
  has_free_symbols_tensor value = false ->
  exists sz,
    Forall (fun x => exists z, x = PyInt z) sz
    /\ map int_ sz = map int_ (t_size value)
    /\ specialize value
       = inr (mk_props (t_dtype value) (t_device value) (t_layout value)
                (t_ndim value) (t_requires_grad value) (t_is_quantized value)
                (t_is_sparse value) (t_class value) (Some sz) (Some (t_stride value))
                (Some (if t_is_batchedtensor value then None
                       else Some (computed_contiguity value)))).
Proof.
  intros Hfree.
  destruct (has_free_symbols_tensor_false value Hfree) as [Hsz _].
  destruct (specialize_size_cast (t_size value) Hsz) as (sz & E & Hp & Hm).
  exists sz. split; [exact Hp|]. split; [exact Hm|].
  unfold specialize. rewrite Hfree. cbn [negb]. now rewrite E.
Qed.

(** X9: [is_contiguous()] is [is_contiguous(memory_format=contiguous_format)];
    on a variable built by [specialize] from a value that has no free
    symbols and is not batched, the answer for each recognized memory format
    is the one the value gives; for a batched value the metadata is absent
    and the answer is the one of the example value recorded for the node. *)
Theorem is_contiguous_after_specialize value p src st :
  has_free_symbols_tensor value = false ->
  exists props,
    specialize value = inr props
    /\ let self := TensorFields_of_props p props src in
       method_is_contiguous self None st
       = method_is_contiguous self
           (Some (ConstantVariable (VMemoryFormat Torch.contiguous_format) None)) st
       /\ forall m,
            In m _memory_formats ->
            if t_is_batchedtensor value then
              forall fake,
                example_value_of st p = Some (EvTensor fake) ->
                method_is_contiguous self
                  (Some (ConstantVariable (VMemoryFormat m) None)) st
                = Returned (Some (ConstantVariable (VBool (t_is_contiguous fake m)) None)) st
            else
              method_is_contiguous self
                (Some (ConstantVariable (VMemoryFormat m) None)) st
              = Returned (Some (ConstantVariable (VBool (t_is_contiguous value m)) None)) st.
Proof.
  intros Hfree.
  destruct (specialize_symbol_free value Hfree) as (sz & _ & _ & E).
  eexists. split; [exact E|].
  cbv zeta. split; [reflexivity|].
  set (self := TensorFields_of_props p _ src).
  assert (Hic : is_contiguous self
                = if t_is_batchedtensor value then None
                  else Some (computed_contiguity value))
    by (unfold self; cbn [TensorFields_of_props is_contiguous props_is_contiguous];
        now destruct (t_is_batchedtensor value)).
  assert (Hp : proxy self = p) by reflexivity.
  intros m Hm. unfold method_is_contiguous.
  cbn [as_python_constant]. rewrite Hic.
  destruct (t_is_batchedtensor value).
  - intros fake Hev. unfold bind, ret, meta_get_example_value. rewrite Hp, Hev.
    reflexivity.
  - unfold bind, ret. cbv beta iota. unfold computed_contiguity.
    now rewrite existsb_filter_member.
Qed.

Lemma is_contiguous_after_specialize_witness :
  exists props,
    specialize Sample.refined_fake = inr props
    /\ method_is_contiguous (TensorFields_of_props 0 props None)
         (Some (ConstantVariable (VMemoryFormat Torch.channels_last) None)) Sample.empty
       = Returned (Some (ConstantVariable (VBool false) None)) Sample.empty.
Proof.
  destruct (is_contiguous_after_specialize Sample.refined_fake 0 None Sample.empty
              eq_refl) as (props & E & _ & H).
  exists props. split; [exact E|].
  apply (H Torch.channels_last). simpl. tauto.
Defined.

Lemma find_first_match {A} (P : A -> bool) pre x post :
  (forall y, In y pre -> P y = false) -> P x = true ->
  find P (pre ++ x :: post) = Some x.
Proof.
  intros Hpre Hx. induction pre as [|y pre IH]; simpl.
  - now rewrite Hx.
  - rewrite (Hpre y) by now left. apply IH. intros z Hz. apply Hpre. now right.
Qed.

Lemma find_no_match {A} (P : A -> bool) l :
  (forall y, In y l -> P y = false) -> find P l = None.
Proof.
  intros H. induction l as [|y l IH]; simpl; [reflexivity|].
  rewrite (H y) by now left. apply IH. intros z Hz. apply H. now right.
Qed.

(** X10: without a dtype argument, [type] answers the name of the first
    entry of [tensortype_to_dtype] that lists the dtype of the variable,
    prefixed [torch.cuda.] on a device of type [cuda] and [torch.]
    otherwise, whatever [non_blocking] is.  When no entry lists the dtype,
    the search raises [StopIteration], and [call_method] lets it through:
    the call is neither declined nor turned into the unsupported-construct
    signal. *)
Theorem type_names_first_listed_tensor_type env cls self d dev nb kw st :
  dtype self = Some d ->
  device self = Some dev ->
  (forall pre k ds post,
     tensortype_to_dtype env = pre ++ (k, ds) :: post ->
     (forall e, In e pre -> ~ In d (snd e)) ->
     In d ds ->
     method_type env cls self None nb kw st
     = Returned
         (Some (ConstantVariable
                  (VStr (if (Torch.type_ dev =? "cuda")%string
                         then ("torch.cuda." ++ k)%string
                         else ("torch." ++ k)%string)) None)) st)
  /\ ((forall e, In e (tensortype_to_dtype env) -> ~ In d (snd e)) ->
      method_type env cls self None nb kw st = Raised StopIteration st
      /\ (not_banned env "type" ->
          dispatch env (handlers env) cls self "type" [] [] st
          = Raised StopIteration st)).
Proof.
  intros Hd Hdev.
  assert (Hin : forall ds, existsb (Torch.dtype_eqb d) ds = true <-> In d ds).
  { intros ds. rewrite existsb_exists. split.
    - intros (x & Hx & E). apply dtype_eqb_eq in E. now subst.
    - intros H. exists d. split; [exact H|now apply dtype_eqb_eq]. }
  assert (Hnot : forall e : string * list Torch.dtype,
             ~ In d (snd e) -> existsb (Torch.dtype_eqb d) (snd e) = false).
  { intros e H. apply not_true_is_false. intros T. now apply Hin in T. }
  split.
  - intros pre k ds post Htab Hpre Hds.
    unfold method_type. rewrite Hd, Hdev. unfold tensortype_of. rewrite Htab.
    rewrite (find_first_match _ pre (k, ds) post).
    + unfold bind, ret. simpl. now destruct (Torch.type_ dev =? "cuda")%string.
    + intros y Hy. apply Hnot. now apply Hpre.
    + simpl. now apply Hin.
  - intros Hnone.
    assert (E : forall nb kw, method_type env cls self None nb kw st
                              = Raised StopIteration st).
    { intros nb' kw'. unfold method_type. rewrite Hd, Hdev. unfold tensortype_of.
      rewrite find_no_match; [reflexivity|]. intros y Hy. apply Hnot. now apply Hnone. }
    split; [apply E|]. intros Hb.
    assert (Ht : exists h, handlers env "type" = Some h
                           /\ h cls self [] [] = method_type env cls self None None [])
      by (eexists; split; reflexivity).
    destruct Ht as (h & Ht & Hbody).
    rewrite (dispatch_raised env _ cls self "type" [] [] h st st StopIteration Hb Ht);
      [reflexivity|].
    rewrite Hbody. apply E.
Qed.

Lemma type_names_first_listed_tensor_type_witness :
  method_type Sample.env TensorVariable_cls (Sample.static_2x3 0) None None []
    Sample.empty
  = Returned (Some (ConstantVariable (VStr "torch.FloatTensor") None)) Sample.empty
  /\ dispatch Sample.env (handlers Sample.env) TensorVariable_cls
       (mk_tensor 0 (Some Torch.complex64) (Some Sample.cpu) None None None None None
          None None None None None) "type" [] [] Sample.empty
     = Raised StopIteration Sample.empty.
Proof.
  split.
  - apply (proj1 (type_names_first_listed_tensor_type Sample.env TensorVariable_cls
                    (Sample.static_2x3 0) Torch.float32 Sample.cpu None []
                    Sample.empty eq_refl eq_refl)
             [] "FloatTensor" [Torch.float32] [("LongTensor", [Torch.int64])]).
    + reflexivity.
    + intros e [].
    + now left.
  - refine (proj2 (proj2 (type_names_first_listed_tensor_type Sample.env
                            TensorVariable_cls
                            (mk_tensor 0 (Some Torch.complex64) (Some Sample.cpu) None
                               None None None None None None None None None)
                            Torch.complex64 Sample.cpu None [] Sample.empty
                            eq_refl eq_refl) _) eq_refl).
    intros e [<-|[<-|[]]]; simpl; intros [H|[]]; discriminate H.
Defined.

(** ** Attribute resolution *)

(** X11: on a variable that is not an array (an array resolves its
    attributes itself, and its [python_type] is [np.ndarray]), [__class__]
    resolves to the class the variable stands for, and short-circuits what
    follows the chain of tests: no guard is installed, even when the
    variable has a source, and nothing is recorded. *)
Theorem var_getattr_class_installs_no_guard env cls self st :
  cls <> NumpyNdarrayVariable_cls ->
  not_banned env "__class__" ->
  var_getattr env cls self "__class__" st
  = Returned
      (UserDefinedClassVariable
         (match class_type self with Some c => VClass c | None => VNone end) None)
      st.
Proof.
  intros Hcls Hb. unfold var_getattr, strict_mode_check. red in Hb. rewrite Hb.
  destruct cls; [reflexivity|now elim Hcls|reflexivity|reflexivity].
Qed.

Lemma var_getattr_class_installs_no_guard_witness :
  var_getattr Sample.env TensorVariable_cls
    (mk_tensor 0 None None None None None None None None None None
       (Some Sample.Tensor) (Some (LocalSource "x"))) "__class__" Sample.empty
  = Returned (UserDefinedClassVariable (VClass Sample.Tensor) None) Sample.empty.
Proof.
  apply (var_getattr_class_installs_no_guard Sample.env TensorVariable_cls
           (mk_tensor 0 None None None None None None None None None None
              (Some Sample.Tensor) (Some (LocalSource "x"))) Sample.empty).
  - discriminate.
  - reflexivity.
Defined.

Ltac static_attribute_case Hb Hv :=
  unfold var_getattr, strict_mode_check, static_attribute_outcome, with_guard;
  red in Hb; rewrite Hb; cbn [String.eqb Ascii.eqb Bool.eqb];
  match type of Hv with
  | option_map _ ?field = Some _ =>
      destruct field; [injection Hv as <-|discriminate Hv]
  end;
  unfold bind, ret, install_guard;
  destruct (source _);
  match goal with
  | |- context [aten_inplace_view ?e ?n] => destruct (aten_inplace_view e n)
  end; reflexivity.

(** X12: an attribute that a known metadata field answers ([ndim], [dtype],
    [device], [layout], [is_cuda], [requires_grad], [is_quantized],
    [is_sparse]) resolves to a constant without recording a graph node.
    When the variable has a source, exactly one guard is installed, a
    type-match guard on that source, and the result carries the source of
    the attribute; without a source the trace state is left as it was. *)
Theorem var_getattr_static_attribute env cls self name v st :
  static_attribute self name = Some v ->
  not_banned env name ->
  var_getattr env cls self name st = static_attribute_outcome env self name v st.
Proof.
  intros Hv Hb. unfold static_attribute in Hv.
  destruct (name =? "ndim")%string eqn:E1;
    [apply String.eqb_eq in E1; subst name; static_attribute_case Hb Hv|].
  destruct (name =? "dtype")%string eqn:E2;
    [apply String.eqb_eq in E2; subst name; static_attribute_case Hb Hv|].
  destruct (name =? "device")%string eqn:E3;
    [apply String.eqb_eq in E3; subst name; static_attribute_case Hb Hv|].
  destruct (name =? "layout")%string eqn:E4;
    [apply String.eqb_eq in E4; subst name; static_attribute_case Hb Hv|].
  destruct (name =? "is_cuda")%string eqn:E5;
    [apply String.eqb_eq in E5; subst name; static_attribute_case Hb Hv|].
  destruct (name =? "requires_grad")%string eqn:E6;
    [apply String.eqb_eq in E6; subst name; static_attribute_case Hb Hv|].
  destruct (name =? "is_quantized")%string eqn:E7;
    [apply String.eqb_eq in E7; subst name; static_attribute_case Hb Hv|].
  destruct (name =? "is_sparse")%string eqn:E8;
    [apply String.eqb_eq in E8; subst name; static_attribute_case Hb Hv|].
  discriminate Hv.
Qed.

Lemma var_getattr_static_attribute_witness :
  var_getattr Sample.env TensorVariable_cls
    (mk_tensor 0 (Some Torch.float32) None None None None None None None None None
       None (Some (LocalSource "x"))) "dtype" Sample.empty
  = Returned
      (ConstantVariable (VDtype Torch.float32)
         (Some (AttrSource (LocalSource "x") "dtype")))
      (mk_state [] [mk_guard (LocalSource "x") TYPE_MATCH] 0)
  /\ var_getattr Sample.env TensorVariable_cls (Sample.static_2x3 0) "is_cuda"
       Sample.empty
     = Returned (ConstantVariable (VBool false) None) Sample.empty.
Proof.
  split.
  - exact (var_getattr_static_attribute Sample.env TensorVariable_cls
             (mk_tensor 0 (Some Torch.float32) None None None None None None None None
                None None (Some (LocalSource "x"))) "dtype" (VDtype Torch.float32)
             Sample.empty eq_refl eq_refl).
  - exact (var_getattr_static_attribute Sample.env TensorVariable_cls
             (Sample.static_2x3 0) "is_cuda" (VBool false) Sample.empty eq_refl eq_refl).
Defined.

Lemma not_special_attribute name :
  str_in name special_attribute_names = false ->
  (name =? "ndim")%string = false /\ (name =? "dtype")%string = false
  /\ (name =? "device")%string = false /\ (name =? "layout")%string = false
  /\ (name =? "is_cuda")%string = false /\ (name =? "shape")%string = false
  /\ (name =? "requires_grad")%string = false
  /\ (name =? "is_quantized")%string = false
  /\ (name =? "is_sparse")%string = false /\ (name =? "data")%string = false
  /\ (name =? "__class__")%string = false.
Proof.
  unfold str_in, special_attribute_names. cbn [existsb].
  rewrite !orb_false_iff. tauto.
Qed.

(** For a name that [var_getattr] does not test for, what is left is the
    delayed graph break, the generic handling of descriptors and the
    re-binding of the source. *)
Lemma var_getattr_other_name env cls self name st :
  str_in name special_attribute_names = false ->
  not_banned env name ->
  var_getattr env cls self name st = after_answer env cls self name None st.
Proof.
  intros Hs Hb.
  destruct (not_special_attribute name Hs)
    as (E1 & E2 & E3 & E4 & E5 & E6 & E7 & E8 & E9 & E10 & E11).
  unfold var_getattr, strict_mode_check, after_answer. red in Hb. rewrite Hb.
  cbv zeta. rewrite E1, E2, E3, E4, E5, E6, E7, E8, E9, E10, E11.
  reflexivity.
Qed.

(** X13: resolving an attribute that is not one of the names [var_getattr]
    tests for and is not a getset descriptor of [torch.Tensor] goes to the
    object behind the source.  With a source, an in-place view operator
    gives the delayed graph break and nothing else happens.  Otherwise,
    without a source the resolution fails with [NotImplementedError]; with
    one, a refusal of [dynamic_getattr] is [NotImplementedError], an
    exception of the read of the attribute (the [AttributeError] of a
    missing attribute) leaves as it is, both with the state untouched and
    no guard installed; and a value is handed to the builder after the
    has-attribute guard on the source of the attribute has been installed,
    the only change to the state before the builder runs. *)
Theorem var_getattr_unknown_attribute env cls self name st :
  str_in name special_attribute_names = false ->
  not_banned env name ->
  (forall s, source self = Some s -> aten_inplace_view env name = true ->
     var_getattr env cls self name st
     = Returned (DelayGraphBreakVariable (Some (AttrSource s name))) st)
  /\ (Tensor_getset_descriptor env name = false ->
      (source self = None ->
         var_getattr env cls self name st = Raised NotImplementedError st)
      /\ (forall s, source self = Some s -> aten_inplace_view env name = false ->
            match source_getattr env s name with
            | None => var_getattr env cls self name st = Raised NotImplementedError st
            | Some (inl e) => var_getattr env cls self name st = Raised e st
            | Some (inr value) =>
                var_getattr env cls self name st
                = VariableBuilder (AttrSource s name) value
                    (with_guard (mk_guard (AttrSource s name) HASATTR) st)
            end)).
Proof.
  intros Hs Hb. rewrite (var_getattr_other_name env cls self name st Hs Hb).
  unfold after_answer. split.
  - intros s Hsrc Hv. rewrite Hsrc, Hv. reflexivity.
  - intros Hd. split.
    + intros Hsrc. rewrite Hsrc.
      unfold bind, ret, try_generic_attr_handling, dynamic_getattr.
      destruct (aten_inplace_view env name); rewrite Hd, Hsrc; reflexivity.
    + intros s Hsrc Hv. rewrite Hsrc, Hv.
      unfold bind, ret, try_generic_attr_handling, dynamic_getattr. rewrite Hd, Hsrc.
      cbn [negb]. destruct (source_getattr env s name) as [[e|value]|]; reflexivity.
Qed.

Lemma var_getattr_unknown_attribute_witness :
  let env :=
    mk_env false [] true false true true [] Sample.run_node (fun _ _ => false)
      (fun _ => false) (fun _ => false)
      (fun _ name =>
         if (name =? "names")%string then Some (inr VNone)
         else Some (inl (AttributeError "object has no attribute")))
      (fun _ _ _ _ _ => ret None) in
  let x :=
    mk_tensor 0 None None None None None None None None None None None
      (Some (LocalSource "x")) in
  var_getattr env TensorVariable_cls x "grad_fn" Sample.empty
  = Raised (AttributeError "object has no attribute") Sample.empty
  /\ var_getattr env TensorVariable_cls x "names" Sample.empty
     = Returned (ConstantVariable VNone (Some (AttrSource (LocalSource "x") "names")))
         (with_guard (mk_guard (AttrSource (LocalSource "x") "names") HASATTR)
            Sample.empty)
  /\ var_getattr env TensorVariable_cls (Sample.static_2x3 0) "grad_fn" Sample.empty
     = Raised NotImplementedError Sample.empty.
Proof.
  intros env x. split; [|split].
  - exact (proj2 (proj2 (var_getattr_unknown_attribute env TensorVariable_cls x
                           "grad_fn" Sample.empty eq_refl eq_refl) eq_refl)
             (LocalSource "x") eq_refl eq_refl).
  - exact (proj2 (proj2 (var_getattr_unknown_attribute env TensorVariable_cls x
                           "names" Sample.empty eq_refl eq_refl) eq_refl)
             (LocalSource "x") eq_refl eq_refl).
  - exact (proj1 (proj2 (var_getattr_unknown_attribute env TensorVariable_cls
                           (Sample.static_2x3 0) "grad_fn" Sample.empty
                           eq_refl eq_refl) eq_refl) eq_refl).
Defined.

(** The [size] handler for the constant [dim] 0 on a variable without static
    extents, over a tensor example value. *)
Lemma method_size_dim_0_example self st t :
  size self = None ->
  example_value_of st (proxy self) = Some (EvTensor t) ->
  method_size self (dim_arg 0) st
  = match subscript (t_size t) 0 with
    | Some x =>
        if has_free_symbols x then Returned None st
        else match int_ x with
             | inr z => Returned (Some (ConstantVariable (VInt z) None)) st
             | inl e => Raised e st
             end
    | None =>
        Raised (IndexError (dimension_out_of_range (List.length (t_size t)) 0)) st
    end.
Proof.
  intros Hs Hev.
  unfold method_size, _method_size_stride, getattr_size_stride, dim_arg. simpl.
  unfold bind, ret, meta_get_example_value. simpl. rewrite Hs, Hev.
  unfold tensor_dim_getitem, fake_size_stride. cbn [String.eqb Ascii.eqb Bool.eqb].
  destruct (subscript (t_size t) 0) as [x|] eqn:Hx.
  - rewrite (getitem_with_subscript _ _ _ 0 x Hx). simpl.
    destruct (has_free_symbols x); [reflexivity|]. simpl.
    now destruct (int_ x).
  - now rewrite (getitem_with_out_of_range _ _ _ 0 Hx).
Qed.

(** X14: iterating a tensor whose leading extent is known is iterating over
    the subscripts [range(length)]: when [self.size] is recorded and not
    empty the length is its first entry, and when it is not recorded but the
    example value is a tensor whose leading extent has no free symbols the
    length is that extent, read through [call_method("size", 0)] without
    recording the call. *)
Theorem unpack_var_sequence_known_leading_extent env cls self st x n :
  int_ x = inr n ->
  ((exists rest, size self = Some (x :: rest))
   \/ (size self = None /\ not_banned env "size" /\ has_free_symbols x = false
       /\ exists t, example_value_of st (proxy self) = Some (EvTensor t)
                    /\ subscript (t_size t) 0 = Some x)) ->
  unpack_var_sequence env cls self None st
  = unpack_var_sequence env cls self (Some (range n)) st.
Proof.
  intros Hn [[rest Hs]|(Hs & Hb & Hf & t & Hev & Hx)].
  - unfold unpack_var_sequence. rewrite Hs. unfold bind at 1. unfold bind at 1.
    rewrite Hn. reflexivity.
  - unfold unpack_var_sequence. rewrite Hs. unfold bind at 1. unfold bind at 1.
    unfold ConstantVariable_create.
    rewrite (call_method_size_with_dim env cls self 0 st _
               (method_size_dim_0_example self st t Hs Hev) Hb).
    rewrite Hx, Hf, Hn. reflexivity.
Qed.

Lemma unpack_var_sequence_known_leading_extent_witness :
  unpack_var_sequence Sample.env TensorVariable_cls (Sample.blank 0) None
    (Sample.placeholder (Some (EvTensor Sample.refined_fake)))
  = unpack_var_sequence Sample.env TensorVariable_cls (Sample.blank 0)
      (Some (range 2)) (Sample.placeholder (Some (EvTensor Sample.refined_fake))).
Proof.
  apply (unpack_var_sequence_known_leading_extent Sample.env TensorVariable_cls
           (Sample.blank 0) (Sample.placeholder (Some (EvTensor Sample.refined_fake)))
           (SymInt (Num 2)) 2 eq_refl).
  right. split; [reflexivity|]. split; [reflexivity|]. split; [reflexivity|].
  exists Sample.refined_fake. split; reflexivity.
Defined.

(** X15: iterating a tensor of rank 0 fails with [IndexError] and records
    nothing: an empty [self.size] is falsy, so the length is asked of
    [size(0)], which subscripts the empty tuple; without static extents the
    example value is asked for its dimension 0 and answers that it has no
    dimensions.  [call_method] lets the exception through, as it converts
    [TypeError] only. *)
Theorem unpack_var_sequence_rank_0 env cls self st :
  not_banned env "size" ->
  (size self = Some [] ->
   unpack_var_sequence env cls self None st
   = Raised (IndexError "tuple index out of range") st)
  /\ (forall t, size self = None ->
        example_value_of st (proxy self) = Some (EvTensor t) ->
        t_size t = [] ->
        unpack_var_sequence env cls self None st
        = Raised (IndexError "Dimension specified as 0 but tensor has no dimensions")
            st).
Proof.
  intros Hb. split.
  - intros Hs. unfold unpack_var_sequence. rewrite Hs.
    unfold bind at 1. unfold bind at 1. unfold ConstantVariable_create.
    assert (E : method_size self (dim_arg 0) st
                = Raised (IndexError "tuple index out of range") st).
    { unfold method_size, _method_size_stride, getattr_size_stride, dim_arg. simpl.
      unfold bind, ret. simpl. now rewrite Hs. }
    now rewrite (call_method_size_with_dim env cls self 0 st _ E Hb).
  - intros t Hs Hev Ht. unfold unpack_var_sequence. rewrite Hs.
    unfold bind at 1. unfold bind at 1. unfold ConstantVariable_create.
    rewrite (call_method_size_with_dim env cls self 0 st _
               (method_size_dim_0_example self st t Hs Hev) Hb).
    now rewrite Ht.
Qed.

Lemma unpack_var_sequence_rank_0_witness :
  unpack_var_sequence Sample.env TensorVariable_cls
    (mk_tensor 0 None None None (Some 0) (Some []) (Some []) None None None None
       None None)
    None Sample.empty
  = Raised (IndexError "tuple index out of range") Sample.empty
  /\ unpack_var_sequence Sample.env TensorVariable_cls (Sample.blank 0) None
       (Sample.placeholder (Some (EvTensor (Sample.fake [] [] Torch.strided))))
     = Raised (IndexError "Dimension specified as 0 but tensor has no dimensions")
         (Sample.placeholder (Some (EvTensor (Sample.fake [] [] Torch.strided)))).
Proof.
  split.
  - exact (proj1 (unpack_var_sequence_rank_0 Sample.env TensorVariable_cls
                    (mk_tensor 0 None None None (Some 0) (Some []) (Some []) None None
                       None None None None)
                    Sample.empty eq_refl) eq_refl).
  - exact (proj2 (unpack_var_sequence_rank_0 Sample.env TensorVariable_cls
                    (Sample.blank 0)
                    (Sample.placeholder
                       (Some (EvTensor (Sample.fake [] [] Torch.strided))))
                    eq_refl)
             (Sample.fake [] [] Torch.strided) eq_refl eq_refl eq_refl).
Defined.

(** The loop of [unpack_var_sequence] over any list of subscripts. *)
Lemma unpack_items env cls self ev (sub : Z -> FakeTensor) idxes :
  forall st,
    example_value_of st (proxy self) = Some ev ->
    (forall i, In i idxes -> oracle_getitem env ev i = inr (EvTensor (sub i))) ->
    exists vars st',
      mapM (unpack_item env cls self) idxes st = Returned vars st'
      /\ List.length vars = List.length idxes
      /\ nodes st'
         = nodes st
           ++ map (fun i => getitem_node (proxy self) i (Some (EvTensor (sub i)))) idxes
      /\ guards st' = guards st
      /\ (forall k i, nth_error idxes k = Some i ->
            exists props,
              specialize (sub i) = inr props
              /\ nth_error vars k
                 = Some (TensorVariable cls
                           (TensorFields_of_props (List.length (nodes st) + k) props None))).
Proof.
  induction idxes as [|i idxes IH]; intros st Hev Hor.
  - exists [], st. cbn [mapM map]. rewrite app_nil_r.
    repeat split; auto. intros [|k] i H; discriminate H.
  - pose proof (example_value_of_lt _ _ _ Hev) as Hlt.
    destruct (unpack_item_tensor env cls self i st ev (sub i) Hev
                (Hor i (or_introl eq_refl))) as (props0 & Hp0 & Hstep).
    set (st1 := mk_state
                  (nodes st ++ [getitem_node (proxy self) i (Some (EvTensor (sub i)))])
                  (guards st) (debugger_stops st)) in *.
    assert (Hev1 : example_value_of st1 (proxy self) = Some ev).
    { unfold st1. now rewrite example_value_of_appended. }
    destruct (IH st1 Hev1 (fun j Hj => Hor j (or_intror Hj)))
      as (vars & st' & Hrun & Hlen & Hnodes & Hguards & Hitems).
    eexists (_ :: vars), st'. split.
    { cbn [mapM]. rewrite (bind_Returned _ _ _ _ _ Hstep).
      rewrite (bind_Returned _ _ _ _ _ Hrun). reflexivity. }
    split; [simpl; now rewrite Hlen|].
    split; [rewrite Hnodes; unfold st1; cbn [nodes map]; now rewrite <- app_assoc|].
    split; [exact Hguards|].
    intros [|k] j Hj.
    + injection Hj as <-. exists props0. split; [exact Hp0|].
      now rewrite Nat.add_0_r.
    + destruct (Hitems k j Hj) as (props & Hp & Hv). exists props. split; [exact Hp|].
      cbn [nth_error]. rewrite Hv. unfold st1. cbn [nodes]. rewrite length_app.
      cbn [List.length]. do 3 f_equal. lia.
Qed.

(** X16: with explicit subscripts [unpack_var_sequence] looks at neither the
    recorded extents nor the rank: whatever the subscripts are (negative,
    repeated, in any order), it appends one subscript node per entry, in
    order and over the node of [self], installs no guard, and returns one
    variable of the class of [self] per entry, the k-th over the k-th new
    node with the metadata of the oracle's tensor for that subscript. *)
Theorem unpack_var_sequence_explicit_subscripts env cls self ev
    (sub : Z -> FakeTensor) idxes st :
  example_value_of st (proxy self) = Some ev ->
  (forall i, In i idxes -> oracle_getitem env ev i = inr (EvTensor (sub i))) ->
  exists vars st',
    unpack_var_sequence env cls self (Some idxes) st = Returned vars st'
    /\ List.length vars = List.length idxes
    /\ nodes st'
       = nodes st
         ++ map (fun i => getitem_node (proxy self) i (Some (EvTensor (sub i)))) idxes
    /\ guards st' = guards st
    /\ (forall k i, nth_error idxes k = Some i ->
          exists props,
            specialize (sub i) = inr props
            /\ nth_error vars k
               = Some (TensorVariable cls
                         (TensorFields_of_props (List.length (nodes st) + k) props None))).
Proof.
  intros Hev Hor.
  destruct (unpack_items env cls self ev sub idxes st Hev Hor)
    as (vars & st' & Hrun & H).
  exists vars, st'. split; [|exact H].
  unfold unpack_var_sequence. unfold bind at 1. cbn [ret]. exact Hrun.
Qed.

Lemma unpack_var_sequence_explicit_subscripts_witness :
  exists vars st',
    unpack_var_sequence Sample.env NumpyNdarrayVariable_cls (Sample.blank 0)
      (Some [1; -1; 1])
      (Sample.placeholder (Some (EvTensor Sample.dynamic_fake)))
    = Returned vars st'
    /\ List.length vars = 3%nat.
Proof.
  destruct (unpack_var_sequence_explicit_subscripts Sample.env NumpyNdarrayVariable_cls
              (Sample.blank 0) (EvTensor Sample.dynamic_fake)
              (fun _ => Sample.fake [PyInt 3] [PyInt 1] Torch.strided)
              [1; -1; 1]
              (Sample.placeholder (Some (EvTensor Sample.dynamic_fake)))
              eq_refl)
    as (vars & st' & Hrun & Hlen & _).
  - intros i _. reflexivity.
  - exists vars, st'. split; [exact Hrun|exact Hlen].
Defined.

(** ** Handlers that leave the trace alone *)

Lemma read_only_ret {A} (a : A) : read_only (ret a).
Proof. intros st. reflexivity. Qed.

Lemma read_only_raise {A} e : read_only (raise e : M A).
Proof. intros st. reflexivity. Qed.

Lemma read_only_lift {A} (r : Exn + A) : read_only (lift r).
Proof. destruct r; intros st; reflexivity. Qed.

Lemma read_only_bind {A B} (m : M A) (k : A -> M B) :
  read_only m -> (forall a, read_only (k a)) -> read_only (bind m k).
Proof.
  intros Hm Hk st. unfold bind. specialize (Hm st).
  destruct (m st) as [a st'|e st']; simpl in Hm; subst st'; [apply Hk|reflexivity].
Qed.

Lemma read_only_meta_get_example_value p : read_only (meta_get_example_value p).
Proof. intros st. reflexivity. Qed.

Lemma read_only_as_python_constant v : read_only (as_python_constant v).
Proof. destruct v; intros st; reflexivity. Qed.

Lemma read_only_with_args {A} (b : Exn + A) k :
  (forall a, read_only (k a)) -> read_only (with_args b k).
Proof. intros Hk. destruct b; [apply read_only_raise|apply Hk]. Qed.

Ltac read_only_step :=
  first
    [ apply read_only_ret
    | apply read_only_raise
    | apply read_only_lift
    | apply read_only_meta_get_example_value
    | apply read_only_as_python_constant
    | apply read_only_bind; [|intros ?]
    | apply read_only_with_args; intros ?
    | match goal with
      | |- read_only (match ?x with _ => _ end) => destruct x
      | |- read_only (if ?b then _ else _) => destruct b
      end ].

Lemma read_only_method_numel self : read_only (method_numel self).
Proof. unfold method_numel. repeat read_only_step. Qed.

Lemma read_only_method_dim self : read_only (method_dim self).
Proof. unfold method_dim. repeat read_only_step. Qed.

Lemma read_only_method_is_floating_point self :
  read_only (method_is_floating_point self).
Proof. unfold method_is_floating_point. repeat read_only_step. Qed.

Lemma read_only_method_get_device self : read_only (method_get_device self).
Proof. unfold method_get_device. repeat read_only_step. Qed.

Lemma read_only_method_element_size self : read_only (method_element_size self).
Proof. unfold method_element_size. repeat read_only_step. Qed.

(** The handlers of the metadata methods, as the table binds them. *)
Lemma metadata_handlers_read_only env name h :
  In name metadata_handlers ->
  handlers env name = Some h ->
  forall cls self args kwargs, read_only (h cls self args kwargs).
Proof.
  intros Hin Hh cls self args kwargs. unfold metadata_handlers in Hin.
  repeat (destruct Hin as [<-|Hin];
          [injection Hh as <-; apply read_only_with_args; intros ?;
           first [ apply read_only_method_numel
                 | apply read_only_method_dim
                 | apply read_only_method_is_floating_point
                 | apply read_only_method_get_device
                 | apply read_only_method_element_size ]|]).
  destruct Hin.
Qed.

Lemma metadata_handlers_bound env name :
  In name metadata_handlers -> exists h, handlers env name = Some h.
Proof.
  intros Hin. unfold metadata_handlers in Hin.
  repeat (destruct Hin as [<-|Hin]; [eexists; reflexivity|]). destruct Hin.
Qed.

(** X17: the methods whose handler reads the fields of [self] and the
    example value of its node and calls nothing else (numel, nelement, dim,
    ndimension, is_floating_point, get_device, element_size) never write to
    the trace: their handlers hand back the state they were given, whatever
    the arguments and whether they answer, decline or raise.  So a call of
    one of them through [call_method] either leaves the graph and the
    guards as they were, or it is the default recording of the call and
    nothing else. *)
Theorem metadata_methods_record_nothing env cls self name args kwargs st :
  In name metadata_handlers ->
  cls <> NumpyNdarrayVariable_cls ->
  (exists h, handlers env name = Some h
             /\ forall cls' self' args' kwargs', read_only (h cls' self' args' kwargs'))
  /\ (state_of (call_method env cls self name args kwargs st) = st
      \/ call_method env cls self name args kwargs st
         = default_dispatch env cls self name args kwargs st).
Proof.
  intros Hin Hcls. destruct (metadata_handlers_bound env name Hin) as [h Hh].
  pose proof (metadata_handlers_read_only env name h Hin Hh) as Hro.
  split; [exists h; split; [exact Hh|exact Hro]|].
  assert (Hc : call_method env cls self name args kwargs st
               = dispatch env (handlers env) cls self name args kwargs st)
    by (destruct cls; [reflexivity|now elim Hcls|reflexivity|reflexivity]).
  rewrite Hc.
  destruct (strict_checks_enabled env
            && str_in name (_autograd_backward_strict_mode_banned_ops env)) eqn:Hb.
  - left. rewrite dispatch_banned; [reflexivity|].
    unfold not_banned. rewrite Hb. discriminate.
  - specialize (Hro cls self args kwargs st).
    destruct (h cls self args kwargs st) as [[v|] st'|e st'] eqn:E;
      simpl in Hro; subst st'.
    + left. now rewrite (dispatch_answered env _ cls self name args kwargs h st st v Hb Hh E).
    + right. apply (dispatch_declined env _ cls self name args kwargs h st st Hb Hh E).
    + left. rewrite (dispatch_raised env _ cls self name args kwargs h st st e Hb Hh E).
      now destruct e.
Qed.

Lemma metadata_methods_record_nothing_witness :
  state_of (call_method Sample.env TensorVariable_cls (Sample.static_2x3 0)
              "get_device" [] [] Sample.empty) = Sample.empty
  \/ call_method Sample.env TensorVariable_cls (Sample.static_2x3 0)
       "get_device" [] [] Sample.empty
     = default_dispatch Sample.env TensorVariable_cls (Sample.static_2x3 0)
         "get_device" [] [] Sample.empty.
Proof.
  apply (metadata_methods_record_nothing Sample.env TensorVariable_cls
           (Sample.static_2x3 0) "get_device" [] [] Sample.empty).
  - unfold metadata_handlers. simpl. tauto.
  - discriminate.
Defined.

(** ** Methods of arrays *)

(** Wrapping a node that has just been appended keeps the node where it is
    and touches its example value only; a tensor is wrapped in the class
    asked for. *)
Lemma wrap_fx_proxy_cls_cases env c ns n g d src :
  n_example_value n = None ->
  let st := mk_state (ns ++ [n]) g d in
  let o := wrap_fx_proxy_cls env c (List.length ns) src st in
  (exists e, o = Raised e st)
  \/ (exists r st',
        o = Returned r st'
        /\ (exists ev extra,
              nodes st'
              = ns ++ mk_node (n_op n) (n_target n) (n_args n) (n_kwargs n) ev :: extra)
        /\ (forall c' f, r = TensorVariable c' f -> c' = c)).
Proof.
  intros Hn st o. subst o.
  assert (Hget : get_fake_value env (List.length ns) st
                 = match args_example st (n_args n), kwargs_example st (n_kwargs n) with
                   | Some xs, Some ks => lift (run_node env (n_op n) (n_target n) xs ks) st
                   | _, _ => Raised (KeyError "example_value") st
                   end).
  { unfold get_fake_value. unfold st at 1. cbn [nodes].
    rewrite nth_error_app2 by lia. now rewrite Nat.sub_diag. }
  unfold wrap_fx_proxy_cls.
  destruct (args_example st (n_args n)) as [xs|];
    [|left; eexists; unfold bind at 1; rewrite Hget; reflexivity].
  destruct (kwargs_example st (n_kwargs n)) as [ks|];
    [|left; eexists; unfold bind at 1; rewrite Hget; reflexivity].
  destruct (run_node env (n_op n) (n_target n) xs ks) as [e|v];
    [left; eexists; unfold bind at 1; rewrite Hget; reflexivity|].
  set (st1 := mk_state
                (ns ++ [mk_node (n_op n) (n_target n) (n_args n) (n_kwargs n) (Some v)])
                g d).
  assert (Hset : forall (k : ExampleValue -> M VariableTracker),
             bind (get_fake_value env (List.length ns))
               (fun x => bind (meta_set_example_value (List.length ns) x)
                           (fun _ => k x)) st
             = k v st1).
  { intros k. unfold bind at 1. rewrite Hget. cbn [lift ret].
    unfold bind at 1. unfold meta_set_example_value. unfold st.
    cbn [nodes guards debugger_stops]. now rewrite update_nth_last. }
  rewrite Hset. clear Hset.
  assert (Hst1 : exists ev extra,
             nodes st1
             = ns ++ mk_node (n_op n) (n_target n) (n_args n) (n_kwargs n) ev :: extra)
    by (unfold st1; cbn [nodes]; eauto).
  destruct v as [t|l|x].
  - destruct (specialize_total t) as [props Hp].
    right. eexists _, st1. split; [unfold bind; rewrite Hp; reflexivity|].
    split; [exact Hst1|]. intros c' f H. now injection H.
  - destruct (wrap_size_items_contents env (List.length ns) l 0 st1)
      as (items & st' & Hrun & [extra Hpre] & _).
    right. eexists _, st'. split; [rewrite (bind_Returned _ _ _ _ _ Hrun); reflexivity|].
    split; [|discriminate]. rewrite Hpre. unfold st1. cbn [nodes].
    rewrite <- app_assoc. cbn [app]. eauto.
  - right. destruct x;
      (eexists _, st1; split; [reflexivity|]; split; [exact Hst1|discriminate]).
Qed.

(** X18: a method of an array other than [__len__], [size] and [tolist]
    never reaches the handlers of [TensorVariable] nor its strict-mode
    test: [tobytes] is refused with nothing recorded, and any other name,
    banned or not and whatever handler the tensor class binds to it, is
    recorded as a call of the method's wrapper over the array and the
    arguments, the keywords as [patch_args] renames them; a tensor result
    is an array again. *)
Theorem ndarray_method_recorded_through_wrapper env self name args kwargs st :
  str_in name ["__len__"; "size"; "tolist"] = false ->
  NoDup (map fst (snd (patch_args name args kwargs))) ->
  (name = "tobytes" ->
   call_method env NumpyNdarrayVariable_cls self name args kwargs st
   = Raised (Unsupported "tobytes is not modelled in torch._numpy") st)
  /\ (name <> "tobytes" ->
      (exists ev extra,
         nodes (state_of (call_method env NumpyNdarrayVariable_cls self name args
                            kwargs st))
         = nodes st ++ numpy_method_node self name args kwargs ev :: extra)
      /\ forall c f st',
           call_method env NumpyNdarrayVariable_cls self name args kwargs st
           = Returned (TensorVariable c f) st' ->
           c = NumpyNdarrayVariable_cls).
Proof.
  intros Hs _. unfold call_method, call_method_via, numpy_method_node.
  destruct (patch_args name args kwargs) as [args' kwargs'].
  rewrite Hs. cbn [fst snd]. split.
  - intros ->. reflexivity.
  - intros Hn. apply String.eqb_neq in Hn. rewrite Hn.
    unfold proxy_args_kwargs. cbn [map as_proxy].
    unfold bind at 1. unfold bind at 1. unfold create_proxy.
    destruct st as [ns g d]. cbn [nodes guards debugger_stops].
    destruct (wrap_fx_proxy_cls_cases env NumpyNdarrayVariable_cls ns
                (mk_node "call_function"
                   (TFunction ("numpy_method_wrapper(" ++ name ++ ")")%string)
                   (AProxy (proxy self) :: map as_proxy args')
                   (map (fun kv => (fst kv, as_proxy (snd kv))) kwargs') None)
                g d None eq_refl)
      as [[e ->]|(r & st' & -> & Hnodes & Hcls)].
    + split; [cbn [state_of nodes n_op n_target n_args n_kwargs]; eauto|].
      intros c f st' H. discriminate H.
    + split; [exact Hnodes|]. intros c f st'' H. injection H as -> _.
      now apply (Hcls c f).
Qed.

Lemma ndarray_method_recorded_through_wrapper_witness :
  call_method strict_env TensorVariable_cls (Sample.static_2x3 0) "numel" [] []
    (Sample.placeholder None)
  = Raised (Unsupported "Illegal method invocation numel in strict mode")
      (Sample.placeholder None)
  /\ exists ev extra,
       nodes (state_of (call_method strict_env NumpyNdarrayVariable_cls
                          (Sample.static_2x3 0) "numel" [] []
                          (Sample.placeholder None)))
       = nodes (Sample.placeholder None)
         ++ numpy_method_node (Sample.static_2x3 0) "numel" [] [] ev :: extra.
Proof.
  split; [reflexivity|].
  refine (proj1 (proj2 (ndarray_method_recorded_through_wrapper strict_env
                          (Sample.static_2x3 0) "numel" [] []
                          (Sample.placeholder None) eq_refl _) _)).
  - constructor.
  - discriminate.
Defined.

Lemma patch_args_clip args kwargs :
  patch_args "clip" args kwargs
  = (args,
     fold_left (fun d kv => dict_set (clip_keyword (fst kv)) (snd kv) d) kwargs []).
Proof. reflexivity. Qed.

Lemma patch_args_other name args kwargs :
  name <> "clip" -> patch_args name args kwargs = (args, kwargs).
Proof.
  intros H. unfold patch_args. apply String.eqb_neq in H. now rewrite H.
Qed.

Lemma clip_keyword_neq_a k : clip_keyword k <> "a_min" /\ clip_keyword k <> "a_max".
Proof.
  unfold clip_keyword.
  destruct (k =? "a_min")%string eqn:E1; [split; discriminate|].
  destruct (k =? "a_max")%string eqn:E2; [split; discriminate|].
  apply String.eqb_neq in E1, E2. now split.
Qed.

Lemma clip_keyword_other k : k <> "a_min" -> k <> "a_max" -> clip_keyword k = k.
Proof.
  intros H1 H2. unfold clip_keyword.
  apply String.eqb_neq in H1, H2. now rewrite H1, H2.
Qed.

Lemma kw_lookup_app k a b :
  kw_lookup k (a ++ b)
  = match kw_lookup k a with Some v => Some v | None => kw_lookup k b end.
Proof.
  induction a as [|[k' v'] a IH]; [reflexivity|]. cbn [app kw_lookup].
  destruct (k =? k')%string; [reflexivity|exact IH].
Qed.

Lemma kw_lookup_dict_set k k' v d :
  kw_lookup k (dict_set k' v d)
  = if (k =? k')%string then Some v else kw_lookup k d.
Proof.
  induction d as [|[k0 v0] d IH]; cbn [dict_set kw_lookup].
  - reflexivity.
  - destruct (String.eqb_spec k' k0) as [<-|Hne]; cbn [kw_lookup].
    + destruct (k =? k')%string; reflexivity.
    + rewrite IH. destruct (String.eqb_spec k k0) as [->|_]; [|reflexivity].
      destruct (String.eqb_spec k0 k') as [E|_]; [now elim Hne|reflexivity].
Qed.

Lemma dict_set_new k v d :
  ~ In k (map fst d) -> dict_set k v d = d ++ [(k, v)].
Proof.
  induction d as [|[k0 v0] d IH]; intros H; cbn [dict_set app].
  - reflexivity.
  - cbn [map fst In] in H.
    destruct (String.eqb_spec k k0) as [->|_]; [elim H; now left|].
    rewrite IH; [reflexivity|]. intros Hin. apply H. now right.
Qed.

Lemma dict_set_keys k v d :
  In k (map fst d) -> map fst (dict_set k v d) = map fst d.
Proof.
  induction d as [|[k0 v0] d IH]; intros H; cbn [dict_set].
  - destruct H.
  - destruct (String.eqb_spec k k0) as [->|Hne]; [reflexivity|].
    cbn [map fst]. rewrite IH; [reflexivity|].
    destruct H as [H|H]; [now elim Hne|exact H].
Qed.

Lemma dict_set_In k k' v d :
  In k (map fst (dict_set k' v d)) -> k = k' \/ In k (map fst d).
Proof.
  destruct (in_dec string_dec k' (map fst d)) as [Hin|Hout].
  - rewrite (dict_set_keys k' v d Hin). now right.
  - rewrite (dict_set_new k' v d Hout), map_app, in_app_iff. cbn [map fst In].
    intros [H|[H|[]]]; [now right|now left].
Qed.

Lemma dict_set_NoDup k v d :
  NoDup (map fst d) -> NoDup (map fst (dict_set k v d)).
Proof.
  intros H. destruct (in_dec string_dec k (map fst d)) as [Hin|Hout].
  - now rewrite (dict_set_keys k v d Hin).
  - rewrite (dict_set_new k v d Hout), map_app. cbn [map fst].
    apply NoDup_app; [exact H|repeat constructor; intros []|].
    intros x Hx [<-|[]]. exact (Hout Hx).
Qed.

(** The comprehension of [patch_args], from a dict [acc] on. *)
Lemma set_renamed_lookup k l :
  forall acc,
    kw_lookup k
      (fold_left (fun d kv => dict_set (clip_keyword (fst kv)) (snd kv) d) l acc)
    = match kw_lookup k (rev (renamed l)) with
      | Some v => Some v
      | None => kw_lookup k acc
      end.
Proof.
  induction l as [|[k0 v0] l IH]; intros acc; [reflexivity|].
  cbn [fold_left renamed map rev fst snd]. rewrite IH.
  fold (renamed l). rewrite kw_lookup_app. cbn [kw_lookup].
  destruct (kw_lookup k (rev (renamed l))); [reflexivity|].
  rewrite kw_lookup_dict_set. now destruct (k =? clip_keyword k0)%string.
Qed.

Lemma set_renamed_NoDup l :
  forall acc,
    NoDup (map fst acc) ->
    NoDup (map fst
             (fold_left (fun d kv => dict_set (clip_keyword (fst kv)) (snd kv) d)
                l acc)).
Proof.
  induction l as [|[k0 v0] l IH]; intros acc H; [exact H|].
  cbn [fold_left]. apply IH. now apply dict_set_NoDup.
Qed.

Lemma set_renamed_In k l :
  forall acc,
    In k (map fst
            (fold_left (fun d kv => dict_set (clip_keyword (fst kv)) (snd kv) d)
               l acc)) ->
    In k (map fst acc) \/ exists k0, k = clip_keyword k0.
Proof.
  induction l as [|[k0 v0] l IH]; intros acc H; [now left|].
  cbn [fold_left fst snd] in H. destruct (IH _ H) as [Hin|Hex]; [|now right].
  destruct (dict_set_In _ _ _ _ Hin) as [->|Hacc]; [right; now exists k0|now left].
Qed.

Lemma set_renamed_distinct l :
  forall acc,
    NoDup (map fst acc ++ map fst (renamed l)) ->
    fold_left (fun d kv => dict_set (clip_keyword (fst kv)) (snd kv) d) l acc
    = acc ++ renamed l.
Proof.
  induction l as [|[k0 v0] l IH]; intros acc H.
  - cbn [fold_left renamed map]. now rewrite app_nil_r.
  - cbn [fold_left renamed map fst snd] in *. fold (renamed l) in *.
    assert (Hout : ~ In (clip_keyword k0) (map fst acc)).
    { intros Hin. apply NoDup_remove_2 in H. apply H.
      apply in_or_app. now left. }
    rewrite (dict_set_new _ v0 acc Hout). rewrite IH.
    + now rewrite <- app_assoc.
    + rewrite map_app. cbn [map fst]. rewrite <- app_assoc. exact H.
Qed.

Lemma renamed_fixed l :
  (forall k, In k (map fst l) -> k <> "a_min" /\ k <> "a_max") -> renamed l = l.
Proof.
  induction l as [|[k v] l IH]; intros H; [reflexivity|].
  cbn [renamed map fst snd]. fold (renamed l).
  destruct (H k (or_introl eq_refl)) as [H1 H2].
  rewrite (clip_keyword_other k H1 H2), IH; [reflexivity|].
  intros k' Hk'. apply H. now right.
Qed.

(** X19: [patch_args] leaves the positional arguments alone and changes
    keywords for [clip] only.  There the result is a dict again (no keyword
    twice) in which no keyword is called [a_min] or [a_max]; under each
    name it holds the value of the last keyword passed that is renamed to
    it, so that [a_min] is found as [min] and [a_max] as [max], and when
    one call passes both [a_min] and [min] the later one wins.  When no two
    keywords are renamed to the same name, the result is the keywords in
    the order passed, each under its new name.  Patching twice is patching
    once. *)
Theorem patch_args_renames_clip_bounds name args kwargs :
  let patched := patch_args name args kwargs in
  fst patched = args
  /\ (name <> "clip" -> snd patched = kwargs)
  /\ (name = "clip" ->
      NoDup (map fst (snd patched))
      /\ ~ In "a_min" (map fst (snd patched))
      /\ ~ In "a_max" (map fst (snd patched))
      /\ (forall k,
            kw_lookup k (snd patched) = kw_lookup k (rev (renamed kwargs)))
      /\ (NoDup (map fst (renamed kwargs)) -> snd patched = renamed kwargs))
  /\ patch_args name (fst patched) (snd patched) = patched.
Proof.
  intros patched. subst patched.
  destruct (String.eqb_spec name "clip") as [->|Hne].
  - rewrite patch_args_clip. cbn [fst snd].
    set (P := fold_left (fun d kv => dict_set (clip_keyword (fst kv)) (snd kv) d)
                kwargs []).
    assert (Hdup : NoDup (map fst P)) by (apply set_renamed_NoDup; constructor).
    assert (Hkeys : forall k, In k (map fst P) -> k <> "a_min" /\ k <> "a_max").
    { intros k Hk. destruct (set_renamed_In k kwargs [] Hk) as [[]|[k0 ->]].
      apply clip_keyword_neq_a. }
    split; [reflexivity|]. split; [intros H; now elim H|]. split.
    + intros _. split; [exact Hdup|].
      split; [intros H; now apply (proj1 (Hkeys _ H))|].
      split; [intros H; now apply (proj2 (Hkeys _ H))|].
      split.
      * intros k. unfold P. rewrite set_renamed_lookup.
        now destruct (kw_lookup k (rev (renamed kwargs))).
      * intros Hd. unfold P. now rewrite set_renamed_distinct.
    + rewrite patch_args_clip. f_equal.
      rewrite set_renamed_distinct; rewrite (renamed_fixed P Hkeys);
        [reflexivity|exact Hdup].
  - rewrite (patch_args_other name args kwargs Hne). cbn [fst snd].
    split; [reflexivity|]. split; [reflexivity|].
    split; [intros H; now elim Hne|].
    apply patch_args_other, Hne.
Qed.

Lemma patch_args_renames_clip_bounds_witness :
  snd (patch_args "clip" []
         [("a_min", ConstantVariable (VInt 0) None);
          ("out", ConstantVariable VNone None);
          ("min", ConstantVariable (VInt 1) None)])
  = [("min", ConstantVariable (VInt 1) None); ("out", ConstantVariable VNone None)]
  /\ snd (patch_args "clip" []
            [("a_min", ConstantVariable (VInt 0) None);
             ("a_max", ConstantVariable (VInt 1) None)])
     = [("min", ConstantVariable (VInt 0) None);
        ("max", ConstantVariable (VInt 1) None)].
Proof.
  split; [reflexivity|].
  destruct (patch_args_renames_clip_bounds "clip" []
              [("a_min", ConstantVariable (VInt 0) None);
               ("a_max", ConstantVariable (VInt 1) None)])
    as (_ & _ & Hclip & _).
  destruct (Hclip eq_refl) as (_ & _ & _ & _ & Hdistinct).
  apply Hdistinct. repeat constructor; cbn; intuition discriminate.
Defined.

(** ** [requires_grad_] and [new] *)

Lemma read_only_method_requires_grad_ ne cls self arg :
  read_only (method_requires_grad_ ne cls self arg).
Proof. unfold method_requires_grad_, unimplemented. repeat read_only_step. Qed.

Lemma method_requires_grad__flag ne cls self arg b t st :
  (forall x y, ne x (VBool y) = negb (Bool.eqb x y)) ->
  requested_flag arg = Some b ->
  example_value_of st (proxy self) = Some (EvTensor t) ->
  method_requires_grad_ ne cls self arg st
  = if Bool.eqb (t_requires_grad t) b
    then Returned (Some (TensorVariable cls self)) st
    else Raised (Unsupported "Tensor.requires_grad_") st.
Proof.
  intros Hne Hflag Hev.
  assert (Hc : match arg with
               | None => ret (VBool true)
               | Some v => as_python_constant v
               end st = Returned (VBool b) st).
  { destruct arg as [[| [] s | | | | | | | | |]|]; try discriminate Hflag;
      injection Hflag as <-; reflexivity. }
  unfold method_requires_grad_. rewrite (bind_Returned _ _ _ _ _ Hc).
  unfold bind, meta_get_example_value. rewrite Hev, Hne.
  now destruct (Bool.eqb (t_requires_grad t) b).
Qed.

(** X20: [requires_grad_] is a checked no-op.  Its handler never writes to
    the trace.  When the flag asked for (the default [True], or a constant
    bool) is the flag of the example value of the node, it returns [self]
    itself; when it is not, it refuses with the unsupported-construct
    signal.  The [requires_grad] recorded on the variable is not looked
    at.  Without an example value it fails with [KeyError].  Bound in the
    table of handlers, the agreeing call returns [self] through
    [call_method] with nothing recorded. *)
Theorem requires_grad__is_checked_no_op env ne cls self arg b st :
  (forall x y, ne x (VBool y) = negb (Bool.eqb x y)) ->
  requested_flag arg = Some b ->
  read_only (method_requires_grad_ ne cls self arg)
  /\ (example_value_of st (proxy self) = None ->
      method_requires_grad_ ne cls self arg st = Raised (KeyError "example_value") st)
  /\ (forall t, example_value_of st (proxy self) = Some (EvTensor t) ->
        method_requires_grad_ ne cls self arg st
        = (if Bool.eqb (t_requires_grad t) b
           then Returned (Some (TensorVariable cls self)) st
           else Raised (Unsupported "Tensor.requires_grad_") st)
        /\ (cls <> NumpyNdarrayVariable_cls ->
            not_banned env "requires_grad_" ->
            (forall c s a k st0,
               other_handler env "requires_grad_" c s a k st0
               = handler_requires_grad_ ne c s a k st0) ->
            call_method env cls self "requires_grad_"
              match arg with Some v => [v] | None => [] end [] st
            = if Bool.eqb (t_requires_grad t) b
              then Returned (TensorVariable cls self) st
              else Raised (Unsupported "Tensor.requires_grad_") st)).
Proof.
  intros Hne Hflag. split; [apply read_only_method_requires_grad_|]. split.
  - intros Hev.
    assert (Hc : match arg with
                 | None => ret (VBool true)
                 | Some v => as_python_constant v
                 end st = Returned (VBool b) st).
    { destruct arg as [[| [] s | | | | | | | | |]|]; try discriminate Hflag;
        injection Hflag as <-; reflexivity. }
    unfold method_requires_grad_. rewrite (bind_Returned _ _ _ _ _ Hc).
    unfold bind, meta_get_example_value. now rewrite Hev.
  - intros t Hev.
    pose proof (method_requires_grad__flag ne cls self arg b t st Hne Hflag Hev) as Hm.
    split; [exact Hm|].
    intros Hcls Hb Hh.
    set (args := match arg with Some v => [v] | None => [] end).
    assert (Hc : call_method env cls self "requires_grad_" args [] st
                 = dispatch env (handlers env) cls self "requires_grad_" args [] st)
      by (destruct cls; [reflexivity|now elim Hcls|reflexivity|reflexivity]).
    assert (Ht : handlers env "requires_grad_" = Some (other_handler env "requires_grad_"))
      by reflexivity.
    assert (Hbody : other_handler env "requires_grad_" cls self args [] st
                    = method_requires_grad_ ne cls self arg st).
    { rewrite Hh. unfold handler_requires_grad_, args.
      destruct arg as [v|]; reflexivity. }
    rewrite Hc. rewrite Hm in Hbody.
    destruct (Bool.eqb (t_requires_grad t) b).
    + apply (dispatch_answered env _ cls self "requires_grad_" args [] _ st st _ Hb Ht Hbody).
    + apply (dispatch_raised env _ cls self "requires_grad_" args [] _ st st _ Hb Ht Hbody).
Qed.

Lemma requires_grad__is_checked_no_op_witness :
  call_method env_with_handlers TensorVariable_cls (Sample.static_2x3 0)
    "requires_grad_" [] []
    (Sample.placeholder (Some (EvTensor Sample.refined_fake)))
  = Raised (Unsupported "Tensor.requires_grad_")
      (Sample.placeholder (Some (EvTensor Sample.refined_fake)))
  /\ call_method env_with_handlers TensorVariable_cls (Sample.static_2x3 0)
       "requires_grad_" [ConstantVariable (VBool false) None] []
       (Sample.placeholder (Some (EvTensor Sample.refined_fake)))
     = Returned (TensorVariable TensorVariable_cls (Sample.static_2x3 0))
         (Sample.placeholder (Some (EvTensor Sample.refined_fake))).
Proof.
  split.
  - refine (proj2 (proj2 (proj2 (requires_grad__is_checked_no_op env_with_handlers
                                   sample_ne TensorVariable_cls (Sample.static_2x3 0)
                                   None true
                                   (Sample.placeholder
                                      (Some (EvTensor Sample.refined_fake)))
                                   _ eq_refl))
                     Sample.refined_fake eq_refl) _ eq_refl _).
    + intros x y. reflexivity.
    + discriminate.
    + intros c s a k st0. reflexivity.
  - refine (proj2 (proj2 (proj2 (requires_grad__is_checked_no_op env_with_handlers
                                   sample_ne TensorVariable_cls (Sample.static_2x3 0)
                                   (Some (ConstantVariable (VBool false) None)) false
                                   (Sample.placeholder
                                      (Some (EvTensor Sample.refined_fake)))
                                   _ eq_refl))
                     Sample.refined_fake eq_refl) _ eq_refl _).
    + intros x y. reflexivity.
    + discriminate.
    + intros c s a k st0. reflexivity.
Defined.

Lemma call_method_unbound env cls self name args kwargs st :
  cls <> NumpyNdarrayVariable_cls ->
  handlers env name = None ->
  not_banned env name ->
  call_method env cls self name args kwargs st
  = default_dispatch env cls self name args kwargs st.
Proof.
  intros Hcls Hh Hb.
  assert (Hc : call_method env cls self name args kwargs st
               = dispatch env (handlers env) cls self name args kwargs st)
    by (destruct cls; [reflexivity|now elim Hcls|reflexivity|reflexivity]).
  rewrite Hc. unfold dispatch, default_dispatch, strict_mode_check.
  red in Hb. rewrite Hb, Hh. reflexivity.
Qed.

(** X21: [x.new(size)] with a single [SizeVariable] argument is
    [x.new_empty(size)]: the outcome of [call_method] for [new] is the
    outcome of [call_method] for [new_empty] with the same arguments and
    keywords (so the graph holds a [new_empty] call and no [new] call), an
    exception coming back through [call_method] once more.  With any other
    arguments the handler declines and the [new] call itself is recorded.
    The one call the handler does not take is a call with a keyword named
    [self]: it does not bind, and ends in the unsupported-construct signal
    with nothing recorded.  No handler is bound to [new_empty], whose call
    is always the default recording. *)
Theorem new_of_size_is_new_empty env cls self args kwargs st :
  cls <> NumpyNdarrayVariable_cls ->
  not_banned env "new" ->
  (forall c s a k st0,
     other_handler env "new" c s a k st0 = method_new env c s a k st0) ->
  (kw_lookup "self" kwargs = None ->
   call_method env cls self "new" args kwargs st
   = if size_argument args
     then through_call_method "new"
            (call_method env cls self "new_empty" args kwargs st)
     else default_dispatch env cls self "new" args kwargs st)
  /\ (kw_lookup "self" kwargs <> None ->
      exists msg,
        call_method env cls self "new" args kwargs st
        = Raised (Unsupported ("unhandled args for new: " ++ msg)) st)
  /\ (not_banned env "new_empty" ->
      call_method env cls self "new_empty" args kwargs st
      = default_dispatch env cls self "new_empty" args kwargs st).
Proof.
  intros Hcls Hb Hh.
  assert (Hc : call_method env cls self "new" args kwargs st
               = dispatch env (handlers env) cls self "new" args kwargs st)
    by (destruct cls; [reflexivity|now elim Hcls|reflexivity|reflexivity]).
  assert (Ht : handlers env "new" = Some (other_handler env "new")) by reflexivity.
  split; [|split].
  - intros Hk. rewrite Hc.
    assert (Hfree : other_handler env "new" cls self args kwargs st
                    = match args with
                      | [SizeVariable _ _] =>
                          bind (call_method env cls self "new_empty" args kwargs)
                               (fun v => ret (Some v))
                      | _ => ret None
                      end st).
    { rewrite Hh. unfold method_new, with_args.
      now rewrite with_var_keywords_free. }
    destruct (size_argument args) eqn:Hs.
    + assert (Hbody : other_handler env "new" cls self args kwargs st
                      = match call_method env cls self "new_empty" args kwargs st with
                        | Returned v st' => Returned (Some v) st'
                        | Raised e st' => Raised e st'
                        end).
      { rewrite Hfree. destruct args as [|[] []]; try discriminate Hs. reflexivity. }
      destruct (call_method env cls self "new_empty" args kwargs st)
        as [v st'|e st'] eqn:E.
      * apply (dispatch_answered env _ cls self "new" args kwargs _ st st' v Hb Ht Hbody).
      * rewrite (dispatch_raised env _ cls self "new" args kwargs _ st st' e Hb Ht Hbody).
        now destruct e.
    + apply (dispatch_declined env _ cls self "new" args kwargs _ st st Hb Ht).
      rewrite Hfree. destruct args as [|[] []]; try discriminate Hs; reflexivity.
  - intros Hk. eexists. rewrite Hc.
    rewrite (dispatch_raised env _ cls self "new" args kwargs _ st st
               (TypeError "got multiple values for argument 'self'") Hb Ht);
      [reflexivity|].
    rewrite Hh. unfold method_new, with_args. now apply with_var_keywords_self.
  - intros Hb'. now apply call_method_unbound.
Qed.

Lemma new_of_size_is_new_empty_witness :
  call_method env_with_handlers TensorVariable_cls (Sample.static_2x3 0) "new"
    [SizeVariable [ConstantVariable (VInt 2) None] None] []
    (Sample.placeholder (Some (EvTensor Sample.refined_fake)))
  = through_call_method "new"
      (call_method env_with_handlers TensorVariable_cls (Sample.static_2x3 0)
         "new_empty" [SizeVariable [ConstantVariable (VInt 2) None] None] []
         (Sample.placeholder (Some (EvTensor Sample.refined_fake))))
  /\ exists msg,
       call_method env_with_handlers TensorVariable_cls (Sample.static_2x3 0) "new"
         [SizeVariable [ConstantVariable (VInt 2) None] None]
         [("self", Sample.mask)]
         (Sample.placeholder (Some (EvTensor Sample.refined_fake)))
       = Raised (Unsupported ("unhandled args for new: " ++ msg))
           (Sample.placeholder (Some (EvTensor Sample.refined_fake))).
Proof.
  assert (Hh : forall c s a k st0,
             other_handler env_with_handlers "new" c s a k st0
             = method_new env_with_handlers c s a k st0).
  { intros c s a k st0. unfold method_new, with_args.
    change (other_handler env_with_handlers "new" c s a k st0)
      with (method_new Sample.env c s a k st0).
    unfold method_new, with_args.
    destruct (bind_var_keywords k); [reflexivity|].
    destruct a as [|[] []]; reflexivity. }
  assert (Hcls : TensorVariable_cls <> NumpyNdarrayVariable_cls) by discriminate.
  split.
  - exact (proj1 (new_of_size_is_new_empty env_with_handlers TensorVariable_cls
                    (Sample.static_2x3 0)
                    [SizeVariable [ConstantVariable (VInt 2) None] None] []
                    (Sample.placeholder (Some (EvTensor Sample.refined_fake)))
                    Hcls eq_refl Hh) eq_refl).
  - apply (proj1 (proj2 (new_of_size_is_new_empty env_with_handlers TensorVariable_cls
                           (Sample.static_2x3 0)
                           [SizeVariable [ConstantVariable (VInt 2) None] None]
                           [("self", Sample.mask)]
                           (Sample.placeholder (Some (EvTensor Sample.refined_fake)))
                           Hcls eq_refl Hh))).
    discriminate.
Defined.

(** ** Attributes read through a method *)

Lemma call_method_dim_unknown env cls self st :
  cls <> NumpyNdarrayVariable_cls ->
  ndim self = None ->
  not_banned env "dim" ->
  call_method env cls self "dim" [] [] st
  = default_dispatch env cls self "dim" [] [] st.
Proof.
  intros Hcls Hn Hb.
  assert (Hc : call_method env cls self "dim" [] [] st
               = dispatch env (handlers env) cls self "dim" [] [] st)
    by (destruct cls; [reflexivity|now elim Hcls|reflexivity|reflexivity]).
  rewrite Hc.
  apply (dispatch_declined env _ cls self "dim" [] []
           (fun _ self args kw => with_args (bind0 args kw) (fun _ => method_dim self))
           st st Hb eq_refl).
  cbn [with_args bind0 bind_params]. unfold method_dim. now rewrite Hn.
Qed.

(** X22: two attributes are read by recording a method call.  [x.data] is
    always the recorded call [x.detach()], and [x.ndim] of a variable whose
    rank is not known is the recorded call [x.dim()], which no handler
    answers; what [var_getattr] does next (type-match guard and source of
    the attribute when [x] has a source) is applied to the result of that
    call, and without a source the result of the call is returned as it
    is. *)
Theorem var_getattr_data_and_unknown_ndim env cls self st :
  cls <> NumpyNdarrayVariable_cls ->
  (not_banned env "data" -> not_banned env "detach" ->
   var_getattr env cls self "data" st
   = bind (default_dispatch env cls self "detach" [] [])
       (fun v => after_answer env cls self "data" (Some v)) st
   /\ (source self = None ->
       var_getattr env cls self "data" st
       = default_dispatch env cls self "detach" [] [] st))
  /\ (ndim self = None -> not_banned env "ndim" -> not_banned env "dim" ->
      var_getattr env cls self "ndim" st
      = bind (default_dispatch env cls self "dim" [] [])
          (fun v => after_answer env cls self "ndim" (Some v)) st
      /\ (source self = None ->
          var_getattr env cls self "ndim" st
          = default_dispatch env cls self "dim" [] [] st)).
Proof.
  intros Hcls. split.
  - intros Hb Hb'.
    assert (E : var_getattr env cls self "data" st
                = bind (default_dispatch env cls self "detach" [] [])
                    (fun v => after_answer env cls self "data" (Some v)) st).
    { unfold var_getattr, strict_mode_check, after_answer. red in Hb. rewrite Hb.
      cbn [String.eqb Ascii.eqb Bool.eqb]. unfold bind, ret.
      rewrite (call_method_unbound env cls self "detach" [] [] st Hcls eq_refl Hb').
      destruct (default_dispatch env cls self "detach" [] [] st); reflexivity. }
    split; [exact E|]. intros Hs. rewrite E. unfold bind at 1.
    destruct (default_dispatch env cls self "detach" [] [] st) as [v st'|e st'];
      [|reflexivity].
    unfold after_answer. rewrite Hs.
    destruct (aten_inplace_view env "data"); reflexivity.
  - intros Hn Hb Hb'.
    assert (E : var_getattr env cls self "ndim" st
                = bind (default_dispatch env cls self "dim" [] [])
                    (fun v => after_answer env cls self "ndim" (Some v)) st).
    { unfold var_getattr, strict_mode_check, after_answer. red in Hb. rewrite Hb, Hn.
      cbn [String.eqb Ascii.eqb Bool.eqb]. unfold bind, ret.
      rewrite (call_method_dim_unknown env cls self st Hcls Hn Hb').
      destruct (default_dispatch env cls self "dim" [] [] st); reflexivity. }
    split; [exact E|]. intros Hs. rewrite E. unfold bind at 1.
    destruct (default_dispatch env cls self "dim" [] [] st) as [v st'|e st'];
      [|reflexivity].
    unfold after_answer. rewrite Hs.
    destruct (aten_inplace_view env "ndim"); reflexivity.
Qed.

Lemma var_getattr_data_and_unknown_ndim_witness :
  var_getattr Sample.env TensorVariable_cls (Sample.blank 0) "data"
    (Sample.placeholder (Some (EvTensor Sample.refined_fake)))
  = default_dispatch Sample.env TensorVariable_cls (Sample.blank 0) "detach" [] []
      (Sample.placeholder (Some (EvTensor Sample.refined_fake)))
  /\ var_getattr Sample.env TensorVariable_cls (Sample.blank 0) "ndim"
       (Sample.placeholder (Some (EvTensor Sample.refined_fake)))
     = default_dispatch Sample.env TensorVariable_cls (Sample.blank 0) "dim" [] []
         (Sample.placeholder (Some (EvTensor Sample.refined_fake))).
Proof.
  assert (Hcls : TensorVariable_cls <> NumpyNdarrayVariable_cls) by discriminate.
  split.
  - exact (proj2 (proj1 (var_getattr_data_and_unknown_ndim Sample.env
                           TensorVariable_cls (Sample.blank 0)
                           (Sample.placeholder (Some (EvTensor Sample.refined_fake)))
                           Hcls) eq_refl eq_refl) eq_refl).
  - exact (proj2 (proj2 (var_getattr_data_and_unknown_ndim Sample.env
                           TensorVariable_cls (Sample.blank 0)
                           (Sample.placeholder (Some (EvTensor Sample.refined_fake)))
                           Hcls) eq_refl eq_refl eq_refl) eq_refl).
Defined.

(** ** Strict mode and the default of [call_method] *)

Lemma call_method_delegated env name args kwargs self st :
  str_in name ["__len__"; "size"; "tolist"] = true ->
  call_method env NumpyNdarrayVariable_cls self name args kwargs st
  = dispatch env (handlers env) NumpyNdarrayVariable_cls self name args kwargs st.
Proof.
  intros H. unfold call_method, call_method_via.
  assert (Hp : patch_args name args kwargs = (args, kwargs)).
  { apply patch_args_other. intros ->. discriminate H. }
  now rewrite Hp, H.
Qed.

(** X23: in strict mode a banned name is refused before anything else is
    looked at.  A method call raises the unsupported-construct signal
    "Illegal method invocation" whatever handler is bound to the name and
    whatever the arguments, and an attribute read raises "Illegal getattr
    invocation", also for [__class__] and for attributes known from the
    metadata; neither records a node or installs a guard.  An array hands
    only [__len__], [size] and [tolist] to this test, and resolves its
    attributes itself. *)
Theorem strict_mode_ban_comes_first env cls self name args kwargs st :
  strict_checks_enabled env = true ->
  str_in name (_autograd_backward_strict_mode_banned_ops env) = true ->
  (cls = NumpyNdarrayVariable_cls ->
   str_in name ["__len__"; "size"; "tolist"] = true) ->
  call_method env cls self name args kwargs st
  = Raised (Unsupported ("Illegal method invocation " ++ name ++ " in strict mode")) st
  /\ (cls <> NumpyNdarrayVariable_cls ->
      var_getattr env cls self name st
      = Raised (Unsupported ("Illegal getattr invocation " ++ name ++ " in strict mode"))
          st).
Proof.
  intros Hs Hb Hcls. split.
  - assert (Hc : call_method env cls self name args kwargs st
                 = dispatch env (handlers env) cls self name args kwargs st).
    { destruct cls; try reflexivity. now apply call_method_delegated, Hcls. }
    rewrite Hc. apply dispatch_banned. unfold not_banned. rewrite Hs, Hb. discriminate.
  - intros _. unfold var_getattr, strict_mode_check. rewrite Hs, Hb. reflexivity.
Qed.

Lemma strict_mode_ban_comes_first_witness :
  call_method strict_env FakeItemVariable_cls (Sample.static_2x3 0) "numel"
    [ConstantVariable (VInt 1) None] [] Sample.empty
  = Raised (Unsupported "Illegal method invocation numel in strict mode") Sample.empty
  /\ var_getattr strict_env FakeItemVariable_cls (Sample.static_2x3 0) "numel"
       Sample.empty
     = Raised (Unsupported "Illegal getattr invocation numel in strict mode")
         Sample.empty.
Proof.
  destruct (strict_mode_ban_comes_first strict_env FakeItemVariable_cls
              (Sample.static_2x3 0) "numel" [ConstantVariable (VInt 1) None] []
              Sample.empty eq_refl eq_refl) as [Hcall Hattr].
  - discriminate.
  - split; [exact Hcall|apply Hattr; discriminate].
Defined.

(** X24: a method that no handler is bound to is recorded: the graph grows
    by the [call_method] node of that name over [self], the arguments and
    the keywords (and by whatever the wrapping of the result adds after
    it), whether the wrapping succeeds or not.  The result is wrapped as a
    plain [TensorVariable] whatever the class of [self] is, unlike the
    items of [unpack_var_sequence], which keep the class of [self]. *)
Theorem unhandled_method_is_recorded env cls self name args kwargs st :
  cls <> NumpyNdarrayVariable_cls ->
  handlers env name = None ->
  not_banned env name ->
  (exists ev extra,
     nodes (state_of (call_method env cls self name args kwargs st))
     = nodes st ++ method_call_node self name args kwargs ev :: extra)
  /\ forall c f st',
       call_method env cls self name args kwargs st
       = Returned (TensorVariable c f) st' ->
       c = TensorVariable_cls.
Proof.
  intros Hcls Hh Hb.
  rewrite (call_method_unbound env cls self name args kwargs st Hcls Hh Hb).
  unfold default_dispatch, proxy_args_kwargs, method_call_node, wrap_fx_proxy.
  cbn [map as_proxy]. unfold bind, create_proxy.
  destruct st as [ns g d]. cbn [nodes guards debugger_stops].
  destruct (wrap_fx_proxy_cls_cases env TensorVariable_cls ns
              (mk_node "call_method" (TMethod name)
                 (AProxy (proxy self) :: map as_proxy args)
                 (map (fun kv => (fst kv, as_proxy (snd kv))) kwargs) None)
              g d None eq_refl)
    as [[e ->]|(r & st' & -> & Hnodes & Hc)].
  - split; [cbn [state_of nodes]; eauto|]. intros c f st' H. discriminate H.
  - split; [exact Hnodes|]. intros c f st'' H. injection H as -> _.
    now apply (Hc c f).
Qed.

Lemma unhandled_method_is_recorded_witness :
  exists ev extra,
    nodes (state_of (call_method Sample.env FakeItemVariable_cls (Sample.blank 0)
                       "detach" [] []
                       (Sample.placeholder (Some (EvTensor Sample.refined_fake)))))
    = nodes (Sample.placeholder (Some (EvTensor Sample.refined_fake)))
      ++ method_call_node (Sample.blank 0) "detach" [] [] ev :: extra.
Proof.
  refine (proj1 (unhandled_method_is_recorded Sample.env FakeItemVariable_cls
                   (Sample.blank 0) "detach" [] []
                   (Sample.placeholder (Some (EvTensor Sample.refined_fake)))
                   _ eq_refl eq_refl)).
  discriminate.
Defined.

(** ** Attributes of arrays *)

(** X25: resolving an attribute of an array starts from the example value
    of its node, whatever the name: without one it fails with [KeyError].
    With one, only [T], [real], [imag], [shape], [stride] and [size] can
    record a node; for every other name the trace is left as it was:
    [base], [flags], [dtype] and [__version__] are refused with the
    unsupported-construct signal, and a name outside all the lists fails
    with [NotImplementedError].  Neither the strict-mode list nor the
    metadata or the source of the variable are consulted. *)
Theorem ndarray_attribute_resolution env (ndarray : Type) tnp_ndarray
    getattr_constant getattr_extents getattr_size self name st :
  let resolve :=
    NumpyNdarrayVariable_var_getattr env ndarray tnp_ndarray getattr_constant
      getattr_extents getattr_size self name in
  (example_value_of st (proxy self) = None ->
   resolve st = Raised (KeyError "example_value") st)
  /\ (str_in name recordable_array_attributes = false ->
      state_of (resolve st) = st
      /\ forall ev a,
           example_value_of st (proxy self) = Some ev ->
           tnp_ndarray ev = inr a ->
           (str_in name ["base"; "flags"; "dtype"] = true ->
            resolve st
            = Raised (Unsupported ("TODO: add support for ndarray." ++ name)) st)
           /\ (name = "__version__" ->
               resolve st
               = Raised (Unsupported "delegate np.__version__ to NumPy") st)
           /\ (str_in name ["ndim"; "itemsize"; "base"; "flags"; "dtype";
                            "__version__"] = false ->
               resolve st = Raised NotImplementedError st)).
Proof.
  intros resolve. subst resolve. unfold NumpyNdarrayVariable_var_getattr. split.
  - intros Hev. unfold bind, meta_get_example_value. now rewrite Hev.
  - intros Hrec. unfold recordable_array_attributes, str_in in Hrec.
    cbn [existsb] in Hrec. rewrite !orb_false_iff in Hrec.
    destruct Hrec as (HT & Hreal & Himag & Hshape & Hstride & Hsize & _).
    assert (E1 : str_in name ["T"; "real"; "imag"] = false)
      by (unfold str_in; cbn [existsb]; now rewrite HT, Hreal, Himag).
    assert (E2 : str_in name ["shape"; "stride"] = false)
      by (unfold str_in; cbn [existsb]; now rewrite Hshape, Hstride).
    rewrite E1, E2, Hsize. split.
    + unfold bind at 1. unfold meta_get_example_value.
      destruct (example_value_of st (proxy self)) as [ev|]; [|reflexivity].
      unfold bind at 1. destruct (tnp_ndarray ev) as [e|a]; [reflexivity|].
      cbn [lift ret].
      destruct (str_in name ["ndim"; "itemsize"]).
      { unfold bind. now destruct (getattr_constant a name). }
      destruct (str_in name ["base"; "flags"; "dtype"]); [reflexivity|].
      destruct (str_in name ["__version__"]); reflexivity.
    + intros ev a Hev Ha.
      assert (Hrun : forall k : ndarray -> M VariableTracker,
                 bind (meta_get_example_value (proxy self))
                   (fun example_value =>
                      match example_value with
                      | None => raise (KeyError "example_value")
                      | Some example_value =>
                          bind (lift (tnp_ndarray example_value)) k
                      end) st = k a st).
      { intros k. unfold bind, meta_get_example_value. now rewrite Hev, Ha. }
      rewrite Hrun. clear Hrun.
      split; [|split].
      * intros Hn.
        assert (E3 : str_in name ["ndim"; "itemsize"] = false).
        { unfold str_in in *. cbn [existsb] in *.
          rewrite !orb_true_iff in Hn. rewrite !orb_false_iff.
          destruct Hn as [Hn|[Hn|[Hn|Hn]]]; [| | |discriminate Hn];
            apply String.eqb_eq in Hn; subst name; repeat split; reflexivity. }
        now rewrite E3, Hn.
      * intros ->. reflexivity.
      * intros Hn. unfold str_in in Hn. cbn [existsb] in Hn.
        rewrite !orb_false_iff in Hn.
        destruct Hn as (H1 & H2 & H3 & H4 & H5 & H6 & _).
        unfold str_in. cbn [existsb]. now rewrite H1, H2, H3, H4, H5, H6.
Qed.

Lemma ndarray_attribute_resolution_witness :
  NumpyNdarrayVariable_var_getattr Sample.env FakeTensor sample_tnp_ndarray
    sample_getattr_constant sample_getattr_extents sample_getattr_size
    (Sample.static_2x3 0) "dtype"
    (Sample.placeholder (Some (EvTensor Sample.refined_fake)))
  = Raised (Unsupported "TODO: add support for ndarray.dtype")
      (Sample.placeholder (Some (EvTensor Sample.refined_fake)))
  /\ NumpyNdarrayVariable_var_getattr Sample.env FakeTensor sample_tnp_ndarray
       sample_getattr_constant sample_getattr_extents sample_getattr_size
       (Sample.static_2x3 0) "dtype" Sample.empty
     = Raised (KeyError "example_value") Sample.empty.
Proof.
  split.
  - exact (proj1 (proj2 (proj2 (ndarray_attribute_resolution Sample.env FakeTensor
                                  sample_tnp_ndarray sample_getattr_constant
                                  sample_getattr_extents sample_getattr_size
                                  (Sample.static_2x3 0) "dtype"
                                  (Sample.placeholder
                                     (Some (EvTensor Sample.refined_fake))))
                           eq_refl)
                    (EvTensor Sample.refined_fake) Sample.refined_fake
                    eq_refl eq_refl) eq_refl).
  - exact (proj1 (ndarray_attribute_resolution Sample.env FakeTensor
                    sample_tnp_ndarray sample_getattr_constant
                    sample_getattr_extents sample_getattr_size
                    (Sample.static_2x3 0) "dtype" Sample.empty) eq_refl).
Defined.
